(** * World economic dashboard: the data pipeline of [main.py]

    A shallow embedding of the dashboard's data functions
    ([fetch_all_countries], [fetch_country_data], [create_chart],
    [export_to_csv], [parse_uploaded_csv]) and of the callbacks that hold
    its view state ([fetch_and_display_data], [create_charts_and_export],
    [clear_all_data]), with the properties the specification states about
    them.

    Conventions.
    - Python exceptions are explicit: a computation returns [Normal a] or
      [Raised], and the state it has written so far survives a raise, as a
      list appended to in place does.
    - The network, the clock and anything else outside the process are an
      abstract world [W] with the operations the code calls on it.
    - A Python float is an exact rational ([Q]); rounding is outside the
      model.
    - pandas, plotly and dash objects are plain data: a frame is its column
      names and its rows, a figure is what it plots. *)

From Stdlib Require Import List String Ascii ZArith QArith Bool Lia.
From Stdlib Require Import Sorting.Sorted Sorting.Permutation.
From Stdlib Require Import DecimalString DecimalZ.
Import ListNotations.
Open Scope string_scope.
Open Scope Z_scope.

Set Implicit Arguments.

(** ** Python control flow: state and exceptions *)

Module Py.

Inductive outcome (A : Type) : Type :=
| Normal (a : A)
| Raised.
Arguments Normal {A} a.
Arguments Raised {A}.

(** A statement run on a state [S]: the state is returned in both cases. *)
Definition M (S A : Type) : Type := S -> outcome A * S.

Definition ret {S A} (a : A) : M S A := fun s => (Normal a, s).

Definition bind {S A B} (m : M S A) (k : A -> M S B) : M S B :=
  fun s => match m s with
           | (Normal a, s') => k a s'
           | (Raised, s') => (Raised, s')
           end.

Definition raise {S A} : M S A := fun s => (Raised, s).
Definition get {S} : M S S := fun s => (Normal s, s).
Definition modify {S} (f : S -> S) : M S unit := fun s => (Normal tt, f s).

(** [try: body except Exception: handler] *)
Definition try_except {S A} (body handler : M S A) : M S A :=
  fun s => match body s with
           | (Normal a, s') => (Normal a, s')
           | (Raised, s') => handler s'
           end.

(** [for x in xs: body x] *)
Fixpoint for_each {S A} (xs : list A) (body : A -> M S unit) : M S unit :=
  match xs with
  | [] => ret tt
  | x :: xs' => bind (body x) (fun _ => for_each xs' body)
  end.

(** [out = []; for x in xs: out.append(f(x))] where [f] reads no state: the
    first call that raises ends the loop. *)
Fixpoint collect {A B} (f : A -> outcome B) (xs : list A) : outcome (list B) :=
  match xs with
  | [] => Normal []
  | x :: xs' =>
      match f x with
      | Raised => Raised
      | Normal y =>
          match collect f xs' with
          | Raised => Raised
          | Normal ys => Normal (y :: ys)
          end
      end
  end.

End Py.

Import Py.

Declare Scope py_scope.
Delimit Scope py_scope with py.
Notation "x <- m ;; k" := (bind m (fun x => k))
  (at level 61, m at next level, right associativity) : py_scope.
Notation "m ;; k" := (bind m (fun _ => k))
  (at level 61, right associativity) : py_scope.
Open Scope py_scope.

(** ** Python dictionaries with string keys, in insertion order *)

Definition dict (V : Type) : Type := list (string * V).

Fixpoint dict_get {V} (d : dict V) (k : string) : option V :=
  match d with
  | [] => None
  | (k', v) :: d' => if String.eqb k k' then Some v else dict_get d' k
  end.

(** [d[k] = v]: an existing key keeps its place and takes the new value. *)
Fixpoint dict_set {V} (d : dict V) (k : string) (v : V) : dict V :=
  match d with
  | [] => [(k, v)]
  | (k', v') :: d' =>
      if String.eqb k k' then (k', v) :: d' else (k', v') :: dict_set d' k v
  end.

(** [list(d.keys())] *)
Definition keys {V} (d : dict V) : list string := map fst d.

(** ** config.py *)

Definition ECONOMIC_INDICATORS : dict string := [
    ("GDP (Current US$)", "NY.GDP.MKTP.CD");
    ("GDP Growth (Annual %)", "NY.GDP.MKTP.KD.ZG");
    ("GDP Per Capita", "NY.GDP.PCAP.CD");
    ("GDP Per Capita Growth", "NY.GDP.PCAP.KD.ZG");
    ("GNI Per Capita", "NY.GNP.PCAP.CD");
    ("GNI Atlas Method", "NY.GNP.PCAP.CD");
    ("GDP Deflator", "NY.GDP.DEFL.ZS");
    ("Gross Capital Formation", "NE.GDI.TOTL.ZS");
    ("Final Consumption Expenditure", "NE.CON.TOTL.ZS");
    ("Inflation Rate (Consumer Prices)", "FP.CPI.TOTL.ZG");
    ("Food Inflation", "FP.CPI.FOOD.ZG");
    ("Core Inflation", "FP.CPI.TOTL.ZG");
    ("Money Supply Growth", "FM.LBL.BMNY.ZG");
    ("Interest Rate", "FR.INR.RINR");
    ("Real Interest Rate", "FR.INR.RINR");
    ("Exchange Rate", "PA.NUS.FCRF");
    ("Official Exchange Rate", "PA.NUS.FCRF");
    ("Unemployment Rate", "SL.UEM.TOTL.ZS");
    ("Youth Unemployment", "SL.UEM.1524.ZS");
    ("Female Unemployment", "SL.UEM.TOTL.FE.ZS");
    ("Male Unemployment", "SL.UEM.TOTL.MA.ZS");
    ("Labor Force Participation", "SL.TLF.CACT.ZS");
    ("Employment in Services (%)", "SL.SRV.EMPL.ZS");
    ("Employment in Industry (%)", "SL.IND.EMPL.ZS");
    ("Employment in Agriculture (%)", "SL.AGR.EMPL.ZS");
    ("Labor Productivity", "SL.GDP.PCAP.EM.KD");
    ("Population", "SP.POP.TOTL");
    ("Population Growth", "SP.POP.GROW");
    ("Urban Population (%)", "SP.URB.TOTL.IN.ZS");
    ("Rural Population (%)", "SP.RUR.TOTL.ZS");
    ("Population Density", "EN.POP.DNST");
    ("Life Expectancy", "SP.DYN.LE00.IN");
    ("Female Life Expectancy", "SP.DYN.LE00.FE.IN");
    ("Male Life Expectancy", "SP.DYN.LE00.MA.IN");
    ("Fertility Rate", "SP.DYN.TFRT.IN");
    ("Birth Rate", "SP.DYN.CBRT.IN");
    ("Death Rate", "SP.DYN.CDRT.IN");
    ("Infant Mortality Rate", "SP.DYN.IMRT.IN");
    ("Child Mortality Rate (Under 5)", "SH.DYN.MORT");
    ("Age Dependency Ratio", "SP.POP.DPND");
    ("Exports of Goods and Services", "NE.EXP.GNFS.CD");
    ("Imports of Goods and Services", "NE.IMP.GNFS.CD");
    ("Trade Balance", "NE.RSB.GNFS.CD");
    ("Trade (% of GDP)", "NE.TRD.GNFS.ZS");
    ("Current Account Balance", "BN.CAB.XOKA.CD");
    ("Current Account Balance (% GDP)", "BN.CAB.XOKA.GD.ZS");
    ("Merchandise Trade (% GDP)", "TG.VAL.TOTL.GD.ZS");
    ("Services Trade (% GDP)", "BG.GSR.NFSV.GD.ZS");
    ("Export Value Index", "TX.QTY.MRCH.XD.WD");
    ("Import Value Index", "TM.QTY.MRCH.XD.WD");
    ("Terms of Trade", "TT.PRI.MRCH.XD.WD");
    ("Foreign Direct Investment", "BX.KLT.DINV.CD.WD");
    ("FDI Inflows (% GDP)", "BX.KLT.DINV.WD.GD.ZS");
    ("FDI Outflows", "BM.KLT.DINV.CD.WD");
    ("Portfolio Investment", "BX.PEF.TOTL.CD.WD");
    ("External Debt", "DT.DOD.DECT.CD");
    ("Total Reserves", "FI.RES.TOTL.CD");
    ("Reserves (Months of Imports)", "FI.RES.TOTL.MO");
    ("Government Debt (% of GDP)", "GC.DOD.TOTL.GD.ZS");
    ("Government Expenditure (% of GDP)", "GC.XPN.TOTL.GD.ZS");
    ("Government Revenue (% GDP)", "GC.REV.TOTL.GD.ZS");
    ("Tax Revenue (% of GDP)", "GC.TAX.TOTL.GD.ZS");
    ("Budget Balance (% GDP)", "GC.BAL.TOTL.GD.ZS");
    ("Military Expenditure (% of GDP)", "MS.MIL.XPND.GD.ZS");
    ("Public Debt Service", "GC.DOD.TOTL.GD.ZS");
    ("Internet Users (%)", "IT.NET.USER.ZS");
    ("Mobile Subscriptions", "IT.CEL.SETS.P2");
    ("Fixed Broadband Subscriptions", "IT.NET.BBND.P2");
    ("Telephone Lines", "IT.MLT.MAIN.P2");
    ("Electric Power Consumption", "EG.USE.ELEC.KH.PC");
    ("Electricity Production", "EG.ELC.PROD.KH");
    ("Energy Use Per Capita", "EG.USE.PCAP.KG.OE");
    ("Railway Lines (km)", "IS.RRS.TOTL.KM");
    ("Road Density", "IS.ROD.DNST.K2");
    ("Air Transport Passengers", "IS.AIR.PSGR");
    ("Container Port Traffic", "IS.SHP.GOOD.TU");
    ("CO2 Emissions (kt)", "EN.ATM.CO2E.KT");
    ("CO2 Emissions Per Capita", "EN.ATM.CO2E.PC");
    ("Methane Emissions", "EN.ATM.METH.KT.CE");
    ("Nitrous Oxide Emissions", "EN.ATM.NOXE.KT.CE");
    ("Renewable Energy (%)", "EG.FEC.RNEW.ZS");
    ("Fossil Fuel Consumption", "EG.USE.COMM.FO.ZS");
    ("Forest Area (%)", "AG.LND.FRST.ZS");
    ("Agricultural Land (%)", "AG.LND.AGRI.ZS");
    ("Arable Land (%)", "AG.LND.ARBL.ZS");
    ("Water Resources", "ER.H2O.INTR.PC");
    ("PM2.5 Air Pollution", "EN.ATM.PM25.MC.M3");
    ("Education Expenditure (% of GDP)", "SE.XPD.TOTL.GD.ZS");
    ("Primary Education Completion", "SE.PRM.CMPT.ZS");
    ("Secondary Education Enrollment", "SE.SEC.NENR");
    ("Tertiary Education Enrollment", "SE.TER.ENRR");
    ("Adult Literacy Rate", "SE.ADT.LITR.ZS");
    ("Youth Literacy Rate", "SE.ADT.1524.LT.ZS");
    ("Female Literacy Rate", "SE.ADT.LITR.FE.ZS");
    ("School Life Expectancy", "SE.SCH.LIFE");
    ("Primary School Enrollment", "SE.PRM.NENR");
    ("Pupil-Teacher Ratio", "SE.PRM.ENRL.TC.ZS");
    ("Health Expenditure (% of GDP)", "SH.XPD.CHEX.GD.ZS");
    ("Health Expenditure Per Capita", "SH.XPD.CHEX.PC.CD");
    ("Hospital Beds (per 1000)", "SH.MED.BEDS.ZS");
    ("Physicians (per 1000)", "SH.MED.PHYS.ZS");
    ("Nurses and Midwives (per 1000)", "SH.MED.NUMW.P3");
    ("Immunization Rate (DPT)", "SH.IMM.IDPT");
    ("Immunization Rate (Measles)", "SH.IMM.MEAS");
    ("Maternal Mortality Rate", "SH.STA.MMRT");
    ("Malnutrition Prevalence", "SH.STA.MALN.ZS");
    ("HIV Prevalence", "SH.DYN.AIDS.ZS");
    ("Tuberculosis Incidence", "SH.TBS.INCD");
    ("Food Production Index", "AG.PRD.FOOD.XD");
    ("Crop Production Index", "AG.PRD.CROP.XD");
    ("Livestock Production Index", "AG.PRD.LVSK.XD");
    ("Fertilizer Consumption", "AG.CON.FERT.ZS");
    ("Cereal Yield", "AG.YLD.CREL.KG");
    ("Agricultural Value Added", "NV.AGR.TOTL.ZS");
    ("Rural Population", "SP.RUR.TOTL.ZS");
    ("Permanent Cropland", "AG.LND.CROP.ZS");
    ("R&D Expenditure (% of GDP)", "GB.XPD.RSDV.GD.ZS");
    ("Researchers (per million)", "SP.POP.SCIE.RD.P6");
    ("Patent Applications", "IP.PAT.RESD");
    ("Trademark Applications", "IP.TMK.RESD");
    ("High-tech Exports (%)", "TX.VAL.TECH.CD");
    ("Scientific Publications", "IP.JRN.ARTC.SC");
    ("Poverty Headcount ($1.90)", "SI.POV.DDAY");
    ("Poverty Headcount ($3.20)", "SI.POV.LMIC");
    ("Poverty Headcount ($5.50)", "SI.POV.UMIC");
    ("GINI Index", "SI.POV.GINI");
    ("Income Share - Bottom 10%", "SI.DST.FRST.10");
    ("Income Share - Top 10%", "SI.DST.10TH.10");
    ("Social Protection Coverage", "per_si_allsi.cov_pop_tot")
  ].

(** [CACHE_CONFIG['countries_cache_hours']]: hours to cache the countries
    list. [main.py] imports [CACHE_CONFIG] and never reads it. *)
Definition countries_cache_hours : Z := 24.

(** ** main.py: module constants *)

Definition ALL_INDICATORS : dict string := ECONOMIC_INDICATORS.

(** ** The data model *)

(** One row of a dataset: a row of a frame whose five columns hold two
    texts for the country, the indicator label, a year and a value. *)
Record IndicatorRecord : Type := {
  country_code : string;
  country_name : string;
  indicator : string;
  year : Z;
  value : Q
}.

(** ** The outside world *)

(** [entry['value']] of one observation of a World Bank payload, by what the
    code does with it. *)
Inductive value_field : Type :=
| ValueMissing            (* entry['value'] raises *)
| ValueNull               (* entry['value'] is None *)
| ValueNumber (x : Q)     (* float(entry['value']) is x *)
| ValueNotNumber.         (* float(entry['value']) raises *)

(** [entry['country']['value']], which the code stores as it comes, without
    converting it: a JSON string, or a JSON array or object, which is a
    list or a dict that pandas cannot hash. A number, a boolean or null in
    that place is left out: whether the sort takes it depends on the other
    names of the frame. *)
Inductive json_value : Type :=
| JsonString (s : string)
| JsonUnhashable.

Record entry : Type := {
  entry_value : value_field;
  entry_country_value : option json_value;  (* entry['country']['value']; None: raises *)
  entry_date : option Z                     (* int(entry['date']); None: raises *)
}.

(** What [requests.get(...)], [raise_for_status()] and [response.json()]
    leave in [data]. *)
Inductive response : Type :=
| RequestFailed            (* one of the three raised, or data cannot be indexed or iterated *)
| NoData                   (* not (len(data) > 1 and data[1]) *)
| Data (entries : list entry).   (* data[1] *)

(** One element of [data[1]] of the country directory. *)
Inductive country_entry : Type :=
| Country (name id capitalCity longitude latitude : string)
| BadCountry.              (* a key is missing: the lookup raises *)

Inductive directory_response : Type :=
| DirectoryFailed
| DirectoryNoData
| DirectoryData (countries : list country_entry).

(** The operations [main.py] calls on the world. Times are microseconds
    since an arbitrary epoch. *)
Class World (W : Type) : Type := {
  (** requests.get(".../country/{country_code}/indicator/{indicator_code}",
      params={'format': 'json', 'date': "{start}:{end}", 'per_page': 1000}) *)
  get_indicator : string -> string -> Z -> Z -> W -> response * W;
  (** requests.get(".../country?format=json&per_page=500") *)
  get_countries : W -> directory_response * W;
  (** datetime.now() *)
  datetime_now : W -> Z * W
}.

(** ** fetch_country_data *)

(** The dictionary appended to [all_data] for one observation. *)
Record appended_row : Type := {
  row_country_code : string;
  row_country_name : json_value;
  row_indicator : string;
  row_year : Z;
  row_value : Q
}.

Record fetch_state (W : Type) : Type := {
  world : W;
  all_data : list appended_row;
  printed : list (string * string)   (* "Error fetching {indicator} for {country}" *)
}.
Arguments world {W} _.
Arguments all_data {W} _.
Arguments printed {W} _.

Definition requests_get {W} `{World W} (country_code indicator_code : string)
    (start_year end_year : Z) : M (fetch_state W) response :=
  fun s =>
    let (r, w) := get_indicator country_code indicator_code start_year end_year (world s) in
    (Normal r, {| world := w; all_data := all_data s; printed := printed s |}).

Definition all_data_append {W} (r : appended_row) : M (fetch_state W) unit :=
  modify (fun s => {| world := world s; all_data := all_data s ++ [r];
                      printed := printed s |}).

Definition print_error {W} (indicator_name country_code : string)
    : M (fetch_state W) unit :=
  modify (fun s => {| world := world s; all_data := all_data s;
                      printed := printed s ++ [(indicator_name, country_code)] |}).

(** What the body of [for entry in data[1]] makes of one observation: it
    raises, skips a null value, or builds the row to append. *)
Definition convert_entry (country_code indicator_name : string) (e : entry)
    : outcome (option appended_row) :=
  match entry_value e with
  | ValueMissing => Raised
  | ValueNull => Normal None
  | ValueNotNumber => Raised
  | ValueNumber x =>
      match entry_country_value e, entry_date e with
      | Some name, Some y =>
          Normal (Some {| row_country_code := country_code;
                          row_country_name := name;
                          row_indicator := indicator_name;
                          row_year := y;
                          row_value := x |})
      | _, _ => Raised
      end
  end.

Definition append_entry {W} (country_code indicator_name : string) (e : entry)
    : M (fetch_state W) unit :=
  match convert_entry country_code indicator_name e with
  | Raised => raise
  | Normal None => ret tt
  | Normal (Some r) => all_data_append r
  end.

(** [df.sort_values(['country_name', 'indicator', 'year'])]: strings compare
    by code point, which is the byte order of their UTF-8 text. *)
Definition compare_rows (a b : IndicatorRecord) : comparison :=
  match String.compare (country_name a) (country_name b) with
  | Eq => match String.compare (indicator a) (indicator b) with
          | Eq => Z.compare (year a) (year b)
          | c => c
          end
  | c => c
  end.

Definition row_leb (a b : IndicatorRecord) : bool :=
  match compare_rows a b with Gt => false | _ => true end.

Fixpoint insert_row (r : IndicatorRecord) (l : list IndicatorRecord)
    : list IndicatorRecord :=
  match l with
  | [] => [r]
  | x :: l' => if row_leb r x then r :: l else x :: insert_row r l'
  end.

(** Two rows the sort does not tell apart. *)
Definition same_key (a b : IndicatorRecord) : bool :=
  match compare_rows a b with Eq => true | _ => false end.

(** Sorting on several columns is a stable sort in pandas; an insertion
    sort that puts a row before the first row not below it stands for it. *)
Fixpoint sort_rows (l : list IndicatorRecord) : list IndicatorRecord :=
  match l with
  | [] => []
  | r :: l' => insert_row r (sort_rows l')
  end.

(** A row of [all_data] in a frame, when its country name is text. *)
Definition typed_row (a : appended_row) : option IndicatorRecord :=
  match row_country_name a with
  | JsonString name =>
      Some {| country_code := row_country_code a;
              country_name := name;
              indicator := row_indicator a;
              year := row_year a;
              value := row_value a |}
  | JsonUnhashable => None
  end.

Definition typed_rows (rows : list appended_row) : list IndicatorRecord :=
  flat_map (fun a => match typed_row a with Some r => [r] | None => [] end) rows.

Definition unhashable_name (a : appended_row) : bool :=
  match row_country_name a with
  | JsonUnhashable => true
  | JsonString _ => false
  end.

(** [pd.DataFrame(all_data).sort_values(['country_name', 'indicator', 'year'])].
    Building the frame takes any value as a name. The sort on several
    columns factorises each key column, which raises TypeError on a name
    that cannot be hashed; the sort is not inside a [try]. *)
Definition sort_values (all_data : list appended_row)
    : outcome (list IndicatorRecord) :=
  if existsb unhashable_name all_data then Raised
  else Normal (sort_rows (typed_rows all_data)).

(** The body of the inner loop, and the two loops. *)
Definition fetch_pair {W} `{World W} (start_year end_year : Z)
    (country_code indicator_name : string) : M (fetch_state W) unit :=
  match dict_get ALL_INDICATORS indicator_name with
  | None => ret tt                 (* not in ALL_INDICATORS: continue *)
  | Some indicator_code =>
      try_except
        (data <- requests_get country_code indicator_code start_year end_year ;;
         match data with
         | RequestFailed => raise
         | NoData => ret tt
         | Data entries =>
             for_each entries (append_entry country_code indicator_name)
         end)
        (print_error indicator_name country_code)      (* continue *)
  end.

Definition fetch_loop {W} `{World W} (country_codes : list string)
    (start_year end_year : Z) (indicators : list string)
    : M (fetch_state W) unit :=
  for_each country_codes (fun country_code =>
    for_each indicators (fetch_pair start_year end_year country_code)).

(** [time.sleep(0.05)] between requests writes nothing and is left out.
    The empty list stands for [pd.DataFrame()]. *)
Definition fetch_country_data {W} `{World W}
    (country_codes : string + list string) (start_year end_year : Z)
    (indicators : option (list string)) : M (fetch_state W) (list IndicatorRecord) :=
  let country_codes :=
    match country_codes with inl code => [code] | inr codes => codes end in
  let indicators :=
    match indicators with None => keys ALL_INDICATORS | Some l => l end in
  fetch_loop country_codes start_year end_year indicators ;;
  s <- get ;;
  match all_data s with
  | [] => ret []
  | _ :: _ =>
      match sort_values (all_data s) with
      | Normal df => ret df
      | Raised => raise
      end
  end.

(** A call starts with [all_data = []]. *)
Definition call_fetch_country_data {W} `{World W}
    (country_codes : string + list string) (start_year end_year : Z)
    (indicators : option (list string)) (w : W)
    : outcome (list IndicatorRecord) * fetch_state W :=
  fetch_country_data country_codes start_year end_year indicators
    {| world := w; all_data := []; printed := [] |}.

(** *** What a run of the loops requests and collects *)

(** The rows a payload adds to [all_data]: observations are converted in
    order until one raises. *)
Fixpoint rows_before_raise (country_code indicator_name : string)
    (entries : list entry) : list appended_row :=
  match entries with
  | [] => []
  | e :: entries' =>
      match convert_entry country_code indicator_name e with
      | Raised => []
      | Normal None => rows_before_raise country_code indicator_name entries'
      | Normal (Some r) =>
          r :: rows_before_raise country_code indicator_name entries'
      end
  end.

Definition entry_raises (country_code indicator_name : string) (e : entry) : bool :=
  match convert_entry country_code indicator_name e with
  | Raised => true
  | Normal _ => false
  end.

(** One request of a run: the pair and what the world answered. *)
Record served : Type := {
  served_country : string;
  served_indicator : string;
  served_response : response
}.

Definition served_rows (t : served) : list appended_row :=
  match served_response t with
  | Data entries =>
      rows_before_raise (served_country t) (served_indicator t) entries
  | _ => []
  end.

(** The [except] branch runs for this request. *)
Definition served_failed (t : served) : bool :=
  match served_response t with
  | RequestFailed => true
  | NoData => false
  | Data entries =>
      existsb (entry_raises (served_country t) (served_indicator t)) entries
  end.

(** The requests the loops issue from world [w], pair by pair. *)
Fixpoint serve_pairs {W} `{World W} (start_year end_year : Z)
    (pairs : list (string * string)) (w : W) : list served * W :=
  match pairs with
  | [] => ([], w)
  | (country_code, indicator_name) :: pairs' =>
      match dict_get ALL_INDICATORS indicator_name with
      | None => serve_pairs start_year end_year pairs' w
      | Some indicator_code =>
          let (r, w') :=
            get_indicator country_code indicator_code start_year end_year w in
          let (tr, w'') := serve_pairs start_year end_year pairs' w' in
          ({| served_country := country_code;
              served_indicator := indicator_name;
              served_response := r |} :: tr, w'')
      end
  end.

(** The lines the [except] branch prints during these requests. *)
Definition failed_pairs (tr : list served) : list (string * string) :=
  map (fun t => (served_indicator t, served_country t)) (filter served_failed tr).

(** The pairs the two loops visit, in order. *)
Definition requested_pairs (country_codes : string + list string)
    (indicators : option (list string)) : list (string * string) :=
  list_prod
    (match country_codes with inl code => [code] | inr codes => codes end)
    (match indicators with None => keys ALL_INDICATORS | Some l => l end).



(** An observation the loop body handles without raising. *)
Definition well_formed (e : entry) : bool :=
  match entry_value e with
  | ValueNull => true
  | ValueNumber _ =>
      match entry_country_value e, entry_date e with
      | Some _, Some _ => true
      | _, _ => false
      end
  | _ => false
  end.


(** Row [r] records observation [e] of the pair [(cc, ind)]. *)
Definition records (o : string * string * entry) (r : IndicatorRecord) : Prop :=
  let '(cc, ind, e) := o in
  country_code r = cc /\ indicator r = ind /\
  entry_country_value e = Some (JsonString (country_name r)) /\
  entry_date e = Some (year r) /\
  entry_value e = ValueNumber (value r).




(** ** fetch_all_countries *)

(** The module globals, next to the world. *)
Record module_state (W : Type) : Type := {
  process_world : W;
  _countries_cache : option (dict string);
  _cache_timestamp : option Z
}.
Arguments process_world {W} _.
Arguments _countries_cache {W} _.
Arguments _cache_timestamp {W} _.

(** [timedelta.seconds] of a difference of [d] microseconds: the seconds
    field of the normalised (days, seconds, microseconds) triple. *)
Definition timedelta_seconds (d : Z) : Z := (d / 1000000) mod 86400.

(** [timedelta.total_seconds()], in whole seconds. *)
Definition timedelta_total_seconds (d : Z) : Z := d / 1000000.

Definition now {W} `{World W} : M (module_state W) Z :=
  fun s =>
    let (t, w) := datetime_now (process_world s) in
    (Normal t, {| process_world := w;
                  _countries_cache := _countries_cache s;
                  _cache_timestamp := _cache_timestamp s |}).

Definition requests_get_countries {W} `{World W}
    : M (module_state W) directory_response :=
  fun s =>
    let (r, w) := get_countries (process_world s) in
    (Normal r, {| process_world := w;
                  _countries_cache := _countries_cache s;
                  _cache_timestamp := _cache_timestamp s |}).

Definition set_cache {W} (cache : dict string) (t : Z) : M (module_state W) unit :=
  modify (fun s => {| process_world := process_world s;
                      _countries_cache := Some cache;
                      _cache_timestamp := Some t |}).

(** Truth value of a string. *)
Definition truthy (s : string) : bool := negb (String.eqb s "").

(** [for country in data[1]: if ...: countries[country['name']] = country['id']] *)
Fixpoint collect_countries (entries : list country_entry) (countries : dict string)
    : outcome (dict string) :=
  match entries with
  | [] => Normal countries
  | BadCountry :: _ => Raised
  | Country name id capitalCity longitude latitude :: entries' =>
      collect_countries entries'
        (if truthy capitalCity && truthy longitude && truthy latitude
         then dict_set countries name id
         else countries)
  end.

Fixpoint insert_item (kv : string * string) (l : dict string) : dict string :=
  match l with
  | [] => [kv]
  | x :: l' =>
      match String.compare (fst kv) (fst x) with
      | Gt => x :: insert_item kv l'
      | _ => kv :: l
      end
  end.

(** [dict(sorted(countries.items()))]: the keys are distinct, so the items
    sort by name. *)
Fixpoint sorted_items (countries : dict string) : dict string :=
  match countries with
  | [] => []
  | kv :: l => insert_item kv (sorted_items l)
  end.

Definition FALLBACK_COUNTRIES : dict string := [
    ("United States", "USA"); ("China", "CHN"); ("Japan", "JPN");
    ("Germany", "DEU"); ("India", "IND"); ("United Kingdom", "GBR");
    ("France", "FRA"); ("Italy", "ITA"); ("Brazil", "BRA");
    ("Canada", "CAN"); ("Russia", "RUS"); ("South Korea", "KOR")
  ].

Definition fetch_all_countries {W} `{World W} : M (module_state W) (dict string) :=
  s <- get ;;
  fresh <- match _countries_cache s, _cache_timestamp s with
           | Some _, Some timestamp =>
               t <- now ;;
               ret (timedelta_seconds (t - timestamp) <? 86400)
           | _, _ => ret false
           end ;;
  match fresh, _countries_cache s with
  | true, Some cache => ret cache
  | _, _ =>
      try_except
        (data <- requests_get_countries ;;
         match data with
         | DirectoryFailed => raise
         | _ =>
             match collect_countries
                     (match data with DirectoryData l => l | _ => [] end) [] with
             | Raised => raise
             | Normal countries =>
                 let cache := sorted_items countries in
                 t <- now ;;
                 set_cache cache t ;;
                 ret cache
             end
         end)
        (ret FALLBACK_COUNTRIES)
  end.

(** ** create_chart *)

(** What a plotly figure shows. The layout applied to every chart (height,
    legend, margins, colours) is left out. *)
Inductive Figure : Type :=
| Annotation (text : string)     (* go.Figure().add_annotation(text=...) *)
| PxLine (data : list IndicatorRecord) (title : string)
| PxBar (data : list IndicatorRecord) (title : string)
| PxScatter (data : list IndicatorRecord) (title : string)
| PxArea (data : list IndicatorRecord) (title : string)
| PxBox (data : list IndicatorRecord) (title : string)
| GoHeatmap (z : list (list Q)) (x : list Z) (y : list string) (title : string)
| PxHistogram (data : list IndicatorRecord) (title : string).

(** [f"{n}"] for an integer. *)
Definition str_of_int (n : Z) : string := NilZero.string_of_int (Z.to_int n).

(** [df[df['indicator'] == indicator]] *)
Definition rows_of_indicator (df : list IndicatorRecord) (ind : string)
    : list IndicatorRecord :=
  filter (fun r => String.eqb (indicator r) ind) df.

(** [data[data['country_code'].isin(countries)]] *)
Definition rows_of_countries (data : list IndicatorRecord) (countries : list string)
    : list IndicatorRecord :=
  filter (fun r => existsb (String.eqb (country_code r)) countries) data.

(** [data['year'].max()] of a frame with rows. *)
Definition max_year (data : list IndicatorRecord) : Z :=
  match data with
  | [] => 0
  | r :: data' => fold_left Z.max (map year data') (year r)
  end.

(** *** pivot_table *)

Definition key_eqb (a b : string * Z) : bool :=
  String.eqb (fst a) (fst b) && Z.eqb (snd a) (snd b).

(** Grouping by (country_name, year): each group keeps its values in row
    order. *)
Fixpoint group_add (groups : list ((string * Z) * list Q)) (k : string * Z) (v : Q)
    : list ((string * Z) * list Q) :=
  match groups with
  | [] => [(k, [v])]
  | (k', vs) :: groups' =>
      if key_eqb k k' then (k', (vs ++ [v])%list) :: groups'
      else (k', vs) :: group_add groups' k v
  end.

Definition groupby (data : list IndicatorRecord) : list ((string * Z) * list Q) :=
  fold_left (fun groups r => group_add groups (country_name r, year r) (value r))
            data [].

Fixpoint group_get (groups : list ((string * Z) * list Q)) (k : string * Z)
    : option (list Q) :=
  match groups with
  | [] => None
  | (k', vs) :: groups' => if key_eqb k k' then Some vs else group_get groups' k
  end.

(** [aggfunc='mean'] *)
Definition mean (vs : list Q) : Q :=
  (fold_left Qplus vs 0 / inject_Z (Z.of_nat (List.length vs)))%Q.

Fixpoint insert_year (y : Z) (l : list Z) : list Z :=
  match l with
  | [] => [y]
  | x :: l' =>
      match Z.compare y x with
      | Lt => y :: l
      | Eq => l
      | Gt => x :: insert_year y l'
      end
  end.

Fixpoint insert_name (n : string) (l : list string) : list string :=
  match l with
  | [] => [n]
  | x :: l' =>
      match String.compare n x with
      | Lt => n :: l
      | Eq => l
      | Gt => x :: insert_name n l'
      end
  end.

(** The labels of an axis of the pivot: the distinct values, ascending. *)
Definition sorted_years (l : list Z) : list Z := fold_right insert_year [] l.
Definition sorted_names (l : list string) : list string := fold_right insert_name [] l.

(** A pivoted frame; [None] is NaN. *)
Record pivot : Type := {
  pivot_index : list string;
  pivot_columns : list Z;
  pivot_values : list (list (option Q))
}.

(** [data.pivot_table(values='value', index='country_name', columns='year',
    aggfunc='mean')] *)
Definition pivot_table (data : list IndicatorRecord) : pivot :=
  let groups := groupby data in
  let index := sorted_names (map country_name data) in
  let columns := sorted_years (map year data) in
  {| pivot_index := index;
     pivot_columns := columns;
     pivot_values :=
       map (fun c => map (fun y => option_map mean (group_get groups (c, y)))
                         columns)
           index |}.

(** [.fillna(v)] *)
Definition fillna (v : Q) (p : pivot) : list (list Q) :=
  map (map (fun cell => match cell with Some x => x | None => v end))
      (pivot_values p).

(** A value below zero, which plotly refuses as the size of a marker. *)
Definition negative (x : Q) : bool := (Qnum x <? 0)%Z.

(** [countries] is [None] or a list; an empty list is false as well.
    [px.scatter(..., size="value")] raises ValueError when a value to plot
    is negative; nothing in [create_chart] catches it. *)
Definition create_chart (df : list IndicatorRecord) (ind : string)
    (chart_type : string) (countries : option (list string)) : outcome Figure :=
  match df with
  | [] => Normal (Annotation "No data available")
  | _ :: _ =>
      let indicator_data := rows_of_indicator df ind in
      match indicator_data with
      | [] => Normal (Annotation ("No data available for " ++ ind))
      | _ :: _ =>
          let indicator_data :=
            match countries with
            | Some (c :: cs) => rows_of_countries indicator_data (c :: cs)
            | _ => indicator_data
            end in
          match indicator_data with
          | [] => Normal (Annotation ("No data available for " ++ ind
                                      ++ " with selected countries"))
          | _ :: _ =>
              if String.eqb chart_type "line" then
                Normal (PxLine indicator_data ("📈 " ++ ind ++ " - Trend Analysis"))
              else if String.eqb chart_type "bar" then
                let latest_year := max_year indicator_data in
                let latest_data :=
                  filter (fun r => Z.eqb (year r) latest_year) indicator_data in
                Normal (PxBar latest_data
                  ("📊 " ++ ind ++ " (" ++ str_of_int latest_year ++ ") - Comparison"))
              else if String.eqb chart_type "scatter" then
                if existsb (fun r => negative (value r)) indicator_data then Raised
                else
                  Normal (PxScatter indicator_data
                                    ("🎯 " ++ ind ++ " - Scatter Analysis"))
              else if String.eqb chart_type "area" then
                Normal (PxArea indicator_data ("📋 " ++ ind ++ " - Area Chart"))
              else if String.eqb chart_type "box" then
                Normal (PxBox indicator_data
                              ("🗂️ " ++ ind ++ " - Distribution Analysis"))
              else if String.eqb chart_type "heatmap" then
                let pivot_data := pivot_table indicator_data in
                Normal (GoHeatmap (fillna 0 pivot_data) (pivot_columns pivot_data)
                  (pivot_index pivot_data) ("🌡️ " ++ ind ++ " - Heatmap"))
              else if String.eqb chart_type "histogram" then
                Normal (PxHistogram indicator_data
                                    ("📉 " ++ ind ++ " - Value Distribution"))
              else
                Normal (PxLine indicator_data ("📈 " ++ ind ++ " - Default View"))
          end
      end
  end.

(** The value the heatmap shows for country [c] and year [y]: the mean of
    the matching values, 0 when there is none. *)
Definition cell_rows (data : list IndicatorRecord) (c : string) (y : Z)
    : list IndicatorRecord :=
  filter (fun r => String.eqb (country_name r) c && Z.eqb (year r) y) data.

Definition cell_value (data : list IndicatorRecord) (c : string) (y : Z) : Q :=
  match cell_rows data c y with
  | [] => 0%Q
  | rows => mean (map value rows)
  end.

(** The rows [create_chart] plots. *)
Definition plotted_rows (df : list IndicatorRecord) (ind : string)
    (countries : option (list string)) : list IndicatorRecord :=
  match countries with
  | Some (c :: cs) => rows_of_countries (rows_of_indicator df ind) (c :: cs)
  | _ => rows_of_indicator df ind
  end.

(** ** The callbacks *)

(** The [data] of a [dcc.Store]: [None] until written, [{}], or a value. *)
Inductive store (A : Type) : Type :=
| StoreNone
| EmptyDict
| Stored (a : A).
Arguments StoreNone {A}.
Arguments EmptyDict {A}.
Arguments Stored {A} a.

(** The [ui-state-store] dictionary. *)
Record ui_state : Type := {
  ui_source : string;
  ui_indicators : list string;
  ui_countries : list string
}.

(** A card of [charts-container]: the dropdown [{"type": "chart-type",
    "index": i}] with its value and the graph [{"type": "chart",
    "index": i}] with its figure. *)
Record chart_card : Type := {
  card_index : nat;
  card_header : string;
  card_chart_type : string;
  card_figure : Figure
}.

Inductive component : Type :=
| Card (c : chart_card)
| Alert (message color : string).

Inductive children : Type :=
| NoChildren                        (* None, as in the layout *)
| Text (s : string)
| Components (l : list component)
| Div (l : list component).         (* html.Div([...]) *)

Inductive display : Type := DisplayNone | DisplayBlock.

(** [if x:] on a list, on a click count and on stored rows. *)
Definition nonempty {A} (l : list A) : bool :=
  match l with [] => false | _ :: _ => true end.

Definition clicked (n_clicks : option nat) : bool :=
  match n_clicks with Some (S _) => true | _ => false end.

Definition stored_rows {A} (s : store (list A)) : list A :=
  match s with Stored l => l | _ => [] end.

(** [df[column].unique().tolist()]: first occurrences, in order. *)
Fixpoint unique (l : list string) : list string :=
  match l with
  | [] => []
  | x :: l' => x :: filter (fun y => negb (String.eqb y x)) (unique l')
  end.

(** The cards [create_charts_and_export] builds, [i] being the position of
    the next indicator in the list it was given (a list already: the
    [isinstance] test has nothing to convert). *)
Fixpoint chart_cards (i : nat) (df : list IndicatorRecord)
    (indicators : list string) (countries : option (list string))
    : outcome (list component) :=
  match indicators with
  | [] => Normal []
  | ind :: indicators' =>
      if negb (existsb (String.eqb ind) (map indicator df))
      then chart_cards (S i) df indicators' countries        (* continue *)
      else
        match create_chart df ind "line" countries with
        | Raised => Raised
        | Normal figure =>
            match chart_cards (S i) df indicators' countries with
            | Raised => Raised
            | Normal charts =>
                Normal (Card {| card_index := i;
                                card_header := "📊 " ++ ind;
                                card_chart_type := "line";
                                card_figure := figure |}
                        :: charts)
            end
        end
  end.

(** The export card is the same whatever the data. *)
Inductive export_section : Type :=
| NoExport                          (* "" *)
| ExportCard.

Definition create_charts_and_export (df : list IndicatorRecord)
    (indicators : list string) (countries : option (list string))
    : outcome (list component * export_section) :=
  match chart_cards 0 df indicators countries with
  | Raised => Raised
  | Normal charts => Normal (charts, ExportCard)
  end.

(** The five outputs of [fetch_and_display_data]. *)
Record display_outputs : Type := {
  out_charts : list component;
  out_export : export_section;
  out_export_style : display;
  out_data : store (list IndicatorRecord);
  out_ui_state : store ui_state
}.

Definition nothing_to_display : display_outputs :=
  {| out_charts := [];
     out_export := NoExport;
     out_export_style := DisplayNone;
     out_data := EmptyDict;
     out_ui_state := EmptyDict |}.

Definition no_data_found : display_outputs :=
  {| out_charts :=
       [Alert "No data found. Please try different selections or upload a CSV file."
              "warning"];
     out_export := NoExport;
     out_export_style := DisplayNone;
     out_data := EmptyDict;
     out_ui_state := EmptyDict |}.

(** [triggered] is the id of the component that fired the callback, [None]
    when [ctx.triggered] is empty. Rows of the stores are read back as typed
    records. *)
Definition fetch_and_display_data {W} `{World W}
    (triggered : option string) (fetch_clicks import_clicks : option nat)
    (selected_countries selected_indicators : list string)
    (year_range : Z * Z)
    (imported_data existing_data : store (list IndicatorRecord))
    (existing_ui_state : store ui_state) (w : W)
    : outcome display_outputs * W :=
  let display (df : list IndicatorRecord) (indicators_in_data : list string)
              (data_source : string) : outcome display_outputs :=
    match df with
    | [] => Normal no_data_found
    | _ :: _ =>
        match create_charts_and_export df indicators_in_data
                (if String.eqb data_source "api" then Some selected_countries
                 else None) with
        | Raised => Raised
        | Normal (charts, export) =>
            Normal
              {| out_charts := charts;
                 out_export := export;
                 out_export_style := DisplayBlock;
                 out_data := Stored df;
                 out_ui_state :=
                   Stored {| ui_source := data_source;
                             ui_indicators := indicators_in_data;
                             ui_countries :=
                               if String.eqb data_source "api" then selected_countries
                               else unique (map country_code df) |} |}
        end
    end in
  match triggered with
  | None =>
      match existing_data, existing_ui_state with
      | Stored (r :: rows), Stored ui =>
          match create_charts_and_export (r :: rows) (ui_indicators ui)
                  (Some (ui_countries ui)) with
          | Raised => (Raised, w)
          | Normal (charts, export) =>
              (Normal {| out_charts := charts;
                         out_export := export;
                         out_export_style := DisplayBlock;
                         out_data := existing_data;
                         out_ui_state := existing_ui_state |}, w)
          end
      | _, _ => (Normal nothing_to_display, w)
      end
  | Some trigger_id =>
      if String.eqb trigger_id "use-imported-btn" && clicked import_clicks
         && nonempty (stored_rows imported_data) then
        let df := stored_rows imported_data in
        (display df (unique (map indicator df)) "imported", w)
      else if String.eqb trigger_id "fetch-data-btn" && clicked fetch_clicks
              && nonempty selected_countries && nonempty selected_indicators then
        match call_fetch_country_data (inr selected_countries)
                (fst year_range) (snd year_range) (Some selected_indicators) w with
        | (Normal df, st) =>
            (display df selected_indicators "api", world st)
        | (Raised, st) => (Raised, world st)
        end
      else (Normal nothing_to_display, w)
  end.

(** *** clear_all_data *)

(** The component properties the callbacks write, and two they only read. *)
Record app_state : Type := {
  country_dropdown_value : list string;
  indicator_dropdown_value : list string;
  year_slider_value : Z * Z;
  data_store : store (list IndicatorRecord);
  imported_data_store : store (list IndicatorRecord);
  ui_state_store : store ui_state;
  chart_images_store : list (string * string * option string);
  charts_container_children : children;
  export_section_children : export_section;
  export_section_style : display;
  upload_status_children : children;
  use_imported_btn_disabled : bool
}.

(** The ten outputs of [clear_all_data], in the order of its decorator. *)
Record clear_outputs : Type := {
  clear_country_dropdown_value : list string;
  clear_indicator_dropdown_value : list string;
  clear_data_store : store (list IndicatorRecord);
  clear_imported_data_store : store (list IndicatorRecord);
  clear_ui_state_store : store ui_state;
  clear_chart_images_store : list (string * string * option string);
  clear_charts_container_children : children;
  clear_export_section_style : display;
  clear_upload_status_children : children;
  clear_use_imported_btn_disabled : bool
}.

(** [None] is [dash.no_update]. *)
Definition clear_all_data (n_clicks : option nat) : option clear_outputs :=
  match n_clicks with
  | None => None
  | Some _ =>
      let default_indicators := ["GDP (Current US$)"; "GDP Growth (Annual %)"] in
      Some {| clear_country_dropdown_value := [];
              clear_indicator_dropdown_value := default_indicators;
              clear_data_store := EmptyDict;
              clear_imported_data_store := EmptyDict;
              clear_ui_state_store := EmptyDict;
              clear_chart_images_store := [];
              clear_charts_container_children := Div [];
              clear_export_section_style := DisplayNone;
              clear_upload_status_children := Text "";
              clear_use_imported_btn_disabled := true |}
  end.

(** Dash writes the outputs of a callback to the page in one update. *)
Definition on_clear_all (n_clicks : option nat) (s : app_state) : app_state :=
  match clear_all_data n_clicks with
  | None => s
  | Some o =>
      {| country_dropdown_value := clear_country_dropdown_value o;
         indicator_dropdown_value := clear_indicator_dropdown_value o;
         year_slider_value := year_slider_value s;
         data_store := clear_data_store o;
         imported_data_store := clear_imported_data_store o;
         ui_state_store := clear_ui_state_store o;
         chart_images_store := clear_chart_images_store o;
         charts_container_children := clear_charts_container_children o;
         export_section_children := export_section_children s;
         export_section_style := clear_export_section_style o;
         upload_status_children := clear_upload_status_children o;
         use_imported_btn_disabled := clear_use_imported_btn_disabled o |}
  end.

(** The page as [app.layout] declares it. *)
Definition layout_state : app_state :=
  {| country_dropdown_value := [];
     indicator_dropdown_value := ["GDP (Current US$)"; "GDP Growth (Annual %)"];
     year_slider_value := (2018, 2023);
     data_store := StoreNone;
     imported_data_store := StoreNone;
     ui_state_store := StoreNone;
     chart_images_store := [];
     charts_container_children := NoChildren;
     export_section_children := NoExport;
     export_section_style := DisplayNone;
     upload_status_children := NoChildren;
     use_imported_btn_disabled := true |}.

(** [not x]: what the callbacks test before they use a store or draw. *)
Definition store_is_empty {A} (s : store (list A)) : bool :=
  match s with Stored (_ :: _) => false | _ => true end.

Definition ui_is_empty (s : store ui_state) : bool :=
  match s with Stored _ => false | _ => true end.

Definition shows_nothing (c : children) : bool :=
  match c with
  | NoChildren | Text "" | Components [] | Div [] => true
  | _ => false
  end.

(** The figure of a line chart, which [create_chart] draws without
    raising: a placeholder, or the rows to plot under the title of the
    trend. *)
Definition line_chart (df : list IndicatorRecord) (ind : string)
    (countries : option (list string)) : Figure :=
  match df with
  | [] => Annotation "No data available"
  | _ :: _ =>
      match rows_of_indicator df ind with
      | [] => Annotation ("No data available for " ++ ind)
      | _ :: _ =>
          match plotted_rows df ind countries with
          | [] => Annotation ("No data available for " ++ ind
                              ++ " with selected countries")
          | r :: rows' =>
              PxLine (r :: rows') ("📈 " ++ ind ++ " - Trend Analysis")
          end
      end
  end.

(** The card of the indicator at position [i] of the requested list. *)
Definition line_card (df : list IndicatorRecord) (countries : option (list string))
    (i : nat) (ind : string) : component :=
  Card {| card_index := i;
          card_header := "📊 " ++ ind;
          card_chart_type := "line";
          card_figure := line_chart df ind countries |}.

(** [ind in df['indicator'].values] *)
Definition has_rows (df : list IndicatorRecord) (ind : string) : bool :=
  existsb (String.eqb ind) (map indicator df).

(** [enumerate(l)], counting from [i]. *)
Fixpoint enumerate {A} (i : nat) (l : list A) : list (nat * A) :=
  match l with
  | [] => []
  | x :: l' => (i, x) :: enumerate (S i) l'
  end.

(** The cards [create_charts_and_export] builds: one line card per
    indicator that has rows, numbered by position in the list. *)
Definition cards_of (df : list IndicatorRecord) (indicators : list string)
    (countries : option (list string)) : list component :=
  map (fun p => line_card df countries (fst p) (snd p))
      (filter (fun p => has_rows df (snd p)) (enumerate 0 indicators)).

Definition is_placeholder (c : component) : bool :=
  match c with
  | Card {| card_figure := Annotation _ |} => true
  | _ => false
  end.

(** ** Frames and delimited files *)

(** A cell of a frame read from a file or built from records. *)
Inductive cell : Type :=
| NaN
| CStr (s : string)
| CInt (n : Z)
| CFloat (x : Q)
| CBool (b : bool).

Record DataFrame : Type := {
  columns : list string;
  rows : list (list cell)
}.

Definition required_cols : list string :=
  ["country_code"; "country_name"; "indicator"; "year"; "value"].

Definition cells_of_record (r : IndicatorRecord) : list cell :=
  [CStr (country_code r); CStr (country_name r); CStr (indicator r);
   CInt (year r); CFloat (value r)].

(** [pd.DataFrame(records)]; without records the frame has no columns, as
    [pd.DataFrame()] has none. *)
Definition DataFrame_of_records (records : list IndicatorRecord) : DataFrame :=
  match records with
  | [] => {| columns := []; rows := [] |}
  | _ :: _ => {| columns := required_cols; rows := map cells_of_record records |}
  end.

Fixpoint index_of (name : string) (cols : list string) : option nat :=
  match cols with
  | [] => None
  | c :: cols' =>
      if String.eqb name c then Some 0%nat
      else option_map S (index_of name cols')
  end.

Fixpoint indices_of (names cols : list string) : option (list nat) :=
  match names with
  | [] => Some []
  | n :: names' =>
      match index_of n cols, indices_of names' cols with
      | Some i, Some l => Some (i :: l)
      | _, _ => None
      end
  end.

(** [df[names]]; [None] is the KeyError for a name that is not a column. *)
Definition select_columns (names : list string) (df : DataFrame) : option DataFrame :=
  match indices_of names (columns df) with
  | None => None
  | Some idx =>
      Some {| columns := names;
              rows := map (fun r => map (fun i => nth i r NaN) idx) (rows df) |}
  end.

(** A delimited file, tokenised: the header line and the data lines, as the
    reader's tokeniser gives them, the blank lines it skips left out.
    Quoting and line breaks are the csv library's and are not modelled. *)
Record csv_file : Type := {
  header : list string;
  lines : list (list string)
}.

(** How pandas writes and reads the text of a field. The functions are
    parameters; [pandas_text] below is an instance to run the code with. *)
Class TextFormat : Type := {
  is_na : string -> bool;                  (* read as a missing value *)
  int_of_text : string -> option Z;        (* read as an integer *)
  float_of_text : string -> option Q;      (* read as a float *)
  bool_of_text : string -> option bool;    (* read as a boolean *)
  text_of_int : Z -> string;
  text_of_float : Q -> string
}.

Definition text_of_cell `{TextFormat} (c : cell) : string :=
  match c with
  | NaN => ""
  | CStr s => s
  | CInt n => text_of_int n
  | CFloat x => text_of_float x
  | CBool true => "True"
  | CBool false => "False"
  end.

(** [df.to_csv(path, index=False)] *)
Definition to_csv `{TextFormat} (df : DataFrame) : csv_file :=
  {| header := columns df; lines := map (map text_of_cell) (rows df) |}.

Inductive dtype : Type := int64 | float64 | bool_ | object.

Definition is_some {A} (o : option A) : bool :=
  match o with Some _ => true | None => false end.

(** A field of a line; [None] past the end of a short line. *)
Definition missing `{TextFormat} (f : option string) : bool :=
  match f with None => true | Some s => is_na s end.

Definition reads_as_int `{TextFormat} (f : option string) : bool :=
  match f with Some s => negb (is_na s) && is_some (int_of_text s) | None => false end.

Definition reads_as_number `{TextFormat} (f : option string) : bool :=
  match f with
  | Some s => negb (is_na s) && (is_some (int_of_text s) || is_some (float_of_text s))
  | None => false
  end.

Definition reads_as_bool `{TextFormat} (f : option string) : bool :=
  match f with Some s => negb (is_na s) && is_some (bool_of_text s) | None => false end.

(** The type the reader gives a column: integers if every field is one,
    floats if every field is a number or missing, booleans likewise, text
    otherwise. *)
Definition infer_dtype `{TextFormat} (fields : list (option string)) : dtype :=
  if forallb reads_as_int fields then int64
  else if forallb (fun f => missing f || reads_as_number f) fields then float64
  else if forallb (fun f => missing f || reads_as_bool f) fields then bool_
  else object.

Definition convert_field `{TextFormat} (t : dtype) (f : option string) : cell :=
  match f with
  | None => NaN
  | Some s =>
      if is_na s then NaN
      else
        match t with
        | int64 => match int_of_text s with Some n => CInt n | None => NaN end
        | float64 =>
            match int_of_text s, float_of_text s with
            | Some n, _ => CFloat (inject_Z n)
            | None, Some x => CFloat x
            | None, None => NaN
            end
        | bool_ => match bool_of_text s with Some b => CBool b | None => NaN end
        | object => CStr s
        end
  end.

(** The fields of a line under a header of [n] columns. *)
Definition fields_of_line (n : nat) (line : list string) : list (option string) :=
  map (fun j => nth_error line j) (seq 0 n).

(** [pd.read_csv(text)]. The reader raises on a file without a header.
    When the first data line has more fields than the header, it sets the
    width of the table, and the fields in excess, at the start of every
    line, are the index of the frame and no column of it. A later line
    with more fields than the width raises; a line with fewer is filled
    with missing values. *)
Definition read_csv `{TextFormat} (file : csv_file) : outcome DataFrame :=
  let n := List.length (header file) in
  match header file with
  | [] => Raised
  | _ :: _ =>
      let width :=
        match lines file with
        | [] => n
        | first :: _ => Nat.max n (List.length first)
        end in
      if existsb (fun line => (width <? List.length line)%nat) (lines file) then Raised
      else
        let index_cols := (width - n)%nat in
        let table :=
          map (fun line => fields_of_line n (skipn index_cols line)) (lines file) in
        let dtypes :=
          map (fun j => infer_dtype (map (fun l => nth j l None) table)) (seq 0 n) in
        Normal {| columns := header file;
                  rows := map (fun l => map (fun tf => convert_field (fst tf) (snd tf))
                                            (combine dtypes l))
                              table |}
  end.

(** One cell under [pd.to_numeric(column, errors='coerce')]. *)
Definition to_numeric_cell `{TextFormat} (c : cell) : cell :=
  match c with
  | CStr s =>
      match int_of_text s, float_of_text s with
      | Some n, _ => CFloat (inject_Z n)
      | None, Some x => CFloat x
      | None, None => NaN
      end
  | _ => c
  end.

Fixpoint update_nth {A} (i : nat) (f : A -> A) (l : list A) : list A :=
  match l, i with
  | [], _ => []
  | x :: l', O => f x :: l'
  | x :: l', S i' => x :: update_nth i' f l'
  end.

(** [df[name] = pd.to_numeric(df[name], errors='coerce')] *)
Definition to_numeric `{TextFormat} (name : string) (df : DataFrame) : DataFrame :=
  match index_of name (columns df) with
  | None => df
  | Some i =>
      {| columns := columns df;
         rows := map (update_nth i to_numeric_cell) (rows df) |}
  end.

Definition is_nan (c : cell) : bool :=
  match c with NaN => true | _ => false end.

(** [df.dropna()] *)
Definition dropna (df : DataFrame) : DataFrame :=
  {| columns := columns df;
     rows := filter (fun r => negb (existsb is_nan r)) (rows df) |}.

(** ** export_to_csv *)

(** The file written, for the path returned; [disk_ok] is false when making
    the directory or writing the file raises. *)
Definition export_to_csv `{TextFormat} (disk_ok : bool) (df : DataFrame)
    : option csv_file :=
  if disk_ok then
    match select_columns required_cols df with
    | None => None                                  (* KeyError *)
    | Some export_df => Some (to_csv export_df)
    end
  else None.

(** ** parse_uploaded_csv *)

(** The upload, by how far decoding gets. *)
Inductive upload_contents : Type :=
| NotDataUrl        (* contents.split(',') is not two parts, or b64decode raises *)
| NotText           (* decoding as utf-8 or tokenising raises *)
| CsvText (file : csv_file).

Inductive upload_message : Type :=
| UploadedSuccessfully                       (* "CSV uploaded successfully!" *)
| MustContainColumns (cols : list string)    (* "CSV must contain columns: ..." *)
| PleaseUploadCsv                            (* "Please upload a CSV file" *)
| ErrorProcessingFile.                       (* "Error processing file: ..." *)

(** ['csv' in filename] *)
Definition contains (needle s : string) : bool :=
  is_some (String.index 0 needle s).

Definition parse_uploaded_csv `{TextFormat} (contents : upload_contents)
    (filename : string) : option DataFrame * upload_message :=
  match contents with
  | NotDataUrl => (None, ErrorProcessingFile)
  | _ =>
      if contains "csv" filename then
        match contents with
        | CsvText file =>
            match read_csv file with
            | Raised => (None, ErrorProcessingFile)
            | Normal df =>
                if negb (forallb (fun col => existsb (String.eqb col) (columns df))
                                 required_cols)
                then (None, MustContainColumns required_cols)
                else
                  match select_columns required_cols df with
                  | None => (None, ErrorProcessingFile)
                  | Some df =>
                      let df := to_numeric "year" df in
                      let df := to_numeric "value" df in
                      let df := dropna df in
                      (Some df, UploadedSuccessfully)
                  end
            end
        | _ => (None, ErrorProcessingFile)
        end
      else (None, PleaseUploadCsv)
  end.

(** What the import does to a line once the five columns are selected:
    [year] and [value] are coerced, and the line stays if no field is
    missing. *)
Definition coerce_row `{TextFormat} (r : list cell) : list cell :=
  update_nth 4 to_numeric_cell (update_nth 3 to_numeric_cell r).

Definition complete (r : list cell) : bool := negb (existsb is_nan r).

(** A cell that [pd.to_numeric(..., errors='coerce')] leaves missing: a
    missing cell, or a text that is read as no number. *)
Definition fails_coercion `{TextFormat} (c : cell) : bool :=
  is_nan (to_numeric_cell c).

(** *** What a dataset needs to come back from a file *)

(** A text column is read back as the text it was written as: no field is
    taken for a missing value, and the fields are not all numbers nor all
    booleans, which would make the column one of numbers or booleans. *)
Definition reads_back_as_text `{TextFormat} (col : list string) : bool :=
  forallb (fun s => negb (is_na s)) col
  && negb (forallb (fun s => is_some (int_of_text s) || is_some (float_of_text s)) col)
  && negb (forallb (fun s => is_some (bool_of_text s)) col).

(** The text of a year is read as that integer; the text of a value is read
    as that float, and not as an integer. *)
Definition year_reads_back `{TextFormat} (y : Z) : Prop :=
  is_na (text_of_int y) = false /\
  int_of_text (text_of_int y) = Some y.

Definition value_reads_back `{TextFormat} (x : Q) : Prop :=
  is_na (text_of_float x) = false /\
  int_of_text (text_of_float x) = None /\
  float_of_text (text_of_float x) = Some x.

Definition reads_back `{TextFormat} (ds : list IndicatorRecord) : Prop :=
  reads_back_as_text (map country_code ds) = true /\
  reads_back_as_text (map country_name ds) = true /\
  reads_back_as_text (map indicator ds) = true /\
  Forall (fun r => year_reads_back (year r)) ds /\
  Forall (fun r => value_reads_back (value r)) ds.

(** The line [to_csv] writes for a record. *)
Definition line_of_record `{TextFormat} (r : IndicatorRecord) : list string :=
  [country_code r; country_name r; indicator r;
   text_of_int (year r); text_of_float (value r)].

(** ** update_chart_types *)

(** [['line'] * n] *)
Definition line_types (n : nat) : list string := repeat "line" n.

(** A chart type the user has cleared reaches the callback as [None], which
    [create_chart] treats like any string that names no chart. *)
Definition update_chart_types (chart_types : list string)
    (stored_data : store (list IndicatorRecord)) (ui : store ui_state)
    : outcome (list Figure) :=
  match stored_data, ui with
  | Stored (r :: rows), Stored ui_state =>
      let df := r :: rows in
      let indicators := ui_indicators ui_state in
      let countries := Some (ui_countries ui_state) in
      let active_indicators := filter (has_rows df) indicators in
      let chart_types :=
        if (List.length chart_types =? List.length active_indicators)%nat
        then chart_types
        else line_types (List.length active_indicators) in
      collect (fun p => create_chart df (snd p) (fst p) countries)
              (combine chart_types active_indicators)
  | _, _ => Normal []
  end.

(** ** store_chart_images *)

(** [s.split(sep)] for a separator that is not empty: [skip] counts the
    characters of a separator just found that are still to pass, [cur] is the
    piece being read. *)
Fixpoint split_from (sep : string) (skip : nat) (cur s : string) : list string :=
  match s with
  | EmptyString => [cur]
  | String c s' =>
      match skip with
      | S k => split_from sep k cur s'
      | O =>
          if String.prefix sep s
          then cur :: split_from sep (String.length sep - 1) EmptyString s'
          else split_from sep O (cur ++ String c EmptyString) s'
      end
  end.

Definition str_split (sep s : string) : list string :=
  split_from sep 0 EmptyString s.

(** [l[0]] and [l[-1]] of the list [str_split] returns, which is never
    empty. *)
Definition first_piece (l : list string) : string := hd EmptyString l.
Definition last_piece (l : list string) : string := last l EmptyString.

(** The markers [store_chart_images] strips from a title, in its order. *)
Definition TITLE_MARKERS : list string :=
  ["📈 "; "📊 "; "🎯 "; "📋 "; "🗂️ "; "🌡️ "; "📉 "].

(** [text.split(' - ')[0].split('📈 ')[-1]. ... .split('📉 ')[-1]] *)
Definition title_indicator (text : string) : string :=
  fold_left (fun t marker => last_piece (str_split marker t)) TITLE_MARKERS
            (first_piece (str_split " - " text)).

(** [f['layout']['title']['text']] of a figure that has a title; a
    placeholder has none. *)
Definition figure_title (f : Figure) : option string :=
  match f with
  | Annotation _ => None
  | PxLine _ title | PxBar _ title | PxScatter _ title | PxArea _ title
  | PxBox _ title | PxHistogram _ title => Some title
  | GoHeatmap _ _ _ title => Some title
  end.

(** The indicators read off the titles of the figures that have one. *)
Definition titled_indicators (figures : list Figure) : list string :=
  flat_map (fun f => match figure_title f with
                     | Some text => [title_indicator text]
                     | None => []
                     end) figures.

(** [render] is [fig_to_base64] under its [try]: the image, or [None] when
    making it raises. The figures are those of the graphs on the page, so
    none is empty. *)
Definition store_chart_images (render : Figure -> option string)
    (figures : list Figure) (chart_types : list string) (ui : store ui_state)
    : list (string * string * option string) :=
  match figures, ui with
  | _ :: _, Stored ui_state =>
      let indicators := ui_indicators ui_state in
      let num_figures := List.length figures in
      let titles := titled_indicators figures in
      let active_indicators :=
        filter (fun ind => existsb (String.eqb ind) titles) indicators in
      let trimmed :=
        negb (List.length figures =? List.length active_indicators)%nat in
      let active_indicators :=
        if trimmed then firstn num_figures active_indicators
        else active_indicators in
      let chart_types :=
        if trimmed then firstn num_figures chart_types else chart_types in
      map (fun i =>
             (nth i active_indicators "Unknown Indicator",
              nth i chart_types "line",
              match nth_error figures i with
              | Some fig => render fig
              | None => None
              end))
          (seq 0 num_figures)
  | _, _ => []
  end.

(** The figures of the cards of [charts-container], top to bottom. *)
Definition card_figures (l : list component) : list Figure :=
  flat_map (fun c => match c with Card card => [card_figure card] | Alert _ _ => [] end) l.

(** The title [create_chart] gives a chart that is not a bar chart. *)
Definition chart_title (chart_type ind : string) : string :=
  if String.eqb chart_type "line" then "📈 " ++ ind ++ " - Trend Analysis"
  else if String.eqb chart_type "scatter" then "🎯 " ++ ind ++ " - Scatter Analysis"
  else if String.eqb chart_type "area" then "📋 " ++ ind ++ " - Area Chart"
  else if String.eqb chart_type "box" then "🗂️ " ++ ind ++ " - Distribution Analysis"
  else if String.eqb chart_type "heatmap" then "🌡️ " ++ ind ++ " - Heatmap"
  else if String.eqb chart_type "histogram" then "📉 " ++ ind ++ " - Value Distribution"
  else "📈 " ++ ind ++ " - Default View".

(** The title of a bar chart whose latest year is [y]. *)
Definition bar_title (ind : string) (y : Z) : string :=
  "📊 " ++ ind ++ " (" ++ str_of_int y ++ ") - Comparison".

(** ** handle_file_upload *)

(** The content of [upload-status]. *)
Inductive upload_status : Type :=
| NoStatus                                      (* "" *)
| StatusAlert (message : upload_message) (color : string).

(** The three outputs: the imported rows ([df.to_dict('records')], each row
    the cells of the five columns), the status and whether the button to
    use the rows is disabled. [contents] is [None] when nothing is
    uploaded. *)
Definition handle_file_upload `{TextFormat} (contents : option upload_contents)
    (filename : string) : store (list (list cell)) * upload_status * bool :=
  match contents with
  | None => (EmptyDict, NoStatus, true)
  | Some c =>
      match parse_uploaded_csv c filename with
      | (Some df, message) => (Stored (rows df), StatusAlert message "success", false)
      | (None, message) => (EmptyDict, StatusAlert message "danger", true)
      end
  end.

(** ** handle_exports *)

Inductive export_status : Type :=
| NoExportStatus                                (* "" *)
| ExportAlert (message color : string).

(** A file a callback leaves on the disk, under its path below the working
    directory. Of a PDF report only the path is kept. *)
Inductive written_file : Type :=
| CsvFile (path : string) (file : csv_file)
| PdfFile (path : string).

(** [timestamp] is [datetime.now().strftime('%Y%m%d_%H%M%S')]. The second
    component is the file written. The pages [export_to_pdf] lays out are
    not modelled: [pdf_path] is what it returns, the path of the file it
    has written under the name it was given, or [None] when it raised
    before the file was written. *)
Definition handle_exports `{TextFormat} (triggered : option string)
    (csv_clicks pdf_clicks : option nat)
    (stored_data : store (list IndicatorRecord))
    (timestamp : string) (disk_ok : bool) (pdf_path : option string)
    : export_status * option written_file :=
  if store_is_empty stored_data then (NoExportStatus, None)
  else
    match triggered with
    | None => (NoExportStatus, None)
    | Some trigger_id =>
        let df := DataFrame_of_records (stored_rows stored_data) in
        if String.eqb trigger_id "export-csv-btn" && clicked csv_clicks then
          let filename := "economic_data_" ++ timestamp ++ ".csv" in
          match export_to_csv disk_ok df with
          | Some file =>
              (ExportAlert ("✅ CSV exported successfully to: exports/csv/" ++ filename)
                           "success",
               Some (CsvFile ("exports/csv/" ++ filename) file))
          | None => (ExportAlert "❌ CSV export failed" "danger", None)
          end
        else if String.eqb trigger_id "export-pdf-btn" && clicked pdf_clicks then
          let filename := "economic_report_" ++ timestamp ++ ".pdf" in
          match pdf_path with
          | Some _ =>
              (ExportAlert ("✅ PDF exported successfully to: exports/pdf/" ++ filename)
                           "success",
               Some (PdfFile ("exports/pdf/" ++ filename)))
          | None =>
              (ExportAlert "❌ PDF export failed. Check console for details." "danger",
               None)
          end
        else (NoExportStatus, None)
    end.

(** The name [handle_exports] gives the CSV file written at [timestamp]. *)
Definition csv_export_name (timestamp : string) : string :=
  "economic_data_" ++ timestamp ++ ".csv".

(** The name it gives the PDF report. *)
Definition pdf_export_name (timestamp : string) : string :=
  "economic_report_" ++ timestamp ++ ".pdf".

(** The mapping the loop of [fetch_all_countries] builds from the answer of
    the directory; [Raised] when the request or an entry raises. *)
Definition collected (data : directory_response) : outcome (dict string) :=
  match data with
  | DirectoryFailed => Raised
  | DirectoryNoData => Normal []
  | DirectoryData entries => collect_countries entries []
  end.

(** [if country['capitalCity'] and country['longitude'] and country['latitude']] *)
Definition populated (e : country_entry) : bool :=
  match e with
  | Country _ _ capitalCity longitude latitude =>
      truthy capitalCity && truthy longitude && truthy latitude
  | BadCountry => false
  end.

Definition directory_entries (data : directory_response) : list country_entry :=
  match data with DirectoryData entries => entries | _ => [] end.

(** ** load_countries and update_country_selection *)

(** An option of the country dropdown. *)
Record dropdown_option : Type := {
  option_label : string;
  option_value : string
}.

Definition load_countries {W} `{World W}
    : M (module_state W) (list dropdown_option * string * dict string) :=
  countries <- fetch_all_countries ;;
  ret (map (fun kv => {| option_label := "🌍 " ++ fst kv; option_value := snd kv |})
           countries,
       "Select countries to analyze...",
       countries).

(** [d.values()] *)
Definition dict_values {V} (d : dict V) : list V := map snd d.

Definition g7_countries : list string :=
  ["USA"; "JPN"; "DEU"; "GBR"; "FRA"; "ITA"; "CAN"].
Definition brics_countries : list string :=
  ["BRA"; "RUS"; "IND"; "CHN"; "ZAF"].
Definition eu_countries : list string :=
  ["DEU"; "FRA"; "ITA"; "ESP"; "NLD"; "BEL"; "POL"].

(** [[code for code in group if code in countries.values()]] *)
Definition known_codes (group : list string) (countries : dict string) : list string :=
  filter (fun code => existsb (String.eqb code) (dict_values countries)) group.

(** The click counts are inputs of the callback that its body does not
    read. *)
Definition update_country_selection (triggered : option string)
    (g7_clicks brics_clicks eu_clicks clear_clicks : option nat)
    (countries : store (dict string)) : list string :=
  match countries with
  | Stored (c :: cs) =>
      let countries := c :: cs in
      match triggered with
      | None => []
      | Some button_id =>
          if String.eqb button_id "select-g7" then known_codes g7_countries countries
          else if String.eqb button_id "select-brics" then
            known_codes brics_countries countries
          else if String.eqb button_id "select-eu" then known_codes eu_countries countries
          else if String.eqb button_id "clear-countries" then []
          else []
      end
  | _ => []
  end.

(** ** A world that keeps a log *)

(** A request for an indicator: country code, indicator code, first and
    last year. *)
Definition request : Type := string * string * Z * Z.

(** Any world, with the list of the indicator requests sent to it. *)
Definition logging_World (W : Type) `{World W} : World (W * list request) := {|
  get_indicator := fun country_code indicator_code start_year end_year
                       (wl : W * list request) =>
    let (r, w') :=
      get_indicator country_code indicator_code start_year end_year (fst wl) in
    (r, (w', (snd wl ++ [(country_code, indicator_code, start_year, end_year)])%list));
  get_countries := fun wl =>
    let (r, w') := get_countries (fst wl) in (r, (w', snd wl));
  datetime_now := fun wl =>
    let (t, w') := datetime_now (fst wl) in (t, (w', snd wl))
|}.

(** The requests of a run over these codes and labels: one per pair of a
    code and a label of the catalogue, code by code. *)
Definition expected_requests (country_codes indicators : list string)
    (start_year end_year : Z) : list request :=
  flat_map (fun country_code =>
    flat_map (fun indicator_name =>
                match dict_get ALL_INDICATORS indicator_name with
                | Some indicator_code =>
                    [(country_code, indicator_code, start_year, end_year)]
                | None => []
                end)
             indicators)
    country_codes.

(** The requests of the pairs the loops visit. *)
Definition pair_requests (start_year end_year : Z) (pairs : list (string * string))
    : list request :=
  flat_map (fun p =>
              match dict_get ALL_INDICATORS (snd p) with
              | Some indicator_code => [(fst p, indicator_code, start_year, end_year)]
              | None => []
              end)
           pairs.

(** The arguments of [fetch_country_data] after its first two tests. *)
Definition code_list (country_codes : string + list string) : list string :=
  match country_codes with inl code => [code] | inr codes => codes end.

Definition indicator_list (indicators : option (list string)) : list string :=
  match indicators with None => keys ALL_INDICATORS | Some l => l end.

(** The chart [create_chart] draws once it has rows to plot, when it
    draws one. *)
Definition draw_chart (chart_type ind : string) (indicator_data : list IndicatorRecord)
    : Figure :=
  if String.eqb chart_type "bar" then
    PxBar (filter (fun r => Z.eqb (year r) (max_year indicator_data)) indicator_data)
          (bar_title ind (max_year indicator_data))
  else if String.eqb chart_type "line" then
    PxLine indicator_data (chart_title chart_type ind)
  else if String.eqb chart_type "scatter" then
    PxScatter indicator_data (chart_title chart_type ind)
  else if String.eqb chart_type "area" then
    PxArea indicator_data (chart_title chart_type ind)
  else if String.eqb chart_type "box" then
    PxBox indicator_data (chart_title chart_type ind)
  else if String.eqb chart_type "heatmap" then
    GoHeatmap (fillna 0 (pivot_table indicator_data))
              (pivot_columns (pivot_table indicator_data))
              (pivot_index (pivot_table indicator_data))
              (chart_title chart_type ind)
  else if String.eqb chart_type "histogram" then
    PxHistogram indicator_data (chart_title chart_type ind)
  else PxLine indicator_data (chart_title chart_type ind).

(** The case in which [create_chart] raises: a scatter chart over rows one
    of which has a negative value. *)
Definition scatter_raises (chart_type : string) (indicator_data : list IndicatorRecord)
    : bool :=
  String.eqb chart_type "scatter"
  && existsb (fun r => negative (value r)) indicator_data.

Definition is_annotation (f : Figure) : bool :=
  match f with Annotation _ => true | _ => false end.

(** The chart types that give each of the titles of [chart_title]; the last
    one stands for every string that names no chart. *)
Definition TITLED_CHART_TYPES : list string :=
  ["line"; "scatter"; "area"; "box"; "heatmap"; "histogram"; "default"].

(** [store_chart_images] reads [ind] back from each title [create_chart]
    gives a chart of [ind] that is not a bar chart. *)
Definition title_reads_back (ind : string) : bool :=
  forallb (fun chart_type =>
             String.eqb (title_indicator (chart_title chart_type ind)) ind)
          TITLED_CHART_TYPES.

(** The two labels of the catalogue with " - " in them. *)
Definition INCOME_SHARES : list string :=
  ["Income Share - Bottom 10%"; "Income Share - Top 10%"].

(** The years from 1960 to 2030. *)
Definition REPORTED_YEARS : list Z := map Z.of_nat (seq 1960 71).

(** A bar title of [ind], for each of the years, is not read back as
    [ind]. *)
Definition bar_title_misread (ind : string) : bool :=
  forallb (fun y => negb (String.eqb (title_indicator (bar_title ind y)) ind))
          REPORTED_YEARS.

(** Each title of [ind] that is not a bar title is read back as [other]. *)
Definition title_read_as (other ind : string) : bool :=
  forallb (fun chart_type =>
             String.eqb (title_indicator (chart_title chart_type ind)) other)
          TITLED_CHART_TYPES.

(** ** Worlds to run the code in *)

(** A world that answers each request from a table, shows a clock that the
    test sets, and counts the requests it serves. *)
Record scripted_world : Type := {
  indicator_reply : string -> string -> response;  (* by country and indicator code *)
  directory_reply : directory_response;
  clock : Z;
  requests_served : nat
}.

#[export] Instance scripted_World : World scripted_world := {
  get_indicator := fun country_code indicator_code _ _ w =>
    (indicator_reply w country_code indicator_code,
     {| indicator_reply := indicator_reply w;
        directory_reply := directory_reply w;
        clock := clock w;
        requests_served := S (requests_served w) |});
  get_countries := fun w =>
    (directory_reply w,
     {| indicator_reply := indicator_reply w;
        directory_reply := directory_reply w;
        clock := clock w;
        requests_served := S (requests_served w) |});
  datetime_now := fun w => (clock w, w)
}.

Definition observation (name : string) (date : Z) (v : value_field) : entry :=
  {| entry_value := v;
     entry_country_value := Some (JsonString name);
     entry_date := Some date |}.

(** Every request fails. *)
Definition offline_world : scripted_world :=
  {| indicator_reply := fun _ _ => RequestFailed;
     directory_reply := DirectoryFailed;
     clock := 0;
     requests_served := 0 |}.

(** One valid point for USA/2020 and a null value for CHN/2021. *)
Definition usa_chn_world : scripted_world :=
  {| indicator_reply := fun country_code indicator_code =>
       if String.eqb indicator_code "NY.GDP.MKTP.CD" then
         if String.eqb country_code "USA" then
           Data [observation "United States" 2020 (ValueNumber 21354105000000)]
         else if String.eqb country_code "CHN" then
           Data [observation "China" 2021 ValueNull]
         else NoData
       else NoData;
     directory_reply := DirectoryFailed;
     clock := 0;
     requests_served := 0 |}.


(** A payload in which the name of the country is a list. *)
Definition list_name_world : scripted_world :=
  {| indicator_reply := fun _ _ =>
       Data [{| entry_value := ValueNumber 21354105000000;
                entry_country_value := Some JsonUnhashable;
                entry_date := Some 2020 |}];
     directory_reply := DirectoryFailed;
     clock := 0;
     requests_served := 0 |}.

(** A source that lists the latest year first. *)
Definition latest_first_world : scripted_world :=
  {| indicator_reply := fun country_code _ =>
       if String.eqb country_code "DEU" then
         Data [observation "Germany" 2021 (ValueNumber (26 # 10));
               observation "Germany" 2020 (ValueNumber (-37 # 10))]
       else if String.eqb country_code "FRA" then
         Data [observation "France" 2021 (ValueNumber (68 # 10))]
       else NoData;
     directory_reply := DirectoryFailed;
     clock := 0;
     requests_served := 0 |}.

(** The directory as first served, and as served a day later. *)
Definition directory_day1 : directory_response :=
  DirectoryData [Country "Germany" "DEU" "Berlin" "13.4115" "52.5235";
                 Country "Euro area" "EMU" "" "" ""].

Definition directory_day2 : directory_response :=
  DirectoryData [Country "Germany" "DEU" "Berlin" "13.4115" "52.5235";
                 Country "France" "FRA" "Paris" "2.35097" "48.8566"].

Definition world_at (directory : directory_response) (t : Z) (served : nat)
    : scripted_world :=
  {| indicator_reply := fun _ _ => NoData;
     directory_reply := directory;
     clock := t;
     requests_served := served |}.

(** 25 hours, in microseconds. *)
Definition hours_25 : Z := 25 * 3600 * 1000000.

(** The process after a first call at time 0 ... *)
Definition after_first_call : module_state scripted_world :=
  snd (fetch_all_countries
         {| process_world := world_at directory_day1 0 0;
            _countries_cache := None;
            _cache_timestamp := None |}).

(** ... and the same process 25 hours later, the directory having changed. *)
Definition a_day_later : module_state scripted_world :=
  {| process_world := world_at directory_day2 hours_25
                        (requests_served (process_world after_first_call));
     _countries_cache := _countries_cache after_first_call;
     _cache_timestamp := _cache_timestamp after_first_call |}.

Definition row (code name ind : string) (y : Z) (v : Q) : IndicatorRecord :=
  {| country_code := code; country_name := name; indicator := ind;
     year := y; value := v |}.

(** Germany with values in 2019 and 2021 only. *)
Definition deu_only : list IndicatorRecord :=
  [row "DEU" "Germany" "GDP Growth (Annual %)" 2019 (11 # 10);
   row "DEU" "Germany" "GDP Growth (Annual %)" 2021 (26 # 10)].

(** The same, next to France with a value in 2020. *)
Definition deu_and_fra : list IndicatorRecord :=
  deu_only ++ [row "FRA" "France" "GDP Growth (Annual %)" 2020 (-75 # 10)].

(** *** A text format to run the code with *)

(** The fields pandas reads as missing by default. *)
Definition NA_VALUES : list string :=
  [""; "#N/A"; "#N/A N/A"; "#NA"; "-1.#IND"; "-1.#QNAN"; "-NaN"; "-nan";
   "1.#IND"; "1.#QNAN"; "<NA>"; "N/A"; "NA"; "NULL"; "NaN"; "None"; "n/a";
   "nan"; "null"].

Definition digits_value (s : string) : option Z :=
  option_map (fun u => Z.of_N (N.of_uint u)) (NilZero.uint_of_string s).

(** An optional sign and decimal digits. *)
Definition decimal_int_of_text (s : string) : option Z :=
  match s with
  | String "-" s' => option_map Z.opp (digits_value s')
  | String "+" s' => digits_value s'
  | _ => digits_value s
  end.

Fixpoint split_at_point (s : string) : option (string * string) :=
  match s with
  | EmptyString => None
  | String c s' =>
      if Ascii.eqb c "." then Some (EmptyString, s')
      else option_map (fun p => (String c (fst p), snd p)) (split_at_point s')
  end.

(** An optional sign, digits, a point and digits. *)
Definition decimal_float_of_text (s : string) : option Q :=
  match split_at_point s with
  | None => None
  | Some (a, b) =>
      let (negative, a') :=
        match a with
        | String "-" r => (true, r)
        | String "+" r => (false, r)
        | _ => (false, a)
        end in
      match digits_value a', digits_value b with
      | Some whole, Some frac =>
          let scale := 10 ^ Z.of_nat (String.length b) in
          let q := Qred ((whole * scale + frac) # Z.to_pos scale) in
          Some (if negative then Qopp q else q)
      | _, _ => None
      end
  end.

Fixpoint fraction_digits (fuel : nat) (num den : Z) : string :=
  match fuel with
  | O => EmptyString
  | S fuel' =>
      if num =? 0 then EmptyString
      else String (ascii_of_nat (48 + Z.to_nat (10 * num / den)))
                  (fraction_digits fuel' ((10 * num) mod den) den)
  end.

(** The decimal expansion, to 17 places at most, with one place at
    least. *)
Definition decimal_text_of_float (q : Q) : string :=
  let n := Z.abs (Qnum q) in
  let d := Zpos (Qden q) in
  let frac := fraction_digits 17 (n mod d) d in
  (if Qnum q <? 0 then "-" else "") ++ str_of_int (n / d) ++ "."
  ++ (match frac with EmptyString => "0" | _ => frac end).

Definition text_bool (s : string) : option bool :=
  if existsb (String.eqb s) ["True"; "TRUE"; "true"] then Some true
  else if existsb (String.eqb s) ["False"; "FALSE"; "false"] then Some false
  else None.

#[export] Instance pandas_text : TextFormat := {
  is_na := fun s => existsb (String.eqb s) NA_VALUES;
  int_of_text := decimal_int_of_text;
  float_of_text := decimal_float_of_text;
  bool_of_text := text_bool;
  text_of_int := str_of_int;
  text_of_float := decimal_text_of_float
}.

(** Two rows fetched for Germany and France. *)
Definition deu_fra_growth : list IndicatorRecord :=
  [row "FRA" "France" "GDP Growth (Annual %)" 2020 (-15 # 2);
   row "DEU" "Germany" "GDP Growth (Annual %)" 2019 (11 # 10)].

(** Namibia fetched under its two-letter code, which the source accepts. *)
Definition namibia : list IndicatorRecord :=
  [row "NA" "Namibia" "GDP Growth (Annual %)" 2019 (-4 # 5)].

(** A row stored under the numeric code of the United States. *)
Definition numeric_code : list IndicatorRecord :=
  [row "840" "United States" "GDP Growth (Annual %)" 2019 (23 # 10)].

(** An upload with the five columns and one more, its second line with a
    year that is not a number and its third without a country name. *)
Definition mixed_upload : csv_file :=
  {| header := ["value"; "note"; "year"; "indicator"; "country_name"; "country_code"];
     lines :=
       [["1.1"; "ok"; "2019"; "GDP Growth (Annual %)"; "Germany"; "DEU"];
        ["2.6"; "bad year"; "n/a"; "GDP Growth (Annual %)"; "Germany"; "DEU"];
        ["0.5"; "no name"; "2021"; "GDP Growth (Annual %)"; ""; "DEU"];
        ["7"; "ok"; "2020"; "GDP Growth (Annual %)"; "France"; "FRA"]] |}.

(** An upload with the five columns, its second line with a year and its
    third with a value that are no numbers. *)
Definition coerced_upload : csv_file :=
  {| header := ["country_code"; "country_name"; "indicator"; "year"; "value"];
     lines :=
       [["DEU"; "Germany"; "GDP Growth (Annual %)"; "2019"; "1.1"];
        ["DEU"; "Germany"; "GDP Growth (Annual %)"; "twenty"; "2.6"];
        ["FRA"; "France"; "GDP Growth (Annual %)"; "2020"; "high"];
        ["FRA"; "France"; "GDP Growth (Annual %)"; "2021"; "6.8"]] |}.

(** An upload whose lines have one field more than its header: a file
    written with the index of its frame. *)
Definition indexed_upload : csv_file :=
  {| header := ["country_code"; "country_name"; "indicator"; "year"; "value"];
     lines :=
       [["0"; "DEU"; "Germany"; "GDP Growth (Annual %)"; "2019"; "1.1"];
        ["1"; "FRA"; "France"; "GDP Growth (Annual %)"; "2020"; "-7.5"]] |}.

(** An upload whose second line is longer than its first. *)
Definition ragged_upload : csv_file :=
  {| header := ["country_code"; "country_name"; "indicator"; "year"; "value"];
     lines :=
       [["DEU"; "Germany"; "GDP Growth (Annual %)"; "2019"; "1.1"];
        ["FRA"; "France"; "GDP Growth (Annual %)"; "2020"; "-7.5"; "revised"]] |}.

(** The same upload without its [year] column. *)
Definition upload_without_year : csv_file :=
  {| header := ["value"; "indicator"; "country_name"; "country_code"];
     lines := [["1.1"; "GDP Growth (Annual %)"; "Germany"; "DEU"]] |}.

(** A dataset with two indicators, and the view state of the fetch that
    gave it. *)
Definition two_indicators : list IndicatorRecord :=
  row "USA" "United States" "GDP (Current US$)" 2020 21354105000000
  :: deu_and_fra.

Definition two_indicators_ui : ui_state :=
  {| ui_source := "api";
     ui_indicators := ["GDP (Current US$)"; "GDP Growth (Annual %)"];
     ui_countries := ["USA"; "DEU"; "FRA"] |}.

(** An upload with the five columns in which no line has a year. *)
Definition upload_without_years : csv_file :=
  {| header := ["country_code"; "country_name"; "indicator"; "year"; "value"];
     lines :=
       [["DEU"; "Germany"; "GDP Growth (Annual %)"; ""; "1.1"];
        ["FRA"; "France"; "GDP Growth (Annual %)"; "n/a"; "7"]] |}.

(** ** Properties *)

(** *** Control flow *)

Lemma for_each_app S A (xs ys : list A) (body : A -> M S unit) (s : S) :
  for_each (xs ++ ys) body s =
  bind (for_each xs body) (fun _ => for_each ys body) s.
Proof.
  revert s. induction xs as [|x xs IH]; intros s; simpl.
  - reflexivity.
  - unfold bind in *. destruct (body x s) as [[[]|] s'].
    + apply IH.
    + reflexivity.
Qed.

Lemma for_each_nested S A B (xs : list A) (ys : list B)
    (body : A -> B -> M S unit) (s : S) :
  for_each xs (fun x => for_each ys (body x)) s =
  for_each (list_prod xs ys) (fun p => body (fst p) (snd p)) s.
Proof.
  revert s. induction xs as [|x xs IH]; intros s; simpl.
  - reflexivity.
  - rewrite for_each_app. unfold bind.
    assert (E : forall s0, for_each (map (fun y => (x, y)) ys)
                   (fun p => body (fst p) (snd p)) s0 = for_each ys (body x) s0).
    { clear. induction ys as [|y ys IHy]; intros s0; simpl.
      - reflexivity.
      - unfold bind. destruct (body x y s0) as [[[]|] s']; auto. }
    rewrite E. destruct (for_each ys (body x) s) as [[[]|] s']; auto.
Qed.

(** *** Dictionaries *)

Lemma dict_get_set V (d : dict V) (k k' : string) (v : V) :
  dict_get (dict_set d k v) k' =
  if String.eqb k' k then Some v else dict_get d k'.
Proof.
  induction d as [|[k0 v0] d IH]; simpl.
  - destruct (String.eqb k' k); reflexivity.
  - destruct (String.eqb k k0) eqn:E0; simpl.
    + apply String.eqb_eq in E0. subst k0.
      destruct (String.eqb k' k); reflexivity.
    + rewrite IH. destruct (String.eqb k' k) eqn:E1; [|reflexivity].
      apply String.eqb_eq in E1. subst k'. rewrite E0. reflexivity.
Qed.

(** *** The request loop, step by step *)

#[local] Arguments dict_get : simpl never.

Section RequestLoop.

Context {W : Type} `{World W}.
Variables start_year end_year : Z.

(** The observations of a payload, one after the other: the rows converted
    so far are appended, and the loop raises at the first bad one. *)
Lemma for_each_append_entry (cc ind : string) (entries : list entry)
    (s : fetch_state W) :
  for_each entries (append_entry cc ind) s =
  ((if existsb (entry_raises cc ind) entries then Raised else Normal tt),
   {| world := world s;
      all_data := all_data s ++ rows_before_raise cc ind entries;
      printed := printed s |}).
Proof.
  revert s. induction entries as [|e es IH]; intros s; simpl.
  - rewrite app_nil_r. destruct s; reflexivity.
  - unfold bind, append_entry, entry_raises.
    destruct (convert_entry cc ind e) as [[r|]|]; simpl.
    + rewrite IH. simpl. rewrite <- app_assoc. reflexivity.
    + rewrite IH. reflexivity.
    + rewrite app_nil_r. destruct s; reflexivity.
Qed.

Lemma fetch_pair_uncatalogued (cc ind : string) (s : fetch_state W) :
  dict_get ALL_INDICATORS ind = None ->
  fetch_pair start_year end_year cc ind s = (Normal tt, s).
Proof. intros E. unfold fetch_pair. rewrite E. reflexivity. Qed.

(** One pair: the request is sent, the rows of the payload are appended up
    to the first bad observation, and the pair never raises. *)
Lemma fetch_pair_catalogued (cc ind code : string) (s : fetch_state W) :
  dict_get ALL_INDICATORS ind = Some code ->
  let reply := get_indicator cc code start_year end_year (world s) in
  let t := {| served_country := cc; served_indicator := ind;
              served_response := fst reply |} in
  fetch_pair start_year end_year cc ind s =
  (Normal tt,
   {| world := snd reply;
      all_data := all_data s ++ served_rows t;
      printed := printed s ++ failed_pairs [t] |}).
Proof.
  intros E reply t. unfold fetch_pair. rewrite E.
  unfold try_except, bind, requests_get, failed_pairs, served_rows, served_failed.
  subst t reply. simpl.
  destruct (get_indicator cc code start_year end_year (world s)) as [r w']. simpl.
  destruct r as [| |entries]; simpl.
  - rewrite app_nil_r. reflexivity.
  - rewrite !app_nil_r. reflexivity.
  - rewrite for_each_append_entry. simpl.
    destruct (existsb (entry_raises cc ind) entries); simpl.
    + reflexivity.
    + rewrite app_nil_r. reflexivity.
Qed.

Lemma fetch_pairs_run (pairs : list (string * string)) (s : fetch_state W) :
  let tr := serve_pairs start_year end_year pairs (world s) in
  for_each pairs (fun p => fetch_pair start_year end_year (fst p) (snd p)) s =
  (Normal tt,
   {| world := snd tr;
      all_data := all_data s ++ flat_map served_rows (fst tr);
      printed := printed s ++ failed_pairs (fst tr) |}).
Proof.
  cbv zeta. revert s. induction pairs as [|[cc ind] ps IH]; intros s; simpl.
  - rewrite !app_nil_r. destruct s; reflexivity.
  - unfold bind. destruct (dict_get ALL_INDICATORS ind) as [code|] eqn:E.
    + pose proof (@fetch_pair_catalogued cc ind code s E) as P.
      cbv zeta in P. rewrite P. rewrite IH. simpl.
      destruct (get_indicator cc code start_year end_year (world s)) as [r w'].
      simpl. destruct (serve_pairs start_year end_year ps w') as [tr w''].
      simpl. unfold failed_pairs. simpl.
      destruct (served_failed _); simpl; rewrite <- !app_assoc; reflexivity.
    + rewrite (@fetch_pair_uncatalogued cc ind s E). apply IH.
Qed.

Lemma fetch_loop_run (codes inds : list string) (s : fetch_state W) :
  let tr := serve_pairs start_year end_year (list_prod codes inds) (world s) in
  fetch_loop codes start_year end_year inds s =
  (Normal tt,
   {| world := snd tr;
      all_data := all_data s ++ flat_map served_rows (fst tr);
      printed := printed s ++ failed_pairs (fst tr) |}).
Proof.
  intros tr. unfold fetch_loop.
  rewrite (for_each_nested codes inds (fetch_pair start_year end_year)).
  apply fetch_pairs_run.
Qed.

End RequestLoop.

(** *** The order of the rows *)

Lemma string_compare_refl (s : string) : String.compare s s = Eq.
Proof.
  induction s as [|c s IH]; simpl; auto.
  unfold Ascii.compare. rewrite N.compare_refl. exact IH.
Qed.

Lemma string_compare_lt_trans (a b c : string) :
  String.compare a b = Lt -> String.compare b c = Lt -> String.compare a c = Lt.
Proof.
  revert b c. induction a as [|x a IH]; intros [|y b] [|z c]; simpl;
    try discriminate; auto.
  destruct (Ascii.compare x y) eqn:Exy; try discriminate;
    destruct (Ascii.compare y z) eqn:Eyz; try discriminate; intros H1 H2.
  - apply Ascii.compare_eq_iff in Exy, Eyz. subst.
    unfold Ascii.compare. rewrite N.compare_refl. eauto.
  - apply Ascii.compare_eq_iff in Exy. subst. rewrite Eyz. reflexivity.
  - apply Ascii.compare_eq_iff in Eyz. subst. rewrite Exy. reflexivity.
  - unfold Ascii.compare in *. rewrite N.compare_lt_iff in *.
    assert (L : (N_of_ascii x < N_of_ascii z)%N) by (eapply N.lt_trans; eauto).
    apply N.compare_lt_iff in L. rewrite L. reflexivity.
Qed.

Lemma compare_rows_antisym (a b : IndicatorRecord) :
  compare_rows b a = CompOpp (compare_rows a b).
Proof.
  unfold compare_rows.
  rewrite (String.compare_antisym (country_name b)),
          (String.compare_antisym (indicator b)), (Z.compare_antisym (year a)).
  destruct (String.compare (country_name a) (country_name b)); simpl; auto.
  destruct (String.compare (indicator a) (indicator b)); simpl; auto.
Qed.

Lemma compare_rows_eq (a b : IndicatorRecord) :
  compare_rows a b = Eq <->
  country_name a = country_name b /\ indicator a = indicator b /\ year a = year b.
Proof.
  unfold compare_rows. split.
  - destruct (String.compare (country_name a) (country_name b)) eqn:E1;
      try discriminate.
    destruct (String.compare (indicator a) (indicator b)) eqn:E2;
      try discriminate.
    intros E3. apply String.compare_eq_iff in E1, E2.
    apply Z.compare_eq_iff in E3. auto.
  - intros (-> & -> & ->). rewrite !string_compare_refl. apply Z.compare_refl.
Qed.

Lemma compare_rows_lt_trans (a b c : IndicatorRecord) :
  compare_rows a b = Lt -> compare_rows b c = Lt -> compare_rows a c = Lt.
Proof.
  unfold compare_rows.
  destruct (String.compare (country_name a) (country_name b)) eqn:N1;
    try discriminate;
    destruct (String.compare (country_name b) (country_name c)) eqn:N2;
    try discriminate.
  - apply String.compare_eq_iff in N1, N2. rewrite N1, N2, string_compare_refl.
    destruct (String.compare (indicator a) (indicator b)) eqn:I1;
      try discriminate;
      destruct (String.compare (indicator b) (indicator c)) eqn:I2;
      try discriminate.
    + apply String.compare_eq_iff in I1, I2. rewrite I1, I2, string_compare_refl.
      rewrite !Z.compare_lt_iff. lia.
    + apply String.compare_eq_iff in I1. rewrite I1, I2. auto.
    + apply String.compare_eq_iff in I2. rewrite <- I2, I1. auto.
    + rewrite (string_compare_lt_trans _ _ _ I1 I2). auto.
  - apply String.compare_eq_iff in N1. rewrite N1, N2. auto.
  - apply String.compare_eq_iff in N2. rewrite <- N2, N1. auto.
  - rewrite (string_compare_lt_trans _ _ _ N1 N2). auto.
Qed.

Lemma row_leb_total (a b : IndicatorRecord) :
  row_leb a b = false -> row_leb b a = true.
Proof.
  unfold row_leb. rewrite (compare_rows_antisym a b).
  destruct (compare_rows a b); simpl; auto; discriminate.
Qed.

Lemma row_leb_trans (a b c : IndicatorRecord) :
  row_leb a b = true -> row_leb b c = true -> row_leb a c = true.
Proof.
  unfold row_leb.
  destruct (compare_rows a b) eqn:E1; try discriminate;
    destruct (compare_rows b c) eqn:E2; try discriminate; intros _ _.
  - apply compare_rows_eq in E1, E2.
    assert (E : compare_rows a c = Eq).
    { apply compare_rows_eq. intuition congruence. }
    rewrite E. reflexivity.
  - apply compare_rows_eq in E1. destruct E1 as (A1 & A2 & A3).
    unfold compare_rows in *. rewrite A1, A2, A3, E2. reflexivity.
  - apply compare_rows_eq in E2. destruct E2 as (A1 & A2 & A3).
    unfold compare_rows in *. rewrite <- A1, <- A2, <- A3, E1. reflexivity.
  - rewrite (compare_rows_lt_trans _ _ _ E1 E2). reflexivity.
Qed.

Lemma insert_row_perm (r : IndicatorRecord) (l : list IndicatorRecord) :
  Permutation (r :: l) (insert_row r l).
Proof.
  induction l as [|x l IH]; simpl.
  - apply Permutation_refl.
  - destruct (row_leb r x).
    + apply Permutation_refl.
    + eapply perm_trans; [apply perm_swap|]. apply perm_skip, IH.
Qed.

Lemma sort_rows_perm (l : list IndicatorRecord) :
  Permutation l (sort_rows l).
Proof.
  induction l as [|r l IH]; simpl.
  - apply perm_nil.
  - eapply perm_trans; [apply perm_skip, IH|]. apply insert_row_perm.
Qed.

Lemma insert_row_sorted (r : IndicatorRecord) (l : list IndicatorRecord) :
  StronglySorted (fun a b => row_leb a b = true) l ->
  StronglySorted (fun a b => row_leb a b = true) (insert_row r l).
Proof.
  induction 1 as [|x l Hs IH Hx]; simpl.
  - constructor; constructor.
  - destruct (row_leb r x) eqn:E.
    + constructor; [constructor; assumption|].
      constructor; [assumption|].
      eapply Forall_impl; [|exact Hx]. intros y. apply row_leb_trans, E.
    + constructor; [exact IH|].
      eapply Permutation_Forall; [apply insert_row_perm|].
      constructor; [apply row_leb_total, E | exact Hx].
Qed.

Lemma sort_rows_sorted (l : list IndicatorRecord) :
  StronglySorted (fun a b => row_leb a b = true) (sort_rows l).
Proof.
  induction l as [|r l IH]; simpl.
  - constructor.
  - apply insert_row_sorted, IH.
Qed.

Lemma same_key_gt (k a b : IndicatorRecord) :
  same_key k a = true -> same_key k b = true -> row_leb a b = true.
Proof.
  unfold same_key, row_leb.
  destruct (compare_rows k a) eqn:Ea; try discriminate.
  destruct (compare_rows k b) eqn:Eb; try discriminate. intros _ _.
  apply compare_rows_eq in Ea, Eb.
  assert (E : compare_rows a b = Eq) by (apply compare_rows_eq; intuition congruence).
  rewrite E. reflexivity.
Qed.

Lemma insert_row_stable (k r : IndicatorRecord) (l : list IndicatorRecord) :
  filter (same_key k) (insert_row r l) = filter (same_key k) (r :: l).
Proof.
  induction l as [|x l IH]; simpl.
  - reflexivity.
  - destruct (row_leb r x) eqn:E; simpl.
    + reflexivity.
    + rewrite IH. simpl.
      destruct (same_key k r) eqn:Kr, (same_key k x) eqn:Kx; auto.
      rewrite (same_key_gt k r x Kr Kx) in E. discriminate.
Qed.

Lemma sort_rows_stable (k : IndicatorRecord) (l : list IndicatorRecord) :
  filter (same_key k) (sort_rows l) = filter (same_key k) l.
Proof.
  induction l as [|r l IH]; simpl.
  - reflexivity.
  - rewrite insert_row_stable. simpl. rewrite IH. reflexivity.
Qed.

(** *** fetch_country_data as a whole *)

Lemma fetch_country_data_run W `{World W} (country_codes : string + list string)
    (sy ey : Z) (indicators : option (list string)) (w : W) :
  let tr := serve_pairs sy ey (requested_pairs country_codes indicators) w in
  let rows := flat_map served_rows (fst tr) in
  call_fetch_country_data country_codes sy ey indicators w =
  (sort_values rows,
   {| world := snd tr; all_data := rows; printed := failed_pairs (fst tr) |}).
Proof.
  intros tr rows. unfold call_fetch_country_data, fetch_country_data.
  unfold bind at 1. rewrite fetch_loop_run. cbn [world all_data printed app].
  fold (requested_pairs country_codes indicators). fold tr. fold rows.
  unfold bind, get, ret, raise. cbn [all_data].
  destruct rows as [|a rows']; [reflexivity|].
  destruct (sort_values (a :: rows')); reflexivity.
Qed.



Lemma typed_rows_In (rows : list appended_row) (r : IndicatorRecord) :
  In r (typed_rows rows) <-> exists a, In a rows /\ typed_row a = Some r.
Proof.
  unfold typed_rows. rewrite in_flat_map. split.
  - intros (a & Hin & Hr). exists a. split; [exact Hin|].
    destruct (typed_row a) as [r'|]; [|contradiction].
    destruct Hr as [->|[]]. reflexivity.
  - intros (a & Hin & E). exists a. split; [exact Hin|]. rewrite E. left. reflexivity.
Qed.

(** Without a name that cannot be hashed, every appended row is a row of the
    frame. *)
Lemma typed_rows_length (rows : list appended_row) :
  existsb unhashable_name rows = false ->
  List.length (typed_rows rows) = List.length rows.
Proof.
  induction rows as [|a rows IH]; [reflexivity|].
  cbn [existsb]. intros E. apply orb_false_iff in E. destruct E as [Ea Er].
  unfold typed_rows. cbn [flat_map]. fold (typed_rows rows).
  unfold unhashable_name in Ea. unfold typed_row.
  destruct (row_country_name a); [|discriminate].
  cbn [app List.length]. f_equal. auto.
Qed.


(** What [sort_values] returns is the frame of the rows, sorted. *)
Lemma sort_values_Normal (rows : list appended_row) (df : list IndicatorRecord) :
  sort_values rows = Normal df ->
  existsb unhashable_name rows = false /\ df = sort_rows (typed_rows rows).
Proof.
  unfold sort_values. destruct (existsb unhashable_name rows); [discriminate|].
  intros E. injection E as <-. auto.
Qed.














(** C1 as stated fails in a second way: a payload whose country name is a
    list is appended without an error, no [except] line is printed, and
    the call raises at the sort. *)
Lemma fetch_country_data_raises_on_list_name :
  let run := call_fetch_country_data (inr ["USA"]) 2020 2021
               (Some ["GDP (Current US$)"]) list_name_world in
  printed (snd run) = [] /\ fst run = Raised.
Proof. vm_compute. split; reflexivity. Qed.




(** C7. A dataset that [fetch_country_data] returns is in ascending order
    of (country_name, indicator, year); it holds the rows of [all_data],
    all of them, and the rows that agree on the three sort columns stand in
    the order in which they were appended. *)
Theorem fetch_country_data_sorted_stable W `{World W}
    (country_codes : string + list string) (start_year end_year : Z)
    (indicators : option (list string)) (w : W)
    (df : list IndicatorRecord) (st : fetch_state W) :
  call_fetch_country_data country_codes start_year end_year indicators w
    = (Normal df, st) ->
  StronglySorted (fun a b => row_leb a b = true) df /\
  Permutation (typed_rows (all_data st)) df /\
  List.length df = List.length (all_data st) /\
  forall k, filter (same_key k) df = filter (same_key k) (typed_rows (all_data st)).
Proof.
  rewrite fetch_country_data_run. intros E. injection E as Edf <-.
  cbn [all_data]. apply sort_values_Normal in Edf. destruct Edf as [Eh ->].
  split; [apply sort_rows_sorted|]. split; [apply sort_rows_perm|].
  split.
  - rewrite <- (typed_rows_length _ Eh).
    apply Permutation_length, Permutation_sym, sort_rows_perm.
  - intros k. apply sort_rows_stable.
Qed.

(** From a source that lists the latest year first, the rows of Germany
    come back with 2020 before 2021, after the row of France. *)
Lemma fetch_country_data_latest_first :
  exists df st,
    call_fetch_country_data (inr ["DEU"; "FRA"]) 2020 2021
      (Some ["GDP Growth (Annual %)"]) latest_first_world = (Normal df, st) /\
    map (fun r => (country_name r, year r)) (typed_rows (all_data st)) =
      [("Germany", 2021); ("Germany", 2020); ("France", 2021)] /\
    map (fun r => (country_name r, year r)) df =
      [("France", 2021); ("Germany", 2020); ("Germany", 2021)] /\
    StronglySorted (fun a b => row_leb a b = true) df.
Proof.
  pose (run := call_fetch_country_data (inr ["DEU"; "FRA"]) 2020 2021
                 (Some ["GDP Growth (Annual %)"]) latest_first_world).
  pose (df := match fst run with Normal df => df | Raised => [] end).
  assert (E : run = (Normal df, snd run)) by (vm_compute; reflexivity).
  exists df, (snd run). split; [exact E|].
  split; [vm_compute; reflexivity|]. split; [vm_compute; reflexivity|].
  apply (@fetch_country_data_sorted_stable scripted_world scripted_World
           (inr ["DEU"; "FRA"]) 2020 2021 (Some ["GDP Growth (Annual %)"])
           latest_first_world df (snd run) E).
Defined.

(** C10. A country code passed as a bare string gives what the one-element
    list of that code gives: the same dataset, [all_data], printed lines
    and world. The string is wrapped before the loops run, which then visit
    the pairs of that one code with each indicator. *)
Theorem fetch_country_data_bare_string W `{World W} (code : string)
    (start_year end_year : Z) (indicators : option (list string)) (w : W) :
  call_fetch_country_data (inl code) start_year end_year indicators w =
  call_fetch_country_data (inr [code]) start_year end_year indicators w /\
  requested_pairs (inl code) indicators =
  map (pair code)
      (match indicators with None => keys ALL_INDICATORS | Some l => l end).
Proof.
  split.
  - reflexivity.
  - unfold requested_pairs. cbn [list_prod]. apply app_nil_r.
Qed.

(** *** fetch_all_countries *)

Lemma timedelta_seconds_bound (d : Z) : (timedelta_seconds d <? 86400) = true.
Proof.
  unfold timedelta_seconds. apply Z.ltb_lt.
  apply Z.mod_pos_bound. lia.
Qed.

(** Once the cache is filled it is returned, whatever the clock shows, and
    the directory is not requested again. *)
Lemma fetch_all_countries_cached W `{World W} (s : module_state W)
    (cache : dict string) (timestamp : Z) :
  _countries_cache s = Some cache ->
  _cache_timestamp s = Some timestamp ->
  fetch_all_countries s =
  (Normal cache,
   {| process_world := snd (datetime_now (process_world s));
      _countries_cache := Some cache;
      _cache_timestamp := Some timestamp |}).
Proof.
  intros Ec Et. unfold fetch_all_countries, bind, get, now, ret.
  rewrite Ec, Et. destruct (datetime_now (process_world s)) as [t w].
  rewrite timedelta_seconds_bound. simpl. rewrite Ec, Et. reflexivity.
Qed.

(** Without a cache, a request that fails gives the fallback list and
    leaves the cache unset. *)
Lemma fetch_all_countries_fallback W `{World W} (s : module_state W) :
  _countries_cache s = None ->
  fst (get_countries (process_world s)) = DirectoryFailed ->
  fetch_all_countries s =
  (Normal FALLBACK_COUNTRIES,
   {| process_world := snd (get_countries (process_world s));
      _countries_cache := None;
      _cache_timestamp := _cache_timestamp s |}).
Proof.
  intros Ec Ed. unfold fetch_all_countries, bind, get, ret, try_except,
    requests_get_countries, raise.
  rewrite Ec. destruct (get_countries (process_world s)) as [r w].
  simpl in Ed. subst r. simpl. rewrite Ec. reflexivity.
Qed.

(** A name the loop has entered in [countries] came with a capital city and
    both coordinates. *)
Lemma collect_countries_populated (entries : list country_entry)
    (start countries : dict string) (name id : string) :
  collect_countries entries start = Normal countries ->
  dict_get countries name = Some id ->
  dict_get start name = Some id \/
  exists capitalCity longitude latitude,
    In (Country name id capitalCity longitude latitude) entries /\
    truthy capitalCity = true /\ truthy longitude = true /\
    truthy latitude = true.
Proof.
  revert start. induction entries as [|e es IH]; intros start; simpl.
  - intros E. injection E as <-. auto.
  - destruct e as [n i cap lon lat|]; [|discriminate].
    intros E Hget. destruct (IH _ E Hget) as [Hstart|Hlater].
    + destruct (truthy cap && truthy lon && truthy lat) eqn:T; [|auto].
      rewrite dict_get_set in Hstart.
      destruct (String.eqb name n) eqn:En; [|auto].
      apply String.eqb_eq in En. subst n. injection Hstart as ->.
      apply andb_true_iff in T. destruct T as [T Tlat].
      apply andb_true_iff in T. destruct T as [Tcap Tlon].
      right. exists cap, lon, lat. auto.
    + destruct Hlater as (c & lo & la & Hin & Hp). right. exists c, lo, la. auto.
Qed.

Lemma insert_item_perm (kv : string * string) (l : dict string) :
  Permutation (kv :: l) (insert_item kv l).
Proof.
  induction l as [|x l IH]; simpl.
  - apply Permutation_refl.
  - destruct (String.compare (fst kv) (fst x));
      try apply Permutation_refl.
    eapply perm_trans; [apply perm_swap|]. apply perm_skip, IH.
Qed.

Lemma sorted_items_perm (countries : dict string) :
  Permutation countries (sorted_items countries).
Proof.
  induction countries as [|kv l IH]; simpl.
  - apply perm_nil.
  - eapply perm_trans; [apply perm_skip, IH|]. apply insert_item_perm.
Qed.

Lemma string_leb_trans (a b c : string) :
  String.leb a b = true -> String.leb b c = true -> String.leb a c = true.
Proof.
  unfold String.leb.
  destruct (String.compare a b) eqn:E1; try discriminate;
    destruct (String.compare b c) eqn:E2; try discriminate; intros _ _.
  - apply String.compare_eq_iff in E1, E2. subst. rewrite string_compare_refl.
    reflexivity.
  - apply String.compare_eq_iff in E1. subst. rewrite E2. reflexivity.
  - apply String.compare_eq_iff in E2. subst. rewrite E1. reflexivity.
  - rewrite (string_compare_lt_trans _ _ _ E1 E2). reflexivity.
Qed.

(** The cached mapping is in ascending order of display name. *)
Lemma sorted_items_sorted (countries : dict string) :
  StronglySorted (fun a b => String.leb (fst a) (fst b) = true)
                 (sorted_items countries).
Proof.
  induction countries as [|kv l IH]; simpl; [constructor|].
  induction IH as [|x l' Hs IH' Hx]; simpl.
  - constructor; constructor.
  - destruct (String.compare (fst kv) (fst x)) eqn:E.
    + constructor; [constructor; assumption|].
      assert (L : String.leb (fst kv) (fst x) = true)
        by (unfold String.leb; rewrite E; reflexivity).
      constructor; [exact L|].
      eapply Forall_impl; [|exact Hx]. intros y. apply string_leb_trans, L.
    + constructor; [constructor; assumption|].
      assert (L : String.leb (fst kv) (fst x) = true)
        by (unfold String.leb; rewrite E; reflexivity).
      constructor; [exact L|].
      eapply Forall_impl; [|exact Hx]. intros y. apply string_leb_trans, L.
    + constructor; [exact IH'|].
      eapply Permutation_Forall; [apply insert_item_perm|].
      constructor; [|exact Hx].
      unfold String.leb. rewrite String.compare_antisym, E. reflexivity.
Qed.

(** C4 at the failing input. The first call, at time 0, fetches the
    directory, keeps the country with a capital and coordinates and stores
    it. A call 25 hours later, when the directory lists France as well,
    returns the stored mapping and sends no request, although the cache is
    older than the 24 hours of [CACHE_CONFIG]: the age test reads the
    seconds field of the difference (3600 here), which is below 86400 for
    every age. *)
Theorem fetch_all_countries_stale_after_25_hours :
  fst (fetch_all_countries
         {| process_world := world_at directory_day1 0 0;
            _countries_cache := None;
            _cache_timestamp := None |})
    = Normal [("Germany", "DEU")] /\
  requests_served (process_world after_first_call) = 1%nat /\
  _cache_timestamp a_day_later = Some 0 /\
  timedelta_total_seconds (hours_25 - 0) = 90000 /\
  countries_cache_hours * 3600 < timedelta_total_seconds (hours_25 - 0) /\
  timedelta_seconds (hours_25 - 0) = 3600 /\
  fst (fetch_all_countries a_day_later) = Normal [("Germany", "DEU")] /\
  requests_served (process_world (snd (fetch_all_countries a_day_later))) = 1%nat.
Proof. vm_compute. repeat split; reflexivity. Qed.

(** *** The heatmap pivot *)

Lemma key_eqb_eq (a b : string * Z) : key_eqb a b = true <-> a = b.
Proof.
  destruct a as [a1 a2], b as [b1 b2]. unfold key_eqb. simpl.
  rewrite andb_true_iff, String.eqb_eq, Z.eqb_eq.
  split; [intros [-> ->]; reflexivity | intros E; inversion E; auto].
Qed.

Lemma key_eqb_refl (a : string * Z) : key_eqb a a = true.
Proof. apply key_eqb_eq. reflexivity. Qed.

(** The values of the rows of [data] in group [k], in row order. *)
Lemma group_get_add (groups : list ((string * Z) * list Q)) (k k' : string * Z)
    (v : Q) :
  group_get (group_add groups k v) k' =
  if key_eqb k' k
  then Some (match group_get groups k' with Some vs => vs | None => [] end ++ [v])%list
  else group_get groups k'.
Proof.
  induction groups as [|[k0 vs] groups IH]; simpl.
  - destruct (key_eqb k' k); reflexivity.
  - destruct (key_eqb k k0) eqn:E0; simpl.
    + apply key_eqb_eq in E0. subst k0.
      destruct (key_eqb k' k); reflexivity.
    + rewrite IH. destruct (key_eqb k' k) eqn:E1; [|reflexivity].
      apply key_eqb_eq in E1. subst k'. rewrite E0. reflexivity.
Qed.

Lemma group_get_fold (data : list IndicatorRecord)
    (groups : list ((string * Z) * list Q)) (k : string * Z) :
  let matching :=
    map value (filter (fun r => key_eqb k (country_name r, year r)) data) in
  group_get
    (fold_left (fun g r => group_add g (country_name r, year r) (value r))
               data groups) k =
  match group_get groups k, matching with
  | None, [] => None
  | None, _ :: _ => Some matching
  | Some vs, _ => Some (vs ++ matching)%list
  end.
Proof.
  revert groups. induction data as [|r data IH]; intros groups; simpl.
  - destruct (group_get groups k); [rewrite app_nil_r|]; reflexivity.
  - rewrite IH, group_get_add.
    destruct (key_eqb k (country_name r, year r)); simpl.
    + destruct (group_get groups k); simpl.
      * rewrite <- app_assoc. reflexivity.
      * reflexivity.
    + reflexivity.
Qed.

Lemma group_get_groupby (data : list IndicatorRecord) (c : string) (y : Z) :
  option_map mean (group_get (groupby data) (c, y)) =
  match cell_rows data c y with
  | [] => None
  | rows => Some (mean (map value rows))
  end.
Proof.
  unfold groupby. rewrite group_get_fold. simpl. unfold cell_rows, key_eqb. simpl.
  assert (E : filter (fun r => ((c =? country_name r)%string && (y =? year r))%bool) data
            = filter (fun r => ((country_name r =? c)%string && (year r =? y))%bool) data).
  { apply filter_ext. intros r. rewrite String.eqb_sym, Z.eqb_sym. reflexivity. }
  rewrite E. clear E. destruct (filter _ data); reflexivity.
Qed.

Lemma insert_year_in (y z : Z) (l : list Z) :
  In z (insert_year y l) <-> z = y \/ In z l.
Proof.
  induction l as [|x l IH]; simpl.
  - intuition.
  - destruct (Z.compare y x) eqn:E; simpl.
    + apply Z.compare_eq_iff in E. subst. intuition.
    + intuition.
    + rewrite IH. intuition.
Qed.

Lemma sorted_years_in (z : Z) (l : list Z) : In z (sorted_years l) <-> In z l.
Proof.
  induction l as [|y l IH]; simpl.
  - reflexivity.
  - rewrite insert_year_in, IH. intuition.
Qed.

Lemma insert_name_in (n m : string) (l : list string) :
  In m (insert_name n l) <-> m = n \/ In m l.
Proof.
  induction l as [|x l IH]; simpl.
  - intuition.
  - destruct (String.compare n x) eqn:E; simpl.
    + apply String.compare_eq_iff in E. subst. intuition.
    + intuition.
    + rewrite IH. intuition.
Qed.

Lemma sorted_names_in (m : string) (l : list string) :
  In m (sorted_names l) <-> In m l.
Proof.
  induction l as [|n l IH]; simpl.
  - reflexivity.
  - rewrite insert_name_in, IH. intuition.
Qed.

Lemma insert_year_sorted (y : Z) (l : list Z) :
  StronglySorted Z.lt l -> StronglySorted Z.lt (insert_year y l).
Proof.
  induction 1 as [|x l Hs IH Hx]; simpl.
  - constructor; constructor.
  - destruct (Z.compare y x) eqn:E.
    + constructor; assumption.
    + apply Z.compare_lt_iff in E.
      constructor; [constructor; assumption|].
      constructor; [exact E|].
      eapply Forall_impl; [|exact Hx]. intros z Hz.
      eapply Z.lt_trans; eassumption.
    + apply Z.compare_gt_iff in E.
      constructor; [exact IH|].
      apply Forall_forall. intros z Hz. apply insert_year_in in Hz.
      destruct Hz as [->|Hz]; [exact E|].
      rewrite Forall_forall in Hx. auto.
Qed.

Lemma sorted_years_sorted (l : list Z) : StronglySorted Z.lt (sorted_years l).
Proof.
  induction l as [|y l IH]; simpl.
  - constructor.
  - apply insert_year_sorted, IH.
Qed.

Lemma insert_name_sorted (n : string) (l : list string) :
  StronglySorted (fun a b => String.compare a b = Lt) l ->
  StronglySorted (fun a b => String.compare a b = Lt) (insert_name n l).
Proof.
  induction 1 as [|x l Hs IH Hx]; simpl.
  - constructor; constructor.
  - destruct (String.compare n x) eqn:E.
    + constructor; assumption.
    + constructor; [constructor; assumption|].
      constructor; [exact E|].
      eapply Forall_impl; [|exact Hx]. intros z Hz.
      eapply string_compare_lt_trans; eassumption.
    + constructor; [exact IH|].
      apply Forall_forall. intros z Hz. apply insert_name_in in Hz.
      destruct Hz as [->|Hz].
      * rewrite String.compare_antisym, E. reflexivity.
      * rewrite Forall_forall in Hx. auto.
Qed.

Lemma sorted_names_sorted (l : list string) :
  StronglySorted (fun a b => String.compare a b = Lt) (sorted_names l).
Proof.
  induction l as [|n l IH]; simpl.
  - constructor.
  - apply insert_name_sorted, IH.
Qed.

Lemma heatmap_cell (data : list IndicatorRecord) (i j : nat) (c : string) (y : Z) :
  nth_error (pivot_index (pivot_table data)) i = Some c ->
  nth_error (pivot_columns (pivot_table data)) j = Some y ->
  exists cells,
    nth_error (fillna 0 (pivot_table data)) i = Some cells /\
    nth_error cells j = Some (cell_value data c y).
Proof.
  unfold fillna, pivot_table. cbn [pivot_index pivot_columns pivot_values].
  intros Hi Hj. eexists. split.
  - rewrite !nth_error_map, Hi. reflexivity.
  - rewrite !nth_error_map, Hj. simpl. f_equal.
    rewrite group_get_groupby. unfold cell_value.
    destruct (cell_rows data c y); reflexivity.
Qed.

Lemma create_chart_heatmap_plots (df : list IndicatorRecord) (ind : string)
    (countries : option (list string)) :
  plotted_rows df ind countries <> [] ->
  create_chart df ind "heatmap" countries =
  let pivot_data := pivot_table (plotted_rows df ind countries) in
  Normal (GoHeatmap (fillna 0 pivot_data) (pivot_columns pivot_data)
    (pivot_index pivot_data) ("🌡️ " ++ ind ++ " - Heatmap")).
Proof.
  unfold create_chart, plotted_rows. intros Hne.
  destruct df as [|r0 df]; [destruct countries as [[|]|]; contradiction|].
  destruct (rows_of_indicator (r0 :: df) ind) as [|r1 rs] eqn:E1.
  - destruct countries as [[|]|]; contradiction.
  - destruct countries as [[|c cs]|].
    + reflexivity.
    + destruct (rows_of_countries (r1 :: rs) (c :: cs)) eqn:E2;
        [contradiction|reflexivity].
    + reflexivity.
Qed.

(** C3 (as amended). When the rows to plot are not empty, the heatmap of an
    indicator is the pivot of those rows: its countries and its years are
    the country names and the years that occur in the rows, each once and
    in ascending order, and the cell of a country and a year of the grid
    holds the mean of the matching values, 0 when there is none. A year no row has is not a column: for Germany
    with values in 2019 and 2021 only, the cell (Germany, 2020) is there,
    with value 0, exactly when some other plotted row has year 2020. *)
Theorem create_chart_heatmap_grid (df : list IndicatorRecord) (ind : string)
    (countries : option (list string)) :
  let data := plotted_rows df ind countries in
  data <> [] ->
  exists z x y title,
    create_chart df ind "heatmap" countries = Normal (GoHeatmap z x y title) /\
    (forall c, In c y <-> In c (map country_name data)) /\
    (forall yr, In yr x <-> In yr (map year data)) /\
    StronglySorted (fun a b => String.compare a b = Lt) y /\
    StronglySorted Z.lt x /\
    (forall i j c yr,
        nth_error y i = Some c -> nth_error x j = Some yr ->
        exists cells,
          nth_error z i = Some cells /\
          nth_error cells j = Some (cell_value data c yr)) /\
    (forall c yr, cell_rows data c yr = [] -> cell_value data c yr = 0%Q).
Proof.
  intros data Hne. rewrite (create_chart_heatmap_plots df ind countries Hne).
  fold data. cbv zeta. do 4 eexists. split; [reflexivity|].
  repeat split.
  - apply sorted_names_in.
  - apply sorted_names_in.
  - apply sorted_years_in.
  - apply sorted_years_in.
  - apply sorted_names_sorted.
  - apply sorted_years_sorted.
  - intros i j c yr. apply heatmap_cell.
  - intros c yr E. unfold cell_value. rewrite E. reflexivity.
Qed.

(** With France reporting 2020, the grid has the cell (Germany, 2020), and
    it holds 0. *)
Lemma create_chart_heatmap_deu_and_fra :
  exists z x y title cells,
    create_chart deu_and_fra "GDP Growth (Annual %)" "heatmap" None
      = Normal (GoHeatmap z x y title) /\
    nth_error y 1 = Some "Germany" /\ nth_error x 1 = Some 2020 /\
    nth_error z 1 = Some cells /\ nth_error cells 1 = Some 0%Q.
Proof.
  assert (Hne : plotted_rows deu_and_fra "GDP Growth (Annual %)" None <> [])
    by (vm_compute; discriminate).
  destruct (create_chart_heatmap_grid deu_and_fra "GDP Growth (Annual %)" None Hne)
    as (z & x & y & title & E & _ & _ & _ & _ & Hcell & Hzero).
  rewrite (create_chart_heatmap_plots deu_and_fra "GDP Growth (Annual %)" None Hne)
    in E.
  injection E as <- <- <- <-.
  destruct (Hcell 1%nat 1%nat "Germany" 2020 eq_refl eq_refl) as (cells & Hz & Hc).
  rewrite Hzero in Hc by reflexivity.
  do 4 eexists. exists cells. split; [reflexivity|].
  repeat split; try reflexivity; assumption.
Defined.

(** C3 as stated fails: with Germany alone, the heatmap has the columns
    2019 and 2021 and no cell for 2020. *)
Lemma create_chart_heatmap_deu_only :
  create_chart deu_only "GDP Growth (Annual %)" "heatmap" None
  = Normal (GoHeatmap [[11 # 10; 26 # 10]%Q] [2019; 2021] ["Germany"]
      "🌡️ GDP Growth (Annual %) - Heatmap").
Proof. vm_compute. reflexivity. Qed.

(** *** The charts of a fetch *)

(** A line chart is drawn without raising. *)
Lemma create_chart_line (df : list IndicatorRecord) (ind : string)
    (countries : option (list string)) :
  create_chart df ind "line" countries = Normal (line_chart df ind countries).
Proof.
  unfold create_chart, line_chart, plotted_rows.
  destruct df as [|r0 df0]; [reflexivity|].
  destruct (rows_of_indicator (r0 :: df0) ind) as [|r1 rs]; [reflexivity|].
  destruct countries as [[|c cs]|]; try reflexivity.
  destruct (rows_of_countries (r1 :: rs) (c :: cs)); reflexivity.
Qed.

Lemma chart_cards_enumerate (i : nat) (df : list IndicatorRecord)
    (indicators : list string) (countries : option (list string)) :
  chart_cards i df indicators countries =
  Normal (map (fun p => line_card df countries (fst p) (snd p))
              (filter (fun p => has_rows df (snd p)) (enumerate i indicators))).
Proof.
  revert i. induction indicators as [|ind l IH]; intros i.
  - reflexivity.
  - cbn [chart_cards enumerate filter snd]. fold (has_rows df ind).
    rewrite create_chart_line, IH.
    destruct (has_rows df ind); reflexivity.
Qed.

Lemma create_charts_and_export_cards (df : list IndicatorRecord)
    (indicators : list string) (countries : option (list string)) :
  create_charts_and_export df indicators countries =
  Normal (map (fun p => line_card df countries (fst p) (snd p))
              (filter (fun p => has_rows df (snd p)) (enumerate 0 indicators)),
          ExportCard).
Proof. unfold create_charts_and_export. rewrite chart_cards_enumerate. reflexivity. Qed.

Lemma rows_before_raise_labels (cc ind : string) (entries : list entry) :
  Forall (fun a => row_country_code a = cc /\ row_indicator a = ind)
         (rows_before_raise cc ind entries).
Proof.
  induction entries as [|e es IH]; simpl.
  - constructor.
  - unfold convert_entry.
    destruct (entry_value e); try constructor; auto.
    destruct (entry_country_value e); try constructor.
    destruct (entry_date e); try constructor; auto.
Qed.

(** The rows of a frame carry the code and the label of the rows they are
    made of. *)
Lemma typed_rows_labels (P : string -> string -> Prop) (rows : list appended_row) :
  Forall (fun a => P (row_country_code a) (row_indicator a)) rows ->
  Forall (fun r => P (country_code r) (indicator r)) (typed_rows rows).
Proof.
  intros Hall. apply Forall_forall. intros r Hin.
  apply typed_rows_In in Hin. destruct Hin as (a & Ha & Et).
  rewrite Forall_forall in Hall. specialize (Hall a Ha).
  unfold typed_row in Et. destruct (row_country_name a); [|discriminate].
  injection Et as <-. exact Hall.
Qed.

Lemma serve_pairs_countries W `{World W} (sy ey : Z)
    (pairs : list (string * string)) (w : W) :
  Forall (fun t => In (served_country t) (map fst pairs))
         (fst (serve_pairs sy ey pairs w)).
Proof.
  revert w. induction pairs as [|[cc ind] ps IH]; intros w; simpl.
  - constructor.
  - destruct (dict_get ALL_INDICATORS ind).
    + destruct (get_indicator cc s sy ey w) as [r w'].
      specialize (IH w'). destruct (serve_pairs sy ey ps w') as [tr w''].
      simpl in *. constructor; simpl; auto.
      eapply Forall_impl; [|exact IH]. simpl. auto.
    + eapply Forall_impl; [|apply IH]. simpl. auto.
Qed.

(** Every row of a fetch carries one of the requested country codes. *)
Lemma fetch_country_data_codes W `{World W} (codes : list string) (sy ey : Z)
    (indicators : option (list string)) (w : W) (df : list IndicatorRecord)
    (st : fetch_state W) :
  call_fetch_country_data (inr codes) sy ey indicators w = (Normal df, st) ->
  Forall (fun r => In (country_code r) codes) df.
Proof.
  rewrite fetch_country_data_run. intros E. injection E as Edf _.
  apply sort_values_Normal in Edf. destruct Edf as [_ ->].
  set (tr := serve_pairs sy ey (requested_pairs (inr codes) indicators) w).
  assert (Hrows : Forall (fun a => In (row_country_code a) codes)
                         (flat_map served_rows (fst tr))).
  { pose proof (serve_pairs_countries sy ey
                  (requested_pairs (inr codes) indicators) w) as Hc.
    fold tr in Hc. induction Hc as [|t l Ht _ IH]; simpl.
    - constructor.
    - apply Forall_app. split; [|exact IH].
      unfold served_rows. destruct (served_response t); try constructor.
      eapply Forall_impl; [|apply rows_before_raise_labels].
      intros r [-> _]. unfold requested_pairs in Ht.
      apply in_map_iff in Ht. destruct Ht as ([c i] & <- & Hin).
      apply in_prod_iff in Hin. apply Hin. }
  eapply Permutation_Forall; [apply sort_rows_perm|].
  apply (typed_rows_labels (fun code _ => In code codes)). exact Hrows.
Qed.

Lemma rows_of_countries_all (data : list IndicatorRecord) (countries : list string) :
  Forall (fun r => In (country_code r) countries) data ->
  rows_of_countries data countries = data.
Proof.
  intros Hc. unfold rows_of_countries. apply forallb_filter_id. apply forallb_forall.
  intros r Hin. rewrite Forall_forall in Hc.
  apply existsb_exists. exists (country_code r). split; [auto|].
  apply String.eqb_refl.
Qed.

Lemma has_rows_rows_of_indicator (df : list IndicatorRecord) (ind : string) :
  has_rows df ind = true -> rows_of_indicator df ind <> [].
Proof.
  intros Hr. unfold has_rows in Hr. apply existsb_exists in Hr.
  destruct Hr as (x & Hin & Ex). apply String.eqb_eq in Ex. subst x.
  apply in_map_iff in Hin. destruct Hin as (r & Er & Hin).
  intros E. assert (Hr : In r (rows_of_indicator df ind)).
  { apply filter_In. split; [exact Hin|]. apply String.eqb_eq. exact Er. }
  rewrite E in Hr. contradiction.
Qed.

Lemma line_chart_of_fetch (df : list IndicatorRecord) (ind : string)
    (countries : list string) :
  Forall (fun r => In (country_code r) countries) df ->
  has_rows df ind = true ->
  line_chart df ind (Some countries) =
  PxLine (rows_of_indicator df ind) ("📈 " ++ ind ++ " - Trend Analysis").
Proof.
  intros Hc Hr. unfold line_chart, plotted_rows.
  assert (Hall : rows_of_countries (rows_of_indicator df ind) countries
                 = rows_of_indicator df ind).
  { apply rows_of_countries_all. apply Forall_forall. intros r Hin.
    unfold rows_of_indicator in Hin. apply filter_In in Hin.
    rewrite Forall_forall in Hc. apply Hc, Hin. }
  pose proof (has_rows_rows_of_indicator df ind Hr) as Hne.
  destruct df as [|r0 df0]; [now contradiction Hne|].
  destruct (rows_of_indicator (r0 :: df0) ind) as [|r1 rs] eqn:E1;
    [now contradiction Hne|].
  destruct countries as [|c cs].
  - reflexivity.
  - rewrite Hall. reflexivity.
Qed.

Lemma create_chart_line_of_fetch (df : list IndicatorRecord) (ind : string)
    (countries : list string) :
  Forall (fun r => In (country_code r) countries) df ->
  has_rows df ind = true ->
  create_chart df ind "line" (Some countries) =
  Normal (PxLine (rows_of_indicator df ind) ("📈 " ++ ind ++ " - Trend Analysis")).
Proof.
  intros Hc Hr. rewrite create_chart_line, (@line_chart_of_fetch df ind countries Hc Hr). reflexivity.
Qed.


(** C2 (as amended). A fetch with countries and indicators selected writes
    the view state only when it returns rows: then [indicators] is the
    requested list, not narrowed to the indicators that returned data,
    [countries] the requested countries and [source] "api". The charts
    shown are one line chart per requested indicator that has rows in the
    dataset, in the order requested and numbered by position in the
    requested list; a requested indicator with no rows gets no chart, and
    no chart is a placeholder. A fetch that returns no rows shows the
    no-data alert and writes [{}] to both stores. *)
Theorem fetch_and_display_data_after_fetch W `{World W} (n : nat)
    (import_clicks : option nat)
    (selected_countries selected_indicators : list string) (year_range : Z * Z)
    (imported_data existing_data : store (list IndicatorRecord))
    (existing_ui_state : store ui_state) (w : W) :
  selected_countries <> [] ->
  selected_indicators <> [] ->
  forall df st,
    call_fetch_country_data (inr selected_countries) (fst year_range)
      (snd year_range) (Some selected_indicators) w = (Normal df, st) ->
    fetch_and_display_data (Some "fetch-data-btn") (Some (S n)) import_clicks
      selected_countries selected_indicators year_range
      imported_data existing_data existing_ui_state w =
    (Normal
       match df with
       | [] => no_data_found
       | _ :: _ =>
           {| out_charts :=
                map (fun p =>
                       Card {| card_index := fst p;
                               card_header := "📊 " ++ snd p;
                               card_chart_type := "line";
                               card_figure :=
                                 PxLine (rows_of_indicator df (snd p))
                                   ("📈 " ++ snd p ++ " - Trend Analysis") |})
                    (filter (fun p => has_rows df (snd p))
                            (enumerate 0 selected_indicators));
              out_export := ExportCard;
              out_export_style := DisplayBlock;
              out_data := Stored df;
              out_ui_state :=
                Stored {| ui_source := "api";
                          ui_indicators := selected_indicators;
                          ui_countries := selected_countries |} |}
       end,
     world st).
Proof.
  intros Hc Hi df st E.
  unfold fetch_and_display_data. cbn [String.eqb Ascii.eqb Bool.eqb andb clicked].
  destruct selected_countries as [|c cs]; [contradiction|].
  destruct selected_indicators as [|i0 rest]; [contradiction|].
  cbn [nonempty andb]. rewrite E.
  destruct df as [|r rows]; [reflexivity|].
  cbn [String.eqb Ascii.eqb Bool.eqb].
  rewrite create_charts_and_export_cards.
  do 2 f_equal. f_equal.
  apply map_ext_in. intros [j ind] Hin. apply filter_In in Hin.
  destruct Hin as [_ Hrows]. unfold line_card. cbn [fst snd] in *.
  rewrite line_chart_of_fetch; [reflexivity| |exact Hrows].
  eapply fetch_country_data_codes. exact E.
Qed.

(** One indicator for USA and CHN: one chart, and the view state holds the
    request. *)
Lemma fetch_and_display_data_usa_chn :
  exists w',
    fetch_and_display_data (Some "fetch-data-btn") (Some 1%nat) None
      ["USA"; "CHN"] ["GDP (Current US$)"] (2020, 2021)
      StoreNone StoreNone StoreNone usa_chn_world =
    (Normal
       (let usa := row "USA" "United States" "GDP (Current US$)" 2020
                       21354105000000 in
        {| out_charts :=
             [Card {| card_index := 0;
                      card_header := "📊 GDP (Current US$)";
                      card_chart_type := "line";
                      card_figure :=
                        PxLine [usa] "📈 GDP (Current US$) - Trend Analysis" |}];
           out_export := ExportCard;
           out_export_style := DisplayBlock;
           out_data := Stored [usa];
           out_ui_state :=
             Stored {| ui_source := "api";
                       ui_indicators := ["GDP (Current US$)"];
                       ui_countries := ["USA"; "CHN"] |} |}),
     w').
Proof.
  pose (run := call_fetch_country_data (inr ["USA"; "CHN"]) 2020 2021
                 (Some ["GDP (Current US$)"]) usa_chn_world).
  pose (df := match fst run with Normal df => df | Raised => [] end).
  assert (E : run = (Normal df, snd run)) by (vm_compute; reflexivity).
  eexists.
  rewrite (@fetch_and_display_data_after_fetch scripted_world _ 0 None
             ["USA"; "CHN"] ["GDP (Current US$)"] (2020, 2021)
             StoreNone StoreNone StoreNone usa_chn_world
             ltac:(discriminate) ltac:(discriminate) df (snd run) E).
  vm_compute. reflexivity.
Defined.

(** C2 as stated fails: of the two indicators requested, the one without
    rows gets no card, placeholder or other, while the view state lists
    both. *)
Lemma fetch_and_display_data_omits_empty_indicator :
  let outputs :=
    fst (fetch_and_display_data (Some "fetch-data-btn") (Some 1%nat) None
           ["USA"] ["GDP Growth (Annual %)"; "GDP (Current US$)"] (2020, 2021)
           StoreNone StoreNone StoreNone usa_chn_world) in
  exists o,
    outputs = Normal o /\
    out_ui_state o =
      Stored {| ui_source := "api";
                ui_indicators := ["GDP Growth (Annual %)"; "GDP (Current US$)"];
                ui_countries := ["USA"] |} /\
    out_charts o =
      [Card {| card_index := 1;
               card_header := "📊 GDP (Current US$)";
               card_chart_type := "line";
               card_figure :=
                 PxLine [row "USA" "United States" "GDP (Current US$)" 2020
                             21354105000000]
                        "📈 GDP (Current US$) - Trend Analysis" |}].
Proof. vm_compute. eexists. repeat split. Qed.

(** *** The import path *)

Lemma existsb_eqb_In (x : string) (l : list string) :
  existsb (String.eqb x) l = true <-> In x l.
Proof.
  rewrite existsb_exists. split.
  - intros (y & Hin & E). apply String.eqb_eq in E. subst. exact Hin.
  - intros Hin. exists x. split; [exact Hin|apply String.eqb_refl].
Qed.

Lemma index_of_In (name : string) (cols : list string) :
  In name cols -> exists i, index_of name cols = Some i.
Proof.
  induction cols as [|c cols IH]; simpl; [contradiction|].
  intros [->|Hin].
  - rewrite String.eqb_refl. eauto.
  - destruct (String.eqb name c); [eauto|].
    destruct (IH Hin) as (i & ->). simpl. eauto.
Qed.

Lemma indices_of_all (names cols : list string) :
  (forall n, In n names -> In n cols) ->
  exists idx, indices_of names cols = Some idx.
Proof.
  induction names as [|n names IH]; simpl; intros Hall.
  - eauto.
  - destruct (index_of_In n cols) as (i & ->); [auto|].
    destruct IH as (idx & ->); [auto|]. eauto.
Qed.

Lemma indices_of_length (names cols : list string) (idx : list nat) :
  indices_of names cols = Some idx -> List.length idx = List.length names.
Proof.
  revert idx. induction names as [|n names IH]; simpl; intros idx E.
  - injection E as <-. reflexivity.
  - destruct (index_of n cols); [|discriminate].
    destruct (indices_of names cols) as [l|]; [|discriminate].
    injection E as <-. simpl. f_equal. apply IH. reflexivity.
Qed.

Lemma forallb_required (cols : list string) :
  forallb (fun col => existsb (String.eqb col) cols) required_cols = true <->
  (forall col, In col required_cols -> In col cols).
Proof.
  rewrite forallb_forall. split; intros Hall col Hin.
  - apply existsb_eqb_In. auto.
  - apply existsb_eqb_In. auto.
Qed.

Lemma forallb_false A (f : A -> bool) (l : list A) :
  forallb f l = false -> exists x, In x l /\ f x = false.
Proof.
  induction l as [|x l IH]; simpl; [discriminate|].
  destruct (f x) eqn:E; simpl.
  - intros Hl. destruct (IH Hl) as (y & Hin & Ey). eauto.
  - eauto.
Qed.

Lemma coerce_and_drop `{TextFormat} (table : list (list cell)) :
  dropna (to_numeric "value"
            (to_numeric "year" {| columns := required_cols; rows := table |})) =
  {| columns := required_cols; rows := filter complete (map coerce_row table) |}.
Proof.
  unfold to_numeric at 2. cbn [columns rows].
  change (index_of "year" required_cols) with (Some 3%nat). cbv iota.
  unfold to_numeric. cbn [columns rows].
  change (index_of "value" required_cols) with (Some 4%nat). cbv iota.
  unfold dropna. cbn [columns rows]. rewrite map_map. reflexivity.
Qed.

Lemma is_nan_spec (c : cell) : is_nan c = true <-> c = NaN.
Proof. destruct c; simpl; split; intros E; try discriminate; reflexivity. Qed.

(** A line of five cells is dropped exactly when one of its first three
    cells is missing or its year or value is left missing by the
    coercion. *)
Lemma complete_coerce_row `{TextFormat} (c0 c1 c2 c3 c4 : cell) :
  coerce_row [c0; c1; c2; c3; c4] =
  [c0; c1; c2; to_numeric_cell c3; to_numeric_cell c4] /\
  (complete (coerce_row [c0; c1; c2; c3; c4]) = false <->
   c0 = NaN \/ c1 = NaN \/ c2 = NaN \/
   fails_coercion c3 = true \/ fails_coercion c4 = true).
Proof.
  split; [reflexivity|].
  unfold complete, coerce_row, fails_coercion. cbn [update_nth existsb].
  rewrite negb_false_iff, !orb_true_iff, !(is_nan_spec c0), !(is_nan_spec c1),
    !(is_nan_spec c2).
  split.
  - intros [E|[E|[E|[E|[E|E]]]]]; auto. discriminate.
  - intros [E|[E|[E|[E|E]]]]; auto 7.
Qed.

(** The frame [df[required_cols]] has a line of five cells for every line
    of [df]. *)
Lemma select_columns_shape (df selected : DataFrame) :
  select_columns required_cols df = Some selected ->
  columns selected = required_cols /\
  List.length (rows selected) = List.length (rows df) /\
  forall r, In r (rows selected) ->
    exists c0 c1 c2 c3 c4, r = [c0; c1; c2; c3; c4].
Proof.
  unfold select_columns.
  destruct (indices_of required_cols (columns df)) as [idx|] eqn:Eidx;
    [|discriminate].
  intros E. injection E as <-. cbn [columns rows].
  split; [reflexivity|]. split; [apply length_map|].
  apply indices_of_length in Eidx.
  destruct idx as [|i0 [|i1 [|i2 [|i3 [|i4 [|i5 idx]]]]]]; try discriminate.
  intros r Hin. apply in_map_iff in Hin. destruct Hin as (r0 & <- & _).
  cbn [map]. eauto 6.
Qed.

(** C5 (as amended). The import returns no dataset exactly when the
    contents are no data URL, or the name lacks "csv", or the contents are
    no text, or the reader raises on them, or the table read lacks one of
    the five required columns; the validation message that names the
    columns is the answer to the last case, "Please upload a CSV file" to
    a name without "csv", and the error message to the others. When the
    five columns are there, the file is accepted: the frame returned is
    the one of those five columns, in that order, with [year] and [value]
    coerced to numbers, and a line of the table is dropped from it exactly
    when one of its first three fields is missing or its year or value is
    left missing by the coercion; the other lines stay, in their order. *)
Theorem parse_uploaded_csv_drops_rows `{TextFormat} (contents : upload_contents)
    (filename : string) :
  let result := parse_uploaded_csv contents filename in
  (fst result = None <->
   contents = NotDataUrl \/ contains "csv" filename = false \/
   contents = NotText \/
   exists file, contents = CsvText file /\
     (read_csv file = Raised \/
      exists df, read_csv file = Normal df /\
        exists col, In col required_cols /\ ~ In col (columns df))) /\
  (contents = NotDataUrl -> result = (None, ErrorProcessingFile)) /\
  (contents <> NotDataUrl -> contains "csv" filename = false ->
   result = (None, PleaseUploadCsv)) /\
  (contains "csv" filename = true ->
   (contents = NotText -> result = (None, ErrorProcessingFile)) /\
   forall file, contents = CsvText file ->
     (read_csv file = Raised -> result = (None, ErrorProcessingFile)) /\
     forall df, read_csv file = Normal df ->
       ((exists col, In col required_cols /\ ~ In col (columns df)) ->
        result = (None, MustContainColumns required_cols)) /\
       ((forall col, In col required_cols -> In col (columns df)) ->
        exists selected,
          select_columns required_cols df = Some selected /\
          List.length (rows selected) = List.length (rows df) /\
          result =
          (Some {| columns := required_cols;
                   rows := filter complete (map coerce_row (rows selected)) |},
           UploadedSuccessfully) /\
          forall r, In r (rows selected) ->
            exists c0 c1 c2 c3 c4,
              r = [c0; c1; c2; c3; c4] /\
              coerce_row r =
              [c0; c1; c2; to_numeric_cell c3; to_numeric_cell c4] /\
              (complete (coerce_row r) = false <->
               c0 = NaN \/ c1 = NaN \/ c2 = NaN \/
               fails_coercion c3 = true \/ fails_coercion c4 = true))).
Proof.
  intros result.
  assert (Hmissing : forall file df,
            contents = CsvText file -> contains "csv" filename = true ->
            read_csv file = Normal df ->
            (exists col, In col required_cols /\ ~ In col (columns df)) ->
            result = (None, MustContainColumns required_cols)).
  { intros file df -> Hname Hread (col & Hin & Hnot).
    unfold result, parse_uploaded_csv. rewrite Hname, Hread.
    destruct (forallb (fun col => existsb (String.eqb col) (columns df))
                      required_cols) eqn:E; [|reflexivity].
    exfalso. apply Hnot. apply (proj1 (forallb_required (columns df)) E).
    exact Hin. }
  assert (Hgood : forall file df,
            contents = CsvText file -> contains "csv" filename = true ->
            read_csv file = Normal df ->
            (forall col, In col required_cols -> In col (columns df)) ->
            exists selected,
              select_columns required_cols df = Some selected /\
              result =
              (Some {| columns := required_cols;
                       rows := filter complete (map coerce_row (rows selected)) |},
               UploadedSuccessfully)).
  { intros file df -> Hname Hread Hall.
    unfold result, parse_uploaded_csv. rewrite Hname, Hread.
    rewrite (proj2 (forallb_required (columns df)) Hall). cbn [negb].
    destruct (indices_of_all required_cols (columns df) Hall) as (idx & Eidx).
    unfold select_columns. rewrite Eidx. eexists. split; [reflexivity|].
    rewrite coerce_and_drop. reflexivity. }
  assert (Hcols : forall df,
            (forall col, In col required_cols -> In col (columns df)) \/
            (exists col, In col required_cols /\ ~ In col (columns df))).
  { intros df.
    destruct (forallb (fun col => existsb (String.eqb col) (columns df))
                      required_cols) eqn:E.
    - left. apply forallb_required. exact E.
    - right. apply forallb_false in E. destruct E as (col & Hin & E).
      exists col. split; [exact Hin|]. intros Hc.
      apply existsb_eqb_In in Hc. congruence. }
  split; [|split; [|split; [|intros Hcsv; split]]].
  - split.
    + intros Hnone. destruct contents as [| |file]; auto.
      destruct (contains "csv" filename) eqn:Hname; auto.
      right. right. right. exists file. split; [reflexivity|].
      destruct (read_csv file) as [df|] eqn:Hread; auto.
      right. exists df. split; [reflexivity|].
      destruct (Hcols df) as [Hall|Hmiss]; [|exact Hmiss].
      destruct (Hgood file df eq_refl eq_refl Hread Hall) as (selected & _ & E).
      rewrite E in Hnone. discriminate.
    + intros [->|[Hname|[->|(file & -> & Hfile)]]].
      * reflexivity.
      * unfold result, parse_uploaded_csv. rewrite Hname.
        destruct contents; reflexivity.
      * unfold result, parse_uploaded_csv.
        destruct (contains "csv" filename); reflexivity.
      * destruct (contains "csv" filename) eqn:Hname.
        -- destruct Hfile as [Hread|(df & Hread & Hmiss)].
           ++ unfold result, parse_uploaded_csv. rewrite Hname, Hread.
              reflexivity.
           ++ rewrite (Hmissing file df eq_refl eq_refl Hread Hmiss).
              reflexivity.
        -- unfold result, parse_uploaded_csv. rewrite Hname. reflexivity.
  - intros ->. reflexivity.
  - intros Hc Hname. unfold result, parse_uploaded_csv. rewrite Hname.
    destruct contents; [contradiction| |]; reflexivity.
  - intros ->. unfold result, parse_uploaded_csv.
    rewrite Hcsv. reflexivity.
  - intros file Hfile. split.
    + intros Hread. subst contents. unfold result, parse_uploaded_csv.
      rewrite Hcsv, Hread. reflexivity.
    + intros df Hread. split.
      * apply (Hmissing file df Hfile Hcsv Hread).
      * intros Hall.
        destruct (Hgood file df Hfile Hcsv Hread Hall) as (selected & Esel & E).
        destruct (select_columns_shape df Esel) as (_ & Hlen & Hshape).
        exists selected. split; [exact Esel|]. split; [exact Hlen|].
        split; [exact E|].
        intros r Hin. destruct (Hshape r Hin) as (c0 & c1 & c2 & c3 & c4 & ->).
        exists c0, c1, c2, c3, c4. split; [reflexivity|].
        apply complete_coerce_row.
Qed.

(** Of the four lines of this upload, the one whose year is "twenty" and
    the one whose value is "high" fail the coercion and are dropped; the
    other two make the dataset. *)
Lemma parse_uploaded_csv_coerced_upload :
  (exists df selected,
     read_csv coerced_upload = Normal df /\
     select_columns required_cols df = Some selected /\
     nth_error (rows selected) 1 =
     Some [CStr "DEU"; CStr "Germany"; CStr "GDP Growth (Annual %)";
           CStr "twenty"; CStr "2.6"] /\
     fails_coercion (CStr "twenty") = true /\
     nth_error (rows selected) 2 =
     Some [CStr "FRA"; CStr "France"; CStr "GDP Growth (Annual %)";
           CStr "2020"; CStr "high"] /\
     fails_coercion (CStr "high") = true) /\
  parse_uploaded_csv (CsvText coerced_upload) "upload.csv" =
  (Some {| columns := required_cols;
           rows := [[CStr "DEU"; CStr "Germany"; CStr "GDP Growth (Annual %)";
                     CFloat 2019; CFloat (11 # 10)];
                    [CStr "FRA"; CStr "France"; CStr "GDP Growth (Annual %)";
                     CFloat 2021; CFloat (34 # 5)]] |},
   UploadedSuccessfully).
Proof.
  pose (df := match read_csv coerced_upload with
              | Normal df => df
              | Raised => {| columns := []; rows := [] |}
              end).
  assert (Eread : read_csv coerced_upload = Normal df) by (vm_compute; reflexivity).
  destruct (@parse_uploaded_csv_drops_rows pandas_text (CsvText coerced_upload)
              "upload.csv") as (_ & _ & _ & Hcsv).
  destruct Hcsv as [_ Hfile]; [vm_compute; reflexivity|].
  destruct (Hfile coerced_upload eq_refl) as [_ Hdf].
  destruct (Hdf df Eread) as [_ Hrows].
  destruct Hrows as (selected & Esel & _ & Eparse & _).
  - intros col Hin. apply existsb_eqb_In.
    revert col Hin. apply forallb_forall. vm_compute. reflexivity.
  - split.
    + exists df, selected. split; [exact Eread|]. split; [exact Esel|].
      vm_compute in Esel. injection Esel as <-.
      vm_compute. repeat split; reflexivity.
    + rewrite Eparse. vm_compute in Esel. injection Esel as <-.
      vm_compute. reflexivity.
Defined.

(** Of the four lines of this upload, which has a sixth column, the one
    whose year is a missing value and the one without a country name are
    dropped. *)
Lemma parse_uploaded_csv_mixed_upload :
  parse_uploaded_csv (CsvText mixed_upload) "upload.csv" =
  (Some {| columns := required_cols;
           rows := [[CStr "DEU"; CStr "Germany"; CStr "GDP Growth (Annual %)";
                     CFloat 2019; CFloat (11 # 10)];
                    [CStr "FRA"; CStr "France"; CStr "GDP Growth (Annual %)";
                     CFloat 2020; CFloat 7]] |},
   UploadedSuccessfully).
Proof. vm_compute. reflexivity. Qed.

(** A file whose lines have one field more than the header is read with
    that field as the index of the frame, and is accepted. *)
Lemma parse_uploaded_csv_indexed_upload :
  parse_uploaded_csv (CsvText indexed_upload) "upload.csv" =
  (Some {| columns := required_cols;
           rows := [[CStr "DEU"; CStr "Germany"; CStr "GDP Growth (Annual %)";
                     CInt 2019; CFloat (11 # 10)];
                    [CStr "FRA"; CStr "France"; CStr "GDP Growth (Annual %)";
                     CInt 2020; CFloat (-15 # 2)]] |},
   UploadedSuccessfully).
Proof. vm_compute. reflexivity. Qed.

(** A file with a line longer than the lines before it is rejected whole,
    though it has the five columns: the reader raises on it. *)
Lemma parse_uploaded_csv_ragged_upload :
  read_csv ragged_upload = Raised /\
  parse_uploaded_csv (CsvText ragged_upload) "upload.csv" =
  (None, ErrorProcessingFile).
Proof. split; vm_compute; reflexivity. Qed.

(** C5 as stated fails: this upload has the five required columns, and it
    is rejected whole because its name does not contain "csv". *)
Lemma parse_uploaded_csv_rejects_by_name :
  (exists df, read_csv mixed_upload = Normal df /\
              forallb (fun col => existsb (String.eqb col) (columns df))
                      required_cols = true) /\
  parse_uploaded_csv (CsvText mixed_upload) "upload.txt" = (None, PleaseUploadCsv).
Proof.
  split.
  - eexists. split; [vm_compute; reflexivity|]. vm_compute. reflexivity.
  - vm_compute. reflexivity.
Qed.

(** The example of the specification: without the [year] column the upload
    is rejected, with the message that names the columns. *)
Lemma parse_uploaded_csv_without_year :
  parse_uploaded_csv (CsvText upload_without_year) "upload.csv" =
  (None, MustContainColumns required_cols).
Proof. vm_compute. reflexivity. Qed.

(** *** clear_all_data *)

(** C9. A click on the clear-all button writes, in the one update of its
    callback, empty values to the dataset store, the imported-data store,
    the view state, the chart images and the chart container (with it the
    chart-type selections it held), hides the export section, and puts the
    two dropdowns, the images and the import button back to what the layout
    declares; what it writes does not depend on the state before, so a
    second click in a row leaves the state of the first. Without a click
    nothing changes. *)
Theorem clear_all_data_idempotent (n m : nat) (s : app_state) :
  let cleared := on_clear_all (Some n) s in
  on_clear_all (Some m) cleared = cleared /\
  cleared =
    {| country_dropdown_value := [];
       indicator_dropdown_value := ["GDP (Current US$)"; "GDP Growth (Annual %)"];
       year_slider_value := year_slider_value s;
       data_store := EmptyDict;
       imported_data_store := EmptyDict;
       ui_state_store := EmptyDict;
       chart_images_store := [];
       charts_container_children := Div [];
       export_section_children := export_section_children s;
       export_section_style := DisplayNone;
       upload_status_children := Text "";
       use_imported_btn_disabled := true |} /\
  (store_is_empty (data_store cleared) = true /\
   store_is_empty (imported_data_store cleared) = true /\
   ui_is_empty (ui_state_store cleared) = true /\
   shows_nothing (charts_container_children cleared) = true) /\
  (country_dropdown_value cleared = country_dropdown_value layout_state /\
   indicator_dropdown_value cleared = indicator_dropdown_value layout_state /\
   chart_images_store cleared = chart_images_store layout_state /\
   export_section_style cleared = export_section_style layout_state /\
   use_imported_btn_disabled cleared = use_imported_btn_disabled layout_state) /\
  on_clear_all None s = s.
Proof. repeat split. Qed.

(** *** Export, then import *)

Lemma select_required_of_records (ds : list IndicatorRecord) :
  ds <> [] ->
  select_columns required_cols (DataFrame_of_records ds) =
  Some (DataFrame_of_records ds).
Proof.
  destruct ds as [|r0 ds0]; [contradiction|]. intros _.
  unfold DataFrame_of_records, select_columns. cbn [columns rows].
  change (indices_of required_cols required_cols)
    with (Some [0; 1; 2; 3; 4]%nat).
  cbv iota. do 2 f_equal. rewrite map_map. apply map_ext. reflexivity.
Qed.

Lemma export_to_csv_of_records `{TextFormat} (ds : list IndicatorRecord) :
  ds <> [] ->
  export_to_csv true (DataFrame_of_records ds) =
  Some {| header := required_cols; lines := map line_of_record ds |}.
Proof.
  intros Hne. unfold export_to_csv. rewrite (select_required_of_records Hne).
  destruct ds as [|r0 ds0]; [contradiction|].
  unfold to_csv, DataFrame_of_records. cbn [columns rows].
  do 2 f_equal. rewrite map_map. apply map_ext. reflexivity.
Qed.

Lemma forallb_not A (f : A -> bool) (l : list A) (x : A) :
  In x l -> f x = false -> forallb f l = false.
Proof.
  intros Hin Ex. destruct (forallb f l) eqn:E; [|reflexivity].
  rewrite forallb_forall in E. rewrite (E x Hin) in Ex. discriminate.
Qed.

Lemma infer_dtype_text `{TextFormat} (col : list string) :
  reads_back_as_text col = true -> infer_dtype (map Some col) = object.
Proof.
  unfold reads_back_as_text. rewrite !andb_true_iff, !negb_true_iff.
  intros [[Hna Hnum] Hbool]. rewrite forallb_forall in Hna.
  apply forallb_false in Hnum. destruct Hnum as (s & Hs & Es).
  apply forallb_false in Hbool. destruct Hbool as (b & Hb & Eb).
  apply orb_false_iff in Es. destruct Es as [Ei Ef].
  pose proof (Hna s Hs) as Ns. pose proof (Hna b Hb) as Nb.
  apply negb_true_iff in Ns, Nb.
  unfold infer_dtype.
  rewrite (forallb_not reads_as_int (map Some col) (Some s)
             (in_map Some col s Hs)).
  2: { simpl. rewrite Ei, andb_false_r. reflexivity. }
  rewrite (forallb_not (fun f => missing f || reads_as_number f) (map Some col)
             (Some s) (in_map Some col s Hs)).
  2: { simpl. rewrite Ns, Ei, Ef. reflexivity. }
  rewrite (forallb_not (fun f => missing f || reads_as_bool f) (map Some col)
             (Some b) (in_map Some col b Hb)).
  2: { simpl. rewrite Nb, Eb. reflexivity. }
  reflexivity.
Qed.

Lemma reads_back_as_text_na `{TextFormat} (col : list string) (s : string) :
  reads_back_as_text col = true -> In s col -> is_na s = false.
Proof.
  unfold reads_back_as_text. rewrite !andb_true_iff.
  intros [[Hna _] _] Hin. rewrite forallb_forall in Hna.
  apply negb_true_iff. auto.
Qed.

Lemma infer_dtype_years `{TextFormat} (ds : list IndicatorRecord) :
  Forall (fun r => year_reads_back (year r)) ds ->
  infer_dtype (map (fun r => Some (text_of_int (year r))) ds) = int64.
Proof.
  intros Hy. unfold infer_dtype.
  assert (E : forallb reads_as_int (map (fun r => Some (text_of_int (year r))) ds)
              = true).
  { induction Hy as [|r l [Hna Hint] _ IH]; simpl; auto.
    rewrite Hna, Hint, IH. reflexivity. }
  rewrite E. reflexivity.
Qed.

Lemma infer_dtype_values `{TextFormat} (ds : list IndicatorRecord) :
  ds <> [] ->
  Forall (fun r => value_reads_back (value r)) ds ->
  infer_dtype (map (fun r => Some (text_of_float (value r))) ds) = float64.
Proof.
  intros Hne Hv. unfold infer_dtype.
  assert (E1 : forallb reads_as_int
                 (map (fun r => Some (text_of_float (value r))) ds) = false).
  { destruct Hv as [|r l (Hna & Hint & Hfl) _]; [contradiction|].
    simpl. rewrite Hint, andb_false_r. reflexivity. }
  assert (E2 : forallb (fun f => missing f || reads_as_number f)
                 (map (fun r => Some (text_of_float (value r))) ds) = true).
  { clear Hne E1. induction Hv as [|r l (Hna & Hint & Hfl) _ IH]; simpl; auto.
    rewrite Hna, Hfl, IH, orb_true_r. reflexivity. }
  rewrite E1, E2. reflexivity.
Qed.

Lemma read_csv_of_records `{TextFormat} (ds : list IndicatorRecord) :
  ds <> [] ->
  reads_back ds ->
  read_csv {| header := required_cols; lines := map line_of_record ds |} =
  Normal (DataFrame_of_records ds).
Proof.
  intros Hne (Hcode & Hname & Hind & Hyear & Hvalue).
  unfold read_csv. cbn [header lines].
  change (List.length required_cols) with 5%nat.
  unfold required_cols at 1. cbv iota zeta.
  assert (Hw : match map line_of_record ds with
               | [] => 5%nat
               | first :: _ => Nat.max 5 (List.length first)
               end = 5%nat).
  { destruct ds; reflexivity. }
  rewrite Hw. clear Hw. change (5 - 5)%nat with 0%nat.
  assert (Hlen : existsb (fun line => (5 <? List.length line)%nat)
                         (map line_of_record ds) = false).
  { clear. induction ds as [|r l IH]; simpl; auto. }
  rewrite Hlen. clear Hlen.
  assert (Htable : map (fun line => fields_of_line 5 (skipn 0 line))
                       (map line_of_record ds) =
                   map (fun r => [Some (country_code r); Some (country_name r);
                                  Some (indicator r);
                                  Some (text_of_int (year r));
                                  Some (text_of_float (value r))]) ds).
  { rewrite map_map. apply map_ext. reflexivity. }
  rewrite Htable. clear Htable. cbn [seq map].
  rewrite !map_map. cbn [nth].
  rewrite <- (map_map country_code Some), <- (map_map country_name Some),
          <- (map_map indicator Some).
  rewrite (infer_dtype_text _ Hcode), (infer_dtype_text _ Hname),
          (infer_dtype_text _ Hind), (infer_dtype_years Hyear),
          (infer_dtype_values Hne Hvalue).
  destruct ds as [|r0 ds0]; [contradiction|].
  unfold DataFrame_of_records. do 2 f_equal.
  apply map_ext_in. intros r Hin. cbn [combine map fst snd convert_field].
  rewrite (reads_back_as_text_na _ _ Hcode (in_map country_code _ _ Hin)),
          (reads_back_as_text_na _ _ Hname (in_map country_name _ _ Hin)),
          (reads_back_as_text_na _ _ Hind (in_map indicator _ _ Hin)).
  rewrite Forall_forall in Hyear, Hvalue.
  destruct (Hyear r Hin) as [Yna Yint].
  destruct (Hvalue r Hin) as (Vna & Vint & Vfl).
  rewrite Yna, Yint, Vna, Vint, Vfl. reflexivity.
Qed.

Lemma coerce_complete_records `{TextFormat} (ds : list IndicatorRecord) :
  filter complete (map coerce_row (map cells_of_record ds)) =
  map cells_of_record ds.
Proof.
  induction ds as [|r l IH]; simpl; [reflexivity|].
  unfold complete at 1. simpl. f_equal. exact IH.
Qed.


(** C8 (as amended). A dataset with at least one record, whose text
    columns are read back as text, and whose years and values are read back
    from their own text as the same numbers, is written to a file by
    [export_to_csv] and comes back from it through [parse_uploaded_csv]
    with the same records in the same order, when the name of the file
    contains "csv". *)
Theorem export_import_round_trip `{TextFormat} (ds : list IndicatorRecord)
    (filename : string) :
  ds <> [] ->
  contains "csv" filename = true ->
  reads_back ds ->
  exists file,
    export_to_csv true (DataFrame_of_records ds) = Some file /\
    parse_uploaded_csv (CsvText file) filename =
    (Some (DataFrame_of_records ds), UploadedSuccessfully).
Proof.
  intros Hne Hname Hback. eexists. split.
  - apply export_to_csv_of_records. exact Hne.
  - unfold parse_uploaded_csv. rewrite Hname.
    rewrite (read_csv_of_records Hne Hback).
    rewrite (select_required_of_records Hne).
    destruct ds as [|r0 ds0]; [contradiction|].
    unfold DataFrame_of_records. cbn [columns].
    change (forallb (fun col => existsb (String.eqb col) required_cols)
                    required_cols) with true.
    cbn [negb]. rewrite coerce_and_drop, coerce_complete_records. reflexivity.
Qed.

(** The rows for France and Germany come back as they were exported. *)
Lemma export_import_deu_fra :
  exists file,
    export_to_csv true (DataFrame_of_records deu_fra_growth) = Some file /\
    parse_uploaded_csv (CsvText file) "economic_data_20240101_120000.csv" =
    (Some (DataFrame_of_records deu_fra_growth), UploadedSuccessfully).
Proof.
  apply (@export_import_round_trip pandas_text deu_fra_growth
           "economic_data_20240101_120000.csv").
  - discriminate.
  - vm_compute. reflexivity.
  - unfold reads_back.
    split; [vm_compute; reflexivity|].
    split; [vm_compute; reflexivity|].
    split; [vm_compute; reflexivity|].
    split; repeat (constructor; [vm_compute; auto|]); constructor.
Defined.

(** C8 as stated fails: the row of Namibia, fetched under the code "NA",
    is exported, and the import of the exported file returns a frame
    without rows, the code being read as a missing value. *)
Lemma export_import_loses_namibia :
  exists file,
    export_to_csv true (DataFrame_of_records namibia) = Some file /\
    lines file = [["NA"; "Namibia"; "GDP Growth (Annual %)"; "2019"; "-0.8"]] /\
    parse_uploaded_csv (CsvText file) "economic_data_20240101_120000.csv" =
    (Some {| columns := required_cols; rows := [] |}, UploadedSuccessfully).
Proof. eexists. split; [vm_compute; reflexivity|]. split; vm_compute; reflexivity. Qed.

(** A text column made of number literals only comes back as a column of
    numbers: the code "840" is read as the integer 840. *)
Lemma export_import_retypes_numeric_code :
  exists file,
    export_to_csv true (DataFrame_of_records numeric_code) = Some file /\
    parse_uploaded_csv (CsvText file) "economic_data_20240101_120000.csv" =
    (Some {| columns := required_cols;
             rows := [[CInt 840; CStr "United States";
                       CStr "GDP Growth (Annual %)"; CInt 2019;
                       CFloat (23 # 10)]] |},
     UploadedSuccessfully).
Proof. eexists. split; vm_compute; reflexivity. Qed.

(** The frame without rows that [fetch_country_data] returns has no columns
    and is not exported at all. *)
Lemma export_to_csv_empty_frame `{TextFormat} :
  export_to_csv true (DataFrame_of_records []) = None.
Proof. reflexivity. Qed.

(** ** Further properties of the code *)

(** *** create_chart on any input *)

Ltac case_eqb s t :=
  let E := fresh "E" in
  destruct (String.eqb s t) eqn:E;
  [apply String.eqb_eq in E; try subst; try discriminate | ].

Lemma negative_lt (x : Q) : negative x = true <-> (x < 0)%Q.
Proof.
  unfold negative, Qlt. cbn [Qnum Qden]. rewrite Z.ltb_lt. lia.
Qed.

Lemma scatter_raises_spec (chart_type : string) (data : list IndicatorRecord) :
  scatter_raises chart_type data = true <->
  chart_type = "scatter" /\ exists r, In r data /\ (value r < 0)%Q.
Proof.
  unfold scatter_raises. rewrite andb_true_iff, String.eqb_eq, existsb_exists.
  split; intros [Hs (r & Hin & Hr)]; (split; [exact Hs|]); exists r;
    (split; [exact Hin|]); apply negative_lt; exact Hr.
Qed.

(** With rows to plot, [create_chart] draws the chart of its type, or
    raises. *)
Lemma create_chart_draws (df : list IndicatorRecord) (ind chart_type : string)
    (countries : option (list string)) :
  plotted_rows df ind countries <> [] ->
  create_chart df ind chart_type countries =
  if scatter_raises chart_type (plotted_rows df ind countries) then Raised
  else Normal (draw_chart chart_type ind (plotted_rows df ind countries)).
Proof.
  intros Hne. unfold create_chart, plotted_rows in *.
  destruct df as [|r0 df0]; [destruct countries as [[|]|]; contradiction|].
  destruct (rows_of_indicator (r0 :: df0) ind) as [|r1 rs] eqn:E1;
    [destruct countries as [[|]|]; contradiction|].
  assert (Hdraw : forall data r l, data = r :: l ->
    match data with
    | [] => Normal (Annotation ("No data available for " ++ ind
                                ++ " with selected countries"))
    | _ :: _ =>
        if String.eqb chart_type "line" then
          Normal (PxLine data ("📈 " ++ ind ++ " - Trend Analysis"))
        else if String.eqb chart_type "bar" then
          Normal (PxBar (filter (fun r => Z.eqb (year r) (max_year data)) data)
            ("📊 " ++ ind ++ " (" ++ str_of_int (max_year data) ++ ") - Comparison"))
        else if String.eqb chart_type "scatter" then
          if existsb (fun r => negative (value r)) data then Raised
          else Normal (PxScatter data ("🎯 " ++ ind ++ " - Scatter Analysis"))
        else if String.eqb chart_type "area" then
          Normal (PxArea data ("📋 " ++ ind ++ " - Area Chart"))
        else if String.eqb chart_type "box" then
          Normal (PxBox data ("🗂️ " ++ ind ++ " - Distribution Analysis"))
        else if String.eqb chart_type "heatmap" then
          Normal (GoHeatmap (fillna 0 (pivot_table data))
            (pivot_columns (pivot_table data))
            (pivot_index (pivot_table data)) ("🌡️ " ++ ind ++ " - Heatmap"))
        else if String.eqb chart_type "histogram" then
          Normal (PxHistogram data ("📉 " ++ ind ++ " - Value Distribution"))
        else Normal (PxLine data ("📈 " ++ ind ++ " - Default View"))
    end = if scatter_raises chart_type data then Raised
          else Normal (draw_chart chart_type ind data)).
  { intros data r l ->. unfold scatter_raises, draw_chart, chart_title, bar_title.
    case_eqb chart_type "line"; [reflexivity|].
    case_eqb chart_type "bar"; [reflexivity|].
    case_eqb chart_type "scatter".
    { cbn [String.eqb Ascii.eqb Bool.eqb andb].
      destruct (existsb (fun r0 => negative (value r0)) (r :: l)); reflexivity. }
    cbn [andb].
    case_eqb chart_type "area"; [reflexivity|].
    case_eqb chart_type "box"; [reflexivity|].
    case_eqb chart_type "heatmap"; [reflexivity|].
    case_eqb chart_type "histogram"; reflexivity. }
  destruct countries as [[|c cs]|].
  - apply (Hdraw _ r1 rs eq_refl).
  - destruct (rows_of_countries (r1 :: rs) (c :: cs)) as [|r2 l2] eqn:E2;
      [contradiction|].
    apply (Hdraw _ r2 l2 eq_refl).
  - apply (Hdraw _ r1 rs eq_refl).
Qed.

(** Without rows to plot, it returns a placeholder. *)
Lemma create_chart_no_rows (df : list IndicatorRecord) (ind chart_type : string)
    (countries : option (list string)) :
  plotted_rows df ind countries = [] ->
  exists text, create_chart df ind chart_type countries = Normal (Annotation text).
Proof.
  unfold plotted_rows, create_chart.
  destruct df as [|r0 df0]; [eauto|].
  destruct (rows_of_indicator (r0 :: df0) ind) as [|r1 rs]; [eauto|].
  destruct countries as [[|c cs]|]; try discriminate.
  intros ->. eauto.
Qed.

(** It raises in one case only. *)
Lemma create_chart_Raised (df : list IndicatorRecord) (ind chart_type : string)
    (countries : option (list string)) :
  create_chart df ind chart_type countries = Raised <->
  scatter_raises chart_type (plotted_rows df ind countries) = true.
Proof.
  destruct (plotted_rows df ind countries) as [|r l] eqn:E.
  - destruct (create_chart_no_rows df ind chart_type countries E) as (text & ->).
    unfold scatter_raises. cbn [existsb]. rewrite andb_false_r.
    split; discriminate.
  - rewrite create_chart_draws by (rewrite E; discriminate). rewrite E.
    destruct (scatter_raises chart_type (r :: l)); split; auto; discriminate.
Qed.

Lemma draw_chart_not_annotation (chart_type ind : string)
    (data : list IndicatorRecord) :
  is_annotation (draw_chart chart_type ind data) = false.
Proof.
  unfold draw_chart.
  repeat match goal with
         | |- context [if ?b then _ else _] => destruct b
         end; reflexivity.
Qed.

Lemma draw_chart_titled (chart_type ind : string) (data : list IndicatorRecord) :
  exists title, figure_title (draw_chart chart_type ind data) = Some title.
Proof.
  unfold draw_chart.
  repeat match goal with
         | |- context [if ?b then _ else _] => destruct b
         end; simpl; eauto.
Qed.

(** X1. [create_chart] returns a placeholder exactly when it has no row to
    plot, whatever the chart type, and the placeholder says why: the
    dataset is empty, the indicator has no row, or the selected countries
    have none. With rows to plot it raises in one case, a scatter chart
    over rows one of which has a value below zero; in every other case it
    returns a chart with a title. *)
Theorem create_chart_placeholder (df : list IndicatorRecord)
    (ind chart_type : string) (countries : option (list string)) :
  ((exists text,
      create_chart df ind chart_type countries = Normal (Annotation text)) <->
   plotted_rows df ind countries = []) /\
  (df = [] ->
   create_chart df ind chart_type countries =
   Normal (Annotation "No data available")) /\
  (df <> [] -> rows_of_indicator df ind = [] ->
   create_chart df ind chart_type countries =
   Normal (Annotation ("No data available for " ++ ind))) /\
  (rows_of_indicator df ind <> [] -> plotted_rows df ind countries = [] ->
   create_chart df ind chart_type countries =
   Normal (Annotation ("No data available for " ++ ind
                       ++ " with selected countries"))) /\
  (create_chart df ind chart_type countries = Raised <->
   chart_type = "scatter" /\
   exists r, In r (plotted_rows df ind countries) /\ (value r < 0)%Q) /\
  (plotted_rows df ind countries <> [] ->
   forall figure,
     create_chart df ind chart_type countries = Normal figure ->
     exists title, figure_title figure = Some title).
Proof.
  split; [split; [|apply create_chart_no_rows]|].
  - intros (text & Ha). destruct (plotted_rows df ind countries) as [|r l] eqn:E;
      [reflexivity|].
    rewrite create_chart_draws in Ha by (rewrite E; discriminate).
    rewrite E in Ha. destruct (scatter_raises chart_type (r :: l)); [discriminate|].
    injection Ha as Ha.
    pose proof (draw_chart_not_annotation chart_type ind (r :: l)) as Hn.
    rewrite Ha in Hn. discriminate.
  - split; [intros ->; reflexivity|]. split; [|split; [|split]].
    + intros Hdf E. unfold create_chart.
      destruct df; [contradiction|]. rewrite E. reflexivity.
    + intros Hind E. unfold create_chart, plotted_rows in *.
      destruct df as [|r0 df0]; [contradiction|].
      destruct (rows_of_indicator (r0 :: df0) ind) as [|r1 rs];
        [contradiction|].
      destruct countries as [[|c cs]|]; try discriminate.
      rewrite E. reflexivity.
    + rewrite create_chart_Raised. apply scatter_raises_spec.
    + intros Hne figure. rewrite create_chart_draws by exact Hne.
      destruct (scatter_raises chart_type _); [discriminate|].
      intros E. injection E as <-. apply draw_chart_titled.
Qed.

(** Germany is filtered out of a dataset that has rows for it only when the
    selection asks for France. *)
Lemma create_chart_placeholder_deu :
  create_chart deu_only "GDP Growth (Annual %)" "bar" (Some ["FRA"]) =
  Normal (Annotation
            "No data available for GDP Growth (Annual %) with selected countries").
Proof.
  destruct (create_chart_placeholder deu_only "GDP Growth (Annual %)" "bar"
              (Some ["FRA"])) as (_ & _ & _ & H & _).
  apply H; vm_compute; [discriminate|reflexivity].
Defined.

(** The scatter chart of GDP growth raises over the rows of Germany and
    France, France having a value below zero. *)
Lemma create_chart_scatter_raises :
  create_chart deu_and_fra "GDP Growth (Annual %)" "scatter" None = Raised.
Proof. vm_compute. reflexivity. Qed.


Lemma fold_max_bound (l : list Z) (a : Z) :
  a <= fold_left Z.max l a /\
  Forall (fun y => y <= fold_left Z.max l a) l /\
  (fold_left Z.max l a = a \/ In (fold_left Z.max l a) l).
Proof.
  revert a. induction l as [|x l IH]; intros a; simpl.
  - repeat split; auto. lia.
  - destruct (IH (Z.max a x)) as (Ha & Hall & Hin). repeat split.
    + lia.
    + constructor; [lia|exact Hall].
    + destruct Hin as [E|Hin]; [|auto].
      rewrite E. destruct (Z.max_spec a x) as [[_ ->]|[_ ->]]; auto.
Qed.

Lemma max_year_bound (r : IndicatorRecord) (l : list IndicatorRecord) :
  Forall (fun x => year x <= max_year (r :: l)) (r :: l) /\
  In (max_year (r :: l)) (map year (r :: l)).
Proof.
  unfold max_year.
  destruct (fold_max_bound (map year l) (year r)) as (Ha & Hall & Hin). split.
  - constructor; [exact Ha|]. rewrite Forall_map in Hall. exact Hall.
  - simpl. destruct Hin as [->|Hin]; auto.
Qed.

Lemma create_chart_bar (df : list IndicatorRecord) (ind : string)
    (countries : option (list string)) :
  plotted_rows df ind countries <> [] ->
  create_chart df ind "bar" countries =
  Normal (draw_chart "bar" ind (plotted_rows df ind countries)).
Proof. intros Hne. rewrite create_chart_draws by exact Hne. reflexivity. Qed.

(** X2. With rows to plot, the bar chart shows the rows of the latest year
    among them and no others: that year is the year of one of the rows and
    no row has a later one, the chart has at least one bar, its bars are the
    plotted rows of that year in their order, and its title names the
    year. *)
Theorem create_chart_bar_latest_year (df : list IndicatorRecord) (ind : string)
    (countries : option (list string)) :
  plotted_rows df ind countries <> [] ->
  exists latest_year latest_data,
    create_chart df ind "bar" countries =
      Normal (PxBar latest_data (bar_title ind latest_year)) /\
    In latest_year (map year (plotted_rows df ind countries)) /\
    Forall (fun r => year r <= latest_year) (plotted_rows df ind countries) /\
    latest_data =
      filter (fun r => Z.eqb (year r) latest_year) (plotted_rows df ind countries) /\
    latest_data <> [].
Proof.
  intros Hne. rewrite create_chart_bar by exact Hne.
  destruct (plotted_rows df ind countries) as [|r l] eqn:E; [contradiction|].
  destruct (max_year_bound r l) as [Hall Hin].
  exists (max_year (r :: l)). eexists. split; [reflexivity|].
  repeat split; try assumption.
  apply in_map_iff in Hin. destruct Hin as (x & Ex & Hx).
  intros Hnil.
  assert (Hf : In x (filter (fun r0 => Z.eqb (year r0) (max_year (r :: l))) (r :: l))).
  { apply filter_In. split; [exact Hx|]. apply Z.eqb_eq. exact Ex. }
  rewrite Hnil in Hf. contradiction.
Qed.

(** Of Germany's rows for 2019 and 2021 the bar chart keeps the one of
    2021. *)
Lemma create_chart_bar_deu :
  exists latest_data,
    create_chart deu_only "GDP Growth (Annual %)" "bar" None =
      Normal (PxBar latest_data "📊 GDP Growth (Annual %) (2021) - Comparison") /\
    latest_data = [row "DEU" "Germany" "GDP Growth (Annual %)" 2021 (26 # 10)].
Proof.
  destruct (create_chart_bar_latest_year deu_only "GDP Growth (Annual %)" None)
    as (y & data & E & _).
  - vm_compute. discriminate.
  - assert (C : create_chart deu_only "GDP Growth (Annual %)" "bar" None =
                Normal
                  (PxBar [row "DEU" "Germany" "GDP Growth (Annual %)" 2021 (26 # 10)]
                         "📊 GDP Growth (Annual %) (2021) - Comparison"))
      by (vm_compute; reflexivity).
    rewrite C in E. injection E as Edata _.
    exists data. split; [rewrite C, Edata; reflexivity|].
    symmetry. exact Edata.
Defined.


(** *** update_chart_types *)

Lemma nth_error_combine A B (l1 : list A) (l2 : list B) (j : nat) :
  nth_error (combine l1 l2) j =
  match nth_error l1 j, nth_error l2 j with
  | Some a, Some b => Some (a, b)
  | _, _ => None
  end.
Proof.
  revert l2 j. induction l1 as [|a l1 IH]; intros [|b l2] [|j]; simpl; auto.
  destruct (nth_error l1 j); reflexivity.
Qed.

(** What the loop collects: one result per element, in order; it raises
    when a call does. *)
Lemma collect_Normal A B (f : A -> outcome B) (xs : list A) (ys : list B) :
  collect f xs = Normal ys <-> Forall2 (fun x y => f x = Normal y) xs ys.
Proof.
  revert ys. induction xs as [|x xs IH]; intros ys; cbn [collect].
  - split; [intros E; injection E as <-; constructor|].
    intros HF. inversion HF. reflexivity.
  - destruct (f x) as [y|] eqn:Ex.
    + destruct (collect f xs) as [ys'|] eqn:Ec.
      * split.
        -- intros E. injection E as <-. constructor; [exact Ex|]. apply IH.
           reflexivity.
        -- intros HF. inversion HF as [|x0 y0 xs0 ys0 Hxy Hrest]; subst.
           apply IH in Hrest. congruence.
      * split; [discriminate|].
        intros HF. inversion HF as [|x0 y0 xs0 ys0 Hxy Hrest]; subst.
        apply IH in Hrest. discriminate.
    + split; [discriminate|].
      intros HF. inversion HF as [|x0 y0 xs0 ys0 Hxy Hrest]; subst. congruence.
Qed.

Lemma collect_Raised A B (f : A -> outcome B) (xs : list A) :
  collect f xs = Raised <-> exists x, In x xs /\ f x = Raised.
Proof.
  induction xs as [|x xs IH]; cbn [collect].
  - split; [discriminate|intros (x & [] & _)].
  - destruct (f x) as [y|] eqn:Ex.
    + destruct (collect f xs) as [ys'|] eqn:Ec.
      * split; [discriminate|]. intros (x' & [<-|Hin] & E); [congruence|].
        assert (X : Normal ys' = Raised) by (apply IH; eauto).
        discriminate.
      * split; [|reflexivity]. intros _.
        destruct (proj1 IH eq_refl) as (x' & Hin & E). exists x'.
        split; [right; exact Hin|exact E].
    + split; [|reflexivity]. intros _. exists x. split; [left; reflexivity|exact Ex].
Qed.

Lemma collect_map A B (f : A -> outcome B) (g : A -> B) (xs : list A) :
  (forall x, In x xs -> f x = Normal (g x)) ->
  collect f xs = Normal (map g xs).
Proof.
  intros Hall. apply collect_Normal.
  induction xs as [|x xs IH]; cbn [map]; constructor.
  - apply Hall. left. reflexivity.
  - apply IH. intros x' Hin. apply Hall. right. exact Hin.
Qed.

Lemma card_figures_line_cards (df : list IndicatorRecord)
    (countries : option (list string)) (l : list (nat * string)) :
  card_figures (map (fun p => line_card df countries (fst p) (snd p)) l) =
  map (fun p => line_chart df (snd p) countries) l.
Proof. induction l as [|p l IH]; simpl; [reflexivity|]. rewrite IH. reflexivity. Qed.

Lemma filter_enumerate A (f : A -> bool) (l : list A) (i : nat) :
  map snd (filter (fun p => f (snd p)) (enumerate i l)) = filter f l.
Proof.
  revert i. induction l as [|x l IH]; intros i; simpl; [reflexivity|].
  destruct (f x); simpl; rewrite IH; reflexivity.
Qed.

Lemma combine_line_types (l : list string) :
  combine (line_types (List.length l)) l = map (fun ind => ("line", ind)) l.
Proof. induction l as [|x l IH]; simpl; [reflexivity|]. unfold line_types in IH. rewrite IH. reflexivity. Qed.

Lemma all_line_types (cts : list string) :
  Forall (fun c => c = "line") cts -> cts = line_types (List.length cts).
Proof.
  induction 1 as [|c l -> _ IH]; simpl; [reflexivity|].
  unfold line_types in *. simpl. rewrite <- IH. reflexivity.
Qed.

(** The figures of the cards [create_charts_and_export] builds, as a list
    over the indicators that have rows. *)
Lemma card_figures_cards_of (df : list IndicatorRecord)
    (indicators : list string) (countries : option (list string)) :
  card_figures (cards_of df indicators countries) =
  map (fun ind => line_chart df ind countries)
      (filter (has_rows df) indicators).
Proof.
  unfold cards_of. rewrite card_figures_line_cards.
  rewrite <- (filter_enumerate (has_rows df) indicators 0), map_map.
  reflexivity.
Qed.

Lemma update_chart_types_lines (df : list IndicatorRecord) (ui : ui_state)
    (cts : list string) :
  df <> [] ->
  (List.length cts <> List.length (filter (has_rows df) (ui_indicators ui)) \/
   Forall (fun c => c = "line") cts) ->
  update_chart_types cts (Stored df) (Stored ui) =
  Normal (map (fun ind => line_chart df ind (Some (ui_countries ui)))
              (filter (has_rows df) (ui_indicators ui))).
Proof.
  intros Hne Hcts. destruct df as [|r rows]; [contradiction|].
  unfold update_chart_types.
  set (active := filter (has_rows (r :: rows)) (ui_indicators ui)).
  assert (Hlines : collect
            (fun p => create_chart (r :: rows) (snd p) (fst p)
                                   (Some (ui_countries ui)))
            (map (fun ind => ("line", ind)) active) =
          Normal (map (fun ind => line_chart (r :: rows) ind (Some (ui_countries ui)))
                      active)).
  { rewrite <- (map_map (fun ind => ("line", ind))
                        (fun p => line_chart (r :: rows) (snd p)
                                             (Some (ui_countries ui)))).
    apply collect_map. intros p Hin. apply in_map_iff in Hin.
    destruct Hin as (ind & <- & _). apply create_chart_line. }
  destruct (Nat.eqb_spec (List.length cts) (List.length active)) as [E|E].
  - destruct Hcts as [Hcts|Hcts]; [contradiction|].
    rewrite (all_line_types Hcts), E, combine_line_types. exact Hlines.
  - rewrite combine_line_types. exact Hlines.
Qed.

(** The pairs the redraw draws, when the number of chart types is the
    number of charts. *)
Lemma update_chart_types_pairs (df : list IndicatorRecord) (ui : ui_state)
    (cts : list string) :
  df <> [] ->
  List.length cts = List.length (filter (has_rows df) (ui_indicators ui)) ->
  update_chart_types cts (Stored df) (Stored ui) =
  collect (fun p => create_chart df (snd p) (fst p) (Some (ui_countries ui)))
          (combine cts (filter (has_rows df) (ui_indicators ui))).
Proof.
  intros Hne Hlen. destruct df as [|r rows]; [contradiction|].
  unfold update_chart_types. rewrite Hlen, Nat.eqb_refl. reflexivity.
Qed.

Lemma Forall2_length_eq A B (R : A -> B -> Prop) (l1 : list A) (l2 : list B) :
  Forall2 R l1 l2 -> List.length l1 = List.length l2.
Proof. induction 1; simpl; congruence. Qed.

Lemma Forall2_nth_error A B (R : A -> B -> Prop) (l1 : list A) (l2 : list B)
    (j : nat) (b : B) :
  Forall2 R l1 l2 -> nth_error l2 j = Some b ->
  exists a, nth_error l1 j = Some a /\ R a b.
Proof.
  intros HF. revert j. induction HF as [|x y l1 l2 Hxy _ IH]; intros [|j] E;
    try discriminate.
  - injection E as <-. exists x. auto.
  - apply IH. exact E.
Qed.

(** X3. The cards of the page are drawn without raising. The callback that
    redraws the charts raises in one case: the number of chart types is
    the number of cards and some chart type is "scatter" for an indicator
    one of whose plotted rows has a value below zero. When it returns, it
    returns one figure per card; when every chart type is "line", and
    whenever the number of chart types is not the number of cards, it
    returns the figures the cards were first drawn with. *)
Theorem update_chart_types_redraws_cards (df : list IndicatorRecord)
    (ui : ui_state) (chart_types : list string) :
  df <> [] ->
  let countries := Some (ui_countries ui) in
  let active_indicators := filter (has_rows df) (ui_indicators ui) in
  let redraw := update_chart_types chart_types (Stored df) (Stored ui) in
  exists cards,
    create_charts_and_export df (ui_indicators ui) countries =
      Normal (cards, ExportCard) /\
    List.length (card_figures cards) = List.length active_indicators /\
    (forall figures, redraw = Normal figures ->
       List.length figures = List.length (card_figures cards)) /\
    (Forall (fun c => c = "line") chart_types ->
     redraw = Normal (card_figures cards)) /\
    (List.length chart_types <> List.length (card_figures cards) ->
     redraw = Normal (card_figures cards)) /\
    (redraw = Raised <->
     List.length chart_types = List.length (card_figures cards) /\
     exists j ind r,
       nth_error chart_types j = Some "scatter" /\
       nth_error active_indicators j = Some ind /\
       In r (plotted_rows df ind countries) /\ (value r < 0)%Q).
Proof.
  intros Hne countries active redraw.
  exists (cards_of df (ui_indicators ui) countries).
  split; [apply create_charts_and_export_cards|].
  rewrite card_figures_cards_of. fold active. rewrite length_map.
  split; [reflexivity|].
  assert (Hmis : List.length chart_types <> List.length active ->
                 redraw = Normal (map (fun ind => line_chart df ind countries) active)).
  { intros Hl. apply update_chart_types_lines; auto. }
  split; [|split; [|split; [exact Hmis|]]].
  - intros figures E.
    destruct (Nat.eq_dec (List.length chart_types) (List.length active)) as [Hl|Hl].
    + subst redraw. rewrite (update_chart_types_pairs _ chart_types Hne Hl) in E.
      apply collect_Normal, Forall2_length_eq in E. rewrite <- E.
      rewrite length_combine. fold active. rewrite Hl. apply Nat.min_id.
    + rewrite (Hmis Hl) in E. injection E as <-. apply length_map.
  - intros Hl. apply update_chart_types_lines; auto.
  - split.
    + intros E.
      destruct (Nat.eq_dec (List.length chart_types) (List.length active)) as [Hl|Hl];
        [|rewrite (Hmis Hl) in E; discriminate].
      split; [exact Hl|].
      subst redraw. rewrite (update_chart_types_pairs _ chart_types Hne Hl) in E.
      apply collect_Raised in E. destruct E as ([ct ind] & Hin & E).
      cbn [fst snd] in E. apply create_chart_Raised, scatter_raises_spec in E.
      destruct E as [-> (r & Hr & Hv)].
      apply In_nth_error in Hin. destruct Hin as (j & Hj).
      rewrite nth_error_combine in Hj.
      destruct (nth_error chart_types j) as [ct|] eqn:Ec; [|discriminate].
      fold active in Hj.
      destruct (nth_error active j) as [i|] eqn:Ei; [|discriminate].
      injection Hj as -> ->. exists j, ind, r. auto.
    + intros (Hl & j & ind & r & Hc & Hi & Hr & Hv).
      subst redraw. rewrite (update_chart_types_pairs _ chart_types Hne Hl).
      apply collect_Raised. exists ("scatter", ind). split.
      * apply (nth_error_In _ j). rewrite nth_error_combine, Hc.
        fold active. rewrite Hi. reflexivity.
      * cbn [fst snd]. apply create_chart_Raised, scatter_raises_spec.
        split; [reflexivity|]. exists r. auto.
Qed.

(** After a fetch of two indicators the page has two cards, and a redraw
    with a bar chart and a line chart gives two figures. *)
Lemma update_chart_types_two_cards :
  exists figures,
    update_chart_types ["bar"; "line"] (Stored two_indicators)
      (Stored two_indicators_ui) = Normal figures /\
    List.length figures = 2%nat.
Proof.
  destruct (@update_chart_types_redraws_cards two_indicators two_indicators_ui
              ["bar"; "line"]) as (cards & _ & Hcards & Hlen & _).
  - discriminate.
  - pose (redraw := update_chart_types ["bar"; "line"] (Stored two_indicators)
                      (Stored two_indicators_ui)).
    pose (figures := match redraw with Normal l => l | Raised => [] end).
    assert (E : redraw = Normal figures) by (vm_compute; reflexivity).
    exists figures. split; [exact E|].
    rewrite (Hlen figures E), Hcards. vm_compute. reflexivity.
Defined.

(** X4. Every figure the redraw returns depends on the chart type at its
    own position only: of two redraws that return, with lists of chart
    types of the same length that agree at a position, the figures at that
    position are the same, so changing the type of one chart leaves the
    other charts as they were. *)
Theorem update_chart_types_independent (chart_types chart_types' : list string)
    (stored_data : store (list IndicatorRecord)) (ui : store ui_state) (j : nat)
    (figures figures' : list Figure) :
  List.length chart_types = List.length chart_types' ->
  nth_error chart_types j = nth_error chart_types' j ->
  update_chart_types chart_types stored_data ui = Normal figures ->
  update_chart_types chart_types' stored_data ui = Normal figures' ->
  nth_error figures j = nth_error figures' j.
Proof.
  intros Hlen Hj. unfold update_chart_types.
  destruct stored_data as [| |[|r rows]]; try congruence.
  destruct ui as [| |ui_state]; try congruence.
  rewrite <- Hlen.
  destruct (List.length chart_types =? _)%nat; [|congruence].
  set (active := filter (has_rows (r :: rows)) (ui_indicators ui_state)).
  intros E E'. apply collect_Normal in E, E'.
  destruct (nth_error figures j) as [f|] eqn:Ef.
  - destruct (Forall2_nth_error j E Ef) as ([ct ind] & Hp & Hf).
    rewrite nth_error_combine in Hp.
    destruct (nth_error chart_types j) as [c|] eqn:Ec; [|discriminate].
    destruct (nth_error active j) as [i|] eqn:Ei; [|discriminate].
    injection Hp as -> ->.
    destruct (nth_error figures' j) as [f'|] eqn:Ef'.
    + destruct (Forall2_nth_error j E' Ef') as ([ct' ind'] & Hp' & Hf').
      rewrite nth_error_combine, <- Hj, Ei in Hp'. injection Hp' as <- <-.
      cbn [fst snd] in *. congruence.
    + exfalso. apply nth_error_None in Ef'.
      apply Forall2_length_eq in E'. rewrite length_combine in E'.
      assert (Hin : (j < List.length (combine chart_types' active))%nat).
      { apply nth_error_Some. rewrite nth_error_combine, <- Hj, Ei. discriminate. }
      rewrite length_combine in Hin. lia.
  - destruct (nth_error figures' j) as [f'|] eqn:Ef'; [|reflexivity].
    exfalso. destruct (Forall2_nth_error j E' Ef') as ([ct' ind'] & Hp' & _).
    apply nth_error_None in Ef.
    apply Forall2_length_eq in E. rewrite length_combine in E.
    assert (Hin : (j < List.length (combine chart_types active))%nat).
    { apply nth_error_Some. rewrite nth_error_combine in *. rewrite Hj.
      destruct (nth_error chart_types' j); [|discriminate].
      destruct (nth_error active j); discriminate. }
    rewrite length_combine in Hin. lia.
Qed.

(** Turning the first chart from a bar chart into a heatmap leaves the
    second figure as it was. *)
Lemma update_chart_types_second_unchanged :
  exists figures figures',
    update_chart_types ["bar"; "line"] (Stored two_indicators)
      (Stored two_indicators_ui) = Normal figures /\
    update_chart_types ["heatmap"; "line"] (Stored two_indicators)
      (Stored two_indicators_ui) = Normal figures' /\
    nth_error figures 0 <> nth_error figures' 0 /\
    nth_error figures 1 = nth_error figures' 1.
Proof.
  pose (redraw := update_chart_types ["bar"; "line"] (Stored two_indicators)
                    (Stored two_indicators_ui)).
  pose (redraw' := update_chart_types ["heatmap"; "line"] (Stored two_indicators)
                     (Stored two_indicators_ui)).
  pose (figures := match redraw with Normal l => l | Raised => [] end).
  pose (figures' := match redraw' with Normal l => l | Raised => [] end).
  assert (E : redraw = Normal figures) by (vm_compute; reflexivity).
  assert (E' : redraw' = Normal figures') by (vm_compute; reflexivity).
  exists figures, figures'. split; [exact E|]. split; [exact E'|].
  split; [vm_compute; discriminate|].
  apply (@update_chart_types_independent ["bar"; "line"] ["heatmap"; "line"]
           (Stored two_indicators) (Stored two_indicators_ui) 1 figures figures');
    [reflexivity|reflexivity|exact E|exact E'].
Defined.

(** *** The titles store_chart_images reads *)

Lemma chart_title_known (chart_type ind : string) :
  exists known, In known TITLED_CHART_TYPES /\
                chart_title chart_type ind = chart_title known ind.
Proof.
  unfold chart_title, TITLED_CHART_TYPES.
  case_eqb chart_type "line"; [exists "line"; simpl; auto|].
  case_eqb chart_type "scatter"; [exists "scatter"; simpl; auto|].
  case_eqb chart_type "area"; [exists "area"; simpl; auto 6|].
  case_eqb chart_type "box"; [exists "box"; simpl; auto 6|].
  case_eqb chart_type "heatmap"; [exists "heatmap"; simpl; auto 8|].
  case_eqb chart_type "histogram"; [exists "histogram"; simpl; auto 8|].
  exists "default". simpl. auto 10.
Qed.

Lemma figure_title_draw_chart (chart_type ind : string)
    (data : list IndicatorRecord) :
  chart_type <> "bar" ->
  figure_title (draw_chart chart_type ind data) = Some (chart_title chart_type ind).
Proof.
  intros Hbar. unfold draw_chart.
  case_eqb chart_type "bar"; [contradiction|].
  repeat match goal with
         | |- context [if ?b then _ else _] => destruct b
         end; reflexivity.
Qed.

(** The title of a chart that [create_chart] returns and that is not a bar
    chart. *)
Lemma create_chart_title (df : list IndicatorRecord) (ind chart_type : string)
    (countries : option (list string)) (figure : Figure) :
  chart_type <> "bar" ->
  plotted_rows df ind countries <> [] ->
  create_chart df ind chart_type countries = Normal figure ->
  figure_title figure = Some (chart_title chart_type ind).
Proof.
  intros Hbar Hrows. rewrite create_chart_draws by exact Hrows.
  destruct (scatter_raises chart_type _); [discriminate|].
  intros E. injection E as <-. apply figure_title_draw_chart. exact Hbar.
Qed.

Lemma title_reads_back_spec (ind chart_type : string) :
  title_reads_back ind = true ->
  title_indicator (chart_title chart_type ind) = ind.
Proof.
  unfold title_reads_back. rewrite forallb_forall. intros Hall.
  destruct (chart_title_known chart_type ind) as (known & Hin & ->).
  apply String.eqb_eq. auto.
Qed.

Lemma catalogue_titles_read_back :
  forallb title_reads_back
    (filter (fun ind => negb (existsb (String.eqb ind) INCOME_SHARES))
            (keys ALL_INDICATORS)) = true.
Proof. vm_compute. reflexivity. Qed.

(** X5. The indicator of a chart that [create_chart] returns is read back
    from its title for every label of the catalogue but the two "Income
    Share - ..." ones, under every chart type but "bar", whatever rows the
    chart plots. *)
Theorem title_indicator_of_catalogue (df : list IndicatorRecord)
    (ind chart_type : string) (countries : option (list string))
    (figure : Figure) :
  In ind (keys ALL_INDICATORS) ->
  ~ In ind INCOME_SHARES ->
  chart_type <> "bar" ->
  plotted_rows df ind countries <> [] ->
  create_chart df ind chart_type countries = Normal figure ->
  option_map title_indicator (figure_title figure) = Some ind.
Proof.
  intros Hcat Hshare Hbar Hrows Efig.
  rewrite (create_chart_title _ _ _ Hbar Hrows Efig). simpl. f_equal.
  apply title_reads_back_spec.
  pose proof catalogue_titles_read_back as Hall.
  rewrite forallb_forall in Hall. apply Hall.
  apply filter_In. split; [exact Hcat|].
  apply negb_true_iff. destruct (existsb (String.eqb ind) INCOME_SHARES) eqn:E;
    [|reflexivity].
  apply existsb_eqb_In in E. contradiction.
Qed.

(** The heatmap of GDP growth for Germany and France is read back as GDP
    growth. *)
Lemma title_indicator_of_growth_heatmap :
  exists figure,
    create_chart deu_and_fra "GDP Growth (Annual %)" "heatmap" None
      = Normal figure /\
    option_map title_indicator (figure_title figure)
      = Some "GDP Growth (Annual %)".
Proof.
  pose (drawn := create_chart deu_and_fra "GDP Growth (Annual %)" "heatmap" None).
  pose (figure := match drawn with Normal f => f | Raised => Annotation "" end).
  assert (E : drawn = Normal figure) by (vm_compute; reflexivity).
  exists figure. split; [exact E|].
  apply (@title_indicator_of_catalogue deu_and_fra "GDP Growth (Annual %)"
           "heatmap" None figure).
  - apply existsb_eqb_In. vm_compute. reflexivity.
  - intros H. apply existsb_eqb_In in H. vm_compute in H. discriminate.
  - discriminate.
  - vm_compute. discriminate.
  - exact E.
Defined.


Lemma catalogue_bar_titles_misread :
  forallb bar_title_misread (keys ALL_INDICATORS) = true.
Proof. vm_compute. reflexivity. Qed.

Lemma income_shares_read_as_one :
  forallb (title_read_as "Income Share") INCOME_SHARES = true.
Proof. vm_compute. reflexivity. Qed.

Lemma reported_years_range (y : Z) :
  1960 <= y <= 2030 -> In y REPORTED_YEARS.
Proof.
  intros Hy. unfold REPORTED_YEARS. apply in_map_iff.
  exists (Z.to_nat y). split; [lia|]. apply in_seq. lia.
Qed.

(** X6. Two kinds of titles are not read back as their indicator. A chart
    of "Income Share - Bottom 10%" or of "Income Share - Top 10%" that
    [create_chart] returns under a chart type other than "bar" is read as
    "Income Share", which is no label of the catalogue. And the bar chart
    of a label of the catalogue whose rows lie in the years 1960 to 2030,
    which is always drawn, is never read as that label, its title carrying
    the latest year. *)
Theorem title_indicator_misread (df : list IndicatorRecord) (ind chart_type : string)
    (countries : option (list string)) :
  plotted_rows df ind countries <> [] ->
  (In ind INCOME_SHARES -> chart_type <> "bar" ->
   (forall figure,
      create_chart df ind chart_type countries = Normal figure ->
      option_map title_indicator (figure_title figure) = Some "Income Share") /\
   dict_get ALL_INDICATORS "Income Share" = None) /\
  (In ind (keys ALL_INDICATORS) ->
   Forall (fun r => 1960 <= year r <= 2030) (plotted_rows df ind countries) ->
   exists figure,
     create_chart df ind "bar" countries = Normal figure /\
     option_map title_indicator (figure_title figure) <> Some ind).
Proof.
  intros Hrows. split.
  - intros Hshare Hbar. split; [|vm_compute; reflexivity].
    intros figure Efig.
    rewrite (create_chart_title _ _ _ Hbar Hrows Efig). simpl. f_equal.
    pose proof income_shares_read_as_one as Hall.
    rewrite forallb_forall in Hall. specialize (Hall ind Hshare).
    unfold title_read_as in Hall. rewrite forallb_forall in Hall.
    destruct (chart_title_known chart_type ind) as (known & Hin & ->).
    apply String.eqb_eq. auto.
  - intros Hcat Hyears. rewrite create_chart_bar by exact Hrows.
    eexists. split; [reflexivity|].
    destruct (plotted_rows df ind countries) as [|r l] eqn:E; [contradiction|].
    unfold draw_chart. cbn [String.eqb Ascii.eqb Bool.eqb]. simpl.
    destruct (max_year_bound r l) as [_ Hin].
    apply in_map_iff in Hin. destruct Hin as (x & Ex & Hx).
    rewrite Forall_forall in Hyears. specialize (Hyears x Hx). rewrite Ex in Hyears.
    pose proof catalogue_bar_titles_misread as Hall.
    rewrite forallb_forall in Hall. specialize (Hall ind Hcat).
    unfold bar_title_misread in Hall. rewrite forallb_forall in Hall.
    specialize (Hall _ (reported_years_range Hyears)).
    apply negb_true_iff, String.eqb_neq in Hall.
    intros Heq. injection Heq as Heq. contradiction.
Qed.

(** The bar chart of GDP for the United States in 2020 is read as
    "GDP (Current US$) (2020)". *)
Lemma title_indicator_misread_bar :
  exists figure,
    create_chart two_indicators "GDP (Current US$)" "bar" None = Normal figure /\
    option_map title_indicator (figure_title figure) <> Some "GDP (Current US$)".
Proof.
  destruct (@title_indicator_misread two_indicators "GDP (Current US$)" "bar" None)
    as [_ Hbar].
  - vm_compute. discriminate.
  - apply Hbar.
    + apply existsb_eqb_In. vm_compute. reflexivity.
    + vm_compute. repeat constructor; discriminate.
Defined.


(** *** store_chart_images *)

Lemma filter_member_of_filter (p : string -> bool) (l : list string) :
  filter (fun x => existsb (String.eqb x) (filter p l)) l = filter p l.
Proof.
  apply filter_ext_in. intros x Hin.
  destruct (p x) eqn:E.
  - apply existsb_eqb_In. apply filter_In. auto.
  - destruct (existsb (String.eqb x) (filter p l)) eqn:Ex; [|reflexivity].
    apply existsb_eqb_In, filter_In in Ex. destruct Ex as [_ Ex]. congruence.
Qed.

Lemma images_by_position A (render : A -> option string)
    (labels types : list string) (figures : list A) (d1 d2 : string) :
  List.length labels = List.length figures ->
  List.length types = List.length figures ->
  map (fun i => (nth i labels d1, nth i types d2,
                 match nth_error figures i with
                 | Some fig => render fig
                 | None => None
                 end))
      (seq 0 (List.length figures)) =
  map (fun p => (fst (fst p), snd (fst p), render (snd p)))
      (combine (combine labels types) figures).
Proof.
  revert labels types. induction figures as [|f figures IH];
    intros [|a labels] [|t types]; simpl; try discriminate; auto.
  intros Hl Ht. f_equal. rewrite <- seq_shift, map_map. simpl.
  apply IH; congruence.
Qed.

Lemma titled_indicators_of (figures : list Figure) (active : list string) :
  Forall2 (fun fig ind => option_map title_indicator (figure_title fig) = Some ind)
          figures active ->
  titled_indicators figures = active.
Proof.
  induction 1 as [|fig ind figures active Hf _ IH]; simpl; [reflexivity|].
  destruct (figure_title fig); [|discriminate].
  simpl in *. injection Hf as ->. f_equal. exact IH.
Qed.

(** X7. When the figures on the page are those a redraw by
    [update_chart_types] returned for the indicators of the view state
    that have rows, one chart type each, and the title of each is read
    back as its indicator, [store_chart_images] stores one entry per
    chart, in order, with the chart's own indicator, its own chart type
    and the image of its figure, and each figure is the one [create_chart]
    returns for that indicator and chart type. *)
Theorem store_chart_images_labels (render : Figure -> option string)
    (df : list IndicatorRecord) (ui : ui_state) (chart_types : list string)
    (figures : list Figure) :
  let active_indicators := filter (has_rows df) (ui_indicators ui) in
  let countries := Some (ui_countries ui) in
  active_indicators <> [] ->
  List.length chart_types = List.length active_indicators ->
  update_chart_types chart_types (Stored df) (Stored ui) = Normal figures ->
  Forall2 (fun figure ind =>
             option_map title_indicator (figure_title figure) = Some ind)
          figures active_indicators ->
  store_chart_images render figures chart_types (Stored ui) =
    map (fun p => (fst (fst p), snd (fst p), render (snd p)))
        (combine (combine active_indicators chart_types) figures) /\
  Forall2 (fun p figure =>
             create_chart df (snd p) (fst p) countries = Normal figure)
          (combine chart_types active_indicators) figures.
Proof.
  intros active countries Hne Hlen Eredraw Hread.
  assert (Hdf : df <> []).
  { intros ->. apply Hne. subst active. unfold has_rows. simpl.
    induction (ui_indicators ui); simpl; auto. }
  rewrite (update_chart_types_pairs _ chart_types Hdf Hlen) in Eredraw.
  apply collect_Normal in Eredraw. fold active countries in Eredraw.
  split; [|exact Eredraw].
  assert (Hfl : List.length figures = List.length active).
  { apply (Forall2_length_eq Hread). }
  unfold store_chart_images.
  destruct figures as [|f0 figures0] eqn:Ef.
  { destruct active; [contradiction|discriminate]. }
  rewrite <- Ef in *. cbn [ui_indicators].
  rewrite (titled_indicators_of Hread).
  subst active. rewrite filter_member_of_filter.
  set (active := filter (has_rows df) (ui_indicators ui)) in *.
  rewrite Hfl, Nat.eqb_refl. cbn [negb]. rewrite <- Hfl.
  apply images_by_position; congruence.
Qed.

(** With a scatter chart of GDP and a heatmap of GDP growth on the page,
    the two stored entries carry those labels and chart types. *)
Lemma store_chart_images_two_charts :
  exists figures,
    update_chart_types ["scatter"; "heatmap"]
      (Stored two_indicators) (Stored two_indicators_ui) = Normal figures /\
    store_chart_images figure_title figures ["scatter"; "heatmap"]
      (Stored two_indicators_ui) =
    [("GDP (Current US$)", "scatter",
      Some "🎯 GDP (Current US$) - Scatter Analysis");
     ("GDP Growth (Annual %)", "heatmap",
      Some "🌡️ GDP Growth (Annual %) - Heatmap")].
Proof.
  pose (redraw := update_chart_types ["scatter"; "heatmap"]
                    (Stored two_indicators) (Stored two_indicators_ui)).
  pose (figures := match redraw with Normal l => l | Raised => [] end).
  assert (E : redraw = Normal figures) by (vm_compute; reflexivity).
  exists figures. split; [exact E|].
  destruct (@store_chart_images_labels figure_title two_indicators two_indicators_ui
              ["scatter"; "heatmap"] figures) as [Eimages _].
  - vm_compute. discriminate.
  - vm_compute. reflexivity.
  - exact E.
  - vm_compute. repeat constructor.
  - rewrite Eimages. vm_compute. reflexivity.
Defined.

Lemma nth_firstn A (l : list A) (n i : nat) (d : A) :
  (i < n)%nat -> nth i (firstn n l) d = nth i l d.
Proof.
  revert n i. induction l as [|x l IH]; intros [|n] [|i] Hi; simpl; auto; try lia.
  apply IH. lia.
Qed.

Lemma nth_default_or_In A (l : list A) (i : nat) (d : A) :
  nth i l d = d \/ In (nth i l d) l.
Proof.
  destruct (Nat.lt_ge_cases i (List.length l)) as [Hi|Hi].
  - right. apply nth_In. exact Hi.
  - left. apply nth_overflow. exact Hi.
Qed.

(** X8. [store_chart_images] keeps one entry per figure on the page, in
    the order of the figures: entry [i] holds the image of figure [i] and
    the chart type at position [i] of the dropdown values ("line" when
    there is none); its label is an indicator of the view state that some
    figure's title is read as, or "Unknown Indicator".  With no figure or
    no view state it stores nothing. *)
Theorem store_chart_images_entries (render : Figure -> option string)
    (figures : list Figure) (chart_types : list string) (ui : ui_state) :
  store_chart_images render [] chart_types (Stored ui) = [] /\
  store_chart_images render figures chart_types StoreNone = [] /\
  store_chart_images render figures chart_types EmptyDict = [] /\
  List.length (store_chart_images render figures chart_types (Stored ui)) =
    List.length figures /\
  forall (i : nat) (fig : Figure),
    nth_error figures i = Some fig ->
    exists label : string,
      nth_error (store_chart_images render figures chart_types (Stored ui)) i =
        Some (label, nth i chart_types "line", render fig) /\
      (label = "Unknown Indicator" \/
       In label (ui_indicators ui) /\ In label (titled_indicators figures)).
Proof.
  split; [reflexivity|]. split; [destruct figures; reflexivity|].
  split; [destruct figures; reflexivity|].
  destruct figures as [|f0 figures0]; [split; [reflexivity|]|].
  { intros [|i] fig E; discriminate. }
  unfold store_chart_images. cbv beta iota zeta.
  set (figures := f0 :: figures0).
  set (active := filter (fun ind => existsb (String.eqb ind) (titled_indicators figures))
                        (ui_indicators ui)).
  set (trimmed := negb (List.length figures =? List.length active)%nat).
  split; [rewrite length_map, length_seq; reflexivity|].
  intros i fig Hi.
  assert (Hlt : (i < List.length figures)%nat).
  { apply nth_error_Some. congruence. }
  eexists. split.
  - rewrite nth_error_map, nth_error_seq.
    destruct (Nat.ltb_spec i (List.length figures)) as [_|Hge]; [|lia].
    cbn [option_map Nat.add]. rewrite Hi. f_equal. f_equal. f_equal.
    destruct trimmed; [apply nth_firstn; exact Hlt|reflexivity].
  - assert (Hact : forall l, In l active ->
               In l (ui_indicators ui) /\ In l (titled_indicators figures)).
    { intros l Hl. apply filter_In in Hl. destruct Hl as [Hin Hex].
      split; [exact Hin|]. apply existsb_eqb_In. exact Hex. }
    destruct trimmed.
    + rewrite nth_firstn by exact Hlt.
      destruct (nth_default_or_In active i "Unknown Indicator") as [E|E]; auto.
    + destruct (nth_default_or_In active i "Unknown Indicator") as [E|E]; auto.
Qed.


(** *** parse_uploaded_csv and handle_file_upload *)

Lemma to_numeric_cell_not_text `{TextFormat} (c : cell) (s : string) :
  to_numeric_cell c <> CStr s.
Proof.
  destruct c as [|t| | |]; simpl; try discriminate.
  destruct (int_of_text t); [discriminate|].
  destruct (float_of_text t); discriminate.
Qed.

Lemma coerce_row_shape `{TextFormat} (r : list cell) :
  List.length r = 5%nat ->
  List.length (coerce_row r) = 5%nat /\
  (forall s, nth 3 (coerce_row r) NaN <> CStr s) /\
  (forall s, nth 4 (coerce_row r) NaN <> CStr s).
Proof.
  destruct r as [|c0 [|c1 [|c2 [|c3 [|c4 [|c5 r]]]]]]; try discriminate.
  intros _. unfold coerce_row. cbn [update_nth nth List.length].
  split; [reflexivity|]. split; intros s; apply to_numeric_cell_not_text.
Qed.

Lemma complete_no_nan (r : list cell) :
  complete r = true -> forall c, In c r -> c <> NaN.
Proof.
  unfold complete. intros Hc c Hin ->.
  apply negb_true_iff in Hc.
  assert (Hex : existsb is_nan r = true).
  { apply existsb_exists. exists NaN. auto. }
  congruence.
Qed.

(** What [parse_uploaded_csv] returns, by cases of the source. *)
Lemma parse_uploaded_csv_cases `{TextFormat} (contents : upload_contents)
    (filename : string) :
  (exists message, parse_uploaded_csv contents filename = (None, message) /\
                   message <> UploadedSuccessfully) \/
  (exists file df selected,
     contents = CsvText file /\ contains "csv" filename = true /\
     read_csv file = Normal df /\
     select_columns required_cols df = Some selected /\
     parse_uploaded_csv contents filename =
     (Some {| columns := required_cols;
              rows := filter complete (map coerce_row (rows selected)) |},
      UploadedSuccessfully)).
Proof.
  unfold parse_uploaded_csv.
  destruct contents as [| |file];
    try (left; eexists; split; [reflexivity|discriminate]).
  - destruct (contains "csv" filename);
      left; eexists; split; try reflexivity; discriminate.
  - destruct (contains "csv" filename) eqn:Hname;
      [|left; eexists; split; [reflexivity|discriminate]].
    destruct (read_csv file) as [df|] eqn:Eread;
      [|left; eexists; split; [reflexivity|discriminate]].
    destruct (forallb _ required_cols); cbn [negb];
      [|left; eexists; split; [reflexivity|discriminate]].
    destruct (select_columns required_cols df) as [selected|] eqn:Esel;
      [|left; eexists; split; [reflexivity|discriminate]].
    right. exists file, df, selected.
    split; [reflexivity|]. split; [reflexivity|]. split; [exact Eread|].
    split; [exact Esel|].
    unfold select_columns in Esel.
    destruct (indices_of required_cols (columns df)); [|discriminate].
    injection Esel as <-. cbv zeta. rewrite coerce_and_drop. reflexivity.
Qed.

(** X9. Whatever is uploaded under whatever name, a frame that
    [parse_uploaded_csv] returns has exactly the five required columns, in
    the order of [required_cols], and in every row five cells, none
    missing, with no text left in [year] and [value]; it comes with the
    success message and only for a name containing "csv". Without a frame
    the message is never the success message. *)
Theorem parse_uploaded_csv_frame `{TextFormat} (contents : upload_contents)
    (filename : string) :
  (fst (parse_uploaded_csv contents filename) = None ->
   snd (parse_uploaded_csv contents filename) <> UploadedSuccessfully) /\
  (forall df, fst (parse_uploaded_csv contents filename) = Some df ->
     snd (parse_uploaded_csv contents filename) = UploadedSuccessfully /\
     contains "csv" filename = true /\
     columns df = required_cols /\
     forall r, In r (rows df) ->
       List.length r = 5%nat /\
       (forall c, In c r -> c <> NaN) /\
       (forall s, nth 3 r NaN <> CStr s) /\
       (forall s, nth 4 r NaN <> CStr s)).
Proof.
  destruct (parse_uploaded_csv_cases contents filename)
    as [(message & -> & Hm)|(file & df0 & selected & _ & Hname & _ & Esel & ->)];
    cbn [fst snd].
  - split; [auto|]. intros df E. discriminate.
  - split; [discriminate|]. intros df E. injection E as <-. cbn [columns rows].
    repeat split; auto;
      apply filter_In in H0; destruct H0 as [Hin Hc];
      apply in_map_iff in Hin; destruct Hin as (r0 & <- & Hin0);
      assert (Hlen : List.length r0 = 5%nat)
        by (unfold select_columns in Esel;
            destruct (indices_of required_cols (columns df0)) as [idx|] eqn:Eidx;
              [|discriminate];
            injection Esel as <-; cbn [rows] in Hin0;
            apply in_map_iff in Hin0; destruct Hin0 as (r1 & <- & _);
            rewrite length_map; apply (indices_of_length _ _ Eidx)).
    + apply coerce_row_shape. exact Hlen.
    + apply complete_no_nan. exact Hc.
    + apply coerce_row_shape. exact Hlen.
    + apply coerce_row_shape. exact Hlen.
Qed.

(** The frame [mixed_upload] is read as has the five columns, in that
    order, and five cells in every row. *)
Lemma parse_uploaded_csv_frame_mixed_upload :
  fst (parse_uploaded_csv (CsvText mixed_upload) "upload.csv") <> None /\
  forall df, fst (parse_uploaded_csv (CsvText mixed_upload) "upload.csv") = Some df ->
    columns df = required_cols /\
    forall r, In r (rows df) -> List.length r = 5%nat.
Proof.
  split; [vm_compute; discriminate|].
  intros df E.
  destruct (@parse_uploaded_csv_frame pandas_text (CsvText mixed_upload) "upload.csv")
    as [_ Hframe].
  destruct (Hframe df E) as (_ & _ & Hcols & Hrows).
  split; [exact Hcols|]. intros r Hin. apply (Hrows r Hin).
Defined.

Lemma index_of_Some_In (name : string) (cols : list string) (i : nat) :
  index_of name cols = Some i -> In name cols.
Proof.
  revert i. induction cols as [|c cols IH]; simpl; intros i E; [discriminate|].
  destruct (String.eqb name c) eqn:En.
  - left. symmetry. apply String.eqb_eq. exact En.
  - right. destruct (index_of name cols) as [j|]; [|discriminate]. eauto.
Qed.

Lemma indices_of_Some_In (names cols : list string) (idx : list nat) :
  indices_of names cols = Some idx -> forall n, In n names -> In n cols.
Proof.
  revert idx. induction names as [|n names IH]; simpl; intros idx E m Hin;
    [contradiction|].
  destruct (index_of n cols) as [i|] eqn:Ei; [|discriminate].
  destruct (indices_of names cols) as [l|]; [|discriminate].
  destruct Hin as [<-|Hin]; [eapply index_of_Some_In; eauto|eauto].
Qed.

Lemma parse_uploaded_csv_selected `{TextFormat} (file : csv_file)
    (filename : string) (df selected : DataFrame) :
  contains "csv" filename = true ->
  read_csv file = Normal df ->
  select_columns required_cols df = Some selected ->
  parse_uploaded_csv (CsvText file) filename =
  (Some {| columns := required_cols;
           rows := filter complete (map coerce_row (rows selected)) |},
   UploadedSuccessfully).
Proof.
  intros Hname Eread Esel. unfold parse_uploaded_csv. rewrite Hname, Eread.
  assert (Hall : forall col, In col required_cols -> In col (columns df)).
  { unfold select_columns in Esel.
    destruct (indices_of required_cols (columns df)) as [idx|] eqn:Eidx;
      [|discriminate].
    apply (indices_of_Some_In _ _ Eidx). }
  rewrite (proj2 (forallb_required (columns df)) Hall). cbn [negb].
  rewrite Esel. unfold select_columns in Esel.
  destruct (indices_of required_cols (columns df)); [|discriminate].
  injection Esel as <-. cbv zeta. rewrite coerce_and_drop. reflexivity.
Qed.

Lemma filter_map_none A B (f : B -> bool) (g : A -> B) (l : list A) :
  forallb (fun x => negb (f (g x))) l = true -> filter f (map g l) = [].
Proof.
  induction l as [|x l IH]; simpl; [reflexivity|].
  intros E. apply andb_true_iff in E. destruct E as [Ex El].
  apply negb_true_iff in Ex. rewrite Ex. auto.
Qed.

(** X10. [handle_file_upload] enables the button that uses the imported
    rows exactly when it stores rows, and then the status is the success
    alert; in every other case the store is set to {}, and the status is
    empty only when nothing was uploaded. *)
Theorem handle_file_upload_button `{TextFormat} (contents : option upload_contents)
    (filename : string) :
  let '(data, status, disabled) := handle_file_upload contents filename in
  (disabled = false <-> exists table, data = Stored table) /\
  (disabled = true <-> data = EmptyDict) /\
  (disabled = false <-> status = StatusAlert UploadedSuccessfully "success") /\
  (status = NoStatus <-> contents = None).
Proof.
  unfold handle_file_upload. destruct contents as [c|].
  - destruct (parse_uploaded_csv_cases c filename)
      as [(message & -> & Hm)|(file & df0 & selected & _ & _ & _ & _ & ->)].
    + repeat split; try discriminate; try congruence.
      intros (table & E). discriminate.
    + repeat split; try discriminate; try congruence. eauto.
  - repeat split; try discriminate; try congruence.
    intros (table & E). discriminate.
Qed.

(** X11. An upload that is accepted (a name containing "csv", a table with
    the five columns) and of which every line misses a field after the
    coercion is stored as an empty list of rows, with the success alert
    and the button enabled. *)
Theorem handle_file_upload_all_dropped `{TextFormat} (file : csv_file)
    (filename : string) (df selected : DataFrame) :
  contains "csv" filename = true ->
  read_csv file = Normal df ->
  select_columns required_cols df = Some selected ->
  forallb (fun r => negb (complete (coerce_row r))) (rows selected) = true ->
  handle_file_upload (Some (CsvText file)) filename =
  (Stored [], StatusAlert UploadedSuccessfully "success", false).
Proof.
  intros Hname Eread Esel Hdrop. unfold handle_file_upload.
  rewrite (parse_uploaded_csv_selected _ _ Hname Eread Esel). cbn [rows].
  rewrite (filter_map_none complete coerce_row (rows selected) Hdrop). reflexivity.
Qed.

(** The upload without a year in any line. *)
Lemma handle_file_upload_without_years :
  handle_file_upload (Some (CsvText upload_without_years)) "upload.csv" =
  (Stored [], StatusAlert UploadedSuccessfully "success", false).
Proof.
  pose (df := match read_csv upload_without_years with
              | Normal df => df
              | Raised => {| columns := []; rows := [] |}
              end).
  pose (selected := match select_columns required_cols df with
                    | Some d => d
                    | None => df
                    end).
  apply (@handle_file_upload_all_dropped pandas_text upload_without_years
           "upload.csv" df selected); vm_compute; reflexivity.
Defined.


(** *** export_to_csv and handle_exports *)

(** X12. [export_to_csv] writes a file exactly when the directory and the
    file can be written and the frame has the five required columns; the
    file then has those five columns as its header, whatever other
    columns the frame has, and one line of five fields per row of the
    frame. *)
Theorem export_to_csv_file `{TextFormat} (disk_ok : bool) (df : DataFrame) :
  (export_to_csv disk_ok df <> None <->
   disk_ok = true /\ forall col, In col required_cols -> In col (columns df)) /\
  (forall file, export_to_csv disk_ok df = Some file ->
     header file = required_cols /\
     List.length (lines file) = List.length (rows df) /\
     forall line, In line (lines file) -> List.length line = 5%nat).
Proof.
  unfold export_to_csv, select_columns. split.
  - split.
    + intros Hsome. destruct disk_ok; [|contradiction]. split; [reflexivity|].
      destruct (indices_of required_cols (columns df)) as [idx|] eqn:Eidx;
        [|contradiction].
      apply (indices_of_Some_In _ _ Eidx).
    + intros [-> Hall].
      destruct (indices_of_all required_cols (columns df) Hall) as (idx & ->).
      discriminate.
  - intros file E. destruct disk_ok; [|discriminate].
    destruct (indices_of required_cols (columns df)) as [idx|] eqn:Eidx;
      [|discriminate].
    injection E as <-. unfold to_csv. cbn [header lines columns rows].
    split; [reflexivity|]. split; [rewrite !length_map; reflexivity|].
    intros line Hin. apply in_map_iff in Hin. destruct Hin as (r & <- & Hin).
    apply in_map_iff in Hin. destruct Hin as (r0 & <- & _).
    rewrite !length_map. apply (indices_of_length _ _ Eidx).
Qed.

(** The frame read from [mixed_upload], which has a sixth column, is
    written with five. *)
Lemma export_to_csv_file_mixed_upload :
  exists df file,
    read_csv mixed_upload = Normal df /\
    List.length (columns df) = 6%nat /\
    export_to_csv true df = Some file /\
    header file = required_cols /\
    List.length (lines file) = 4%nat.
Proof.
  pose (df := match read_csv mixed_upload with
              | Normal df => df
              | Raised => {| columns := []; rows := [] |}
              end).
  pose (file := match export_to_csv true df with
                | Some file => file
                | None => {| header := []; lines := [] |}
                end).
  assert (E : export_to_csv true df = Some file) by (vm_compute; reflexivity).
  exists df, file.
  split; [vm_compute; reflexivity|]. split; [vm_compute; reflexivity|].
  split; [exact E|].
  destruct (@export_to_csv_file pandas_text true df) as [_ Hfile].
  destruct (Hfile file E) as (Hh & Hl & _).
  split; [exact Hh|]. rewrite Hl. vm_compute. reflexivity.
Defined.

Lemma substring_skip (a b : string) (k n : nat) :
  substring (String.length a + k) n (a ++ b) = substring k n b.
Proof.
  induction a as [|c a IH]; simpl; [reflexivity|]. exact IH.
Qed.

Lemma contains_suffix (needle a : string) :
  needle <> EmptyString -> contains needle (a ++ needle) = true.
Proof.
  intros Hne. unfold contains.
  destruct (String.index 0 needle (a ++ needle)) eqn:E; [reflexivity|].
  exfalso.
  apply (@index_correct3 0 (String.length a) needle (a ++ needle) E Hne);
    [lia|].
  rewrite <- (Nat.add_0_r (String.length a)), substring_skip.
  clear. induction needle as [|c s IH]; simpl; [reflexivity|].
  f_equal. exact IH.
Qed.

Lemma contains_after (needle a b : string) :
  contains needle b = true -> contains needle (a ++ b) = true.
Proof.
  unfold contains. intros Hb.
  destruct (String.index 0 needle b) as [m|] eqn:Eb; [|discriminate].
  destruct (String.index 0 needle (a ++ b)) eqn:E; [reflexivity|]. exfalso.
  destruct needle as [|c s].
  - destruct a; simpl in E; [destruct b|]; discriminate.
  - apply (@index_correct3 0 (String.length a + m) (String c s) (a ++ b) E);
      [discriminate|lia|].
    rewrite substring_skip. apply (index_correct1 _ _ _ _ Eb).
Qed.

Lemma csv_export_name_contains_csv (timestamp : string) :
  contains "csv" (csv_export_name timestamp) = true.
Proof.
  unfold csv_export_name. apply contains_after.
  change (timestamp ++ ".csv") with (timestamp ++ ("." ++ "csv")).
  apply contains_after. apply contains_after. reflexivity.
Qed.

(** X13. [handle_exports] leaves a file on the disk in two cases only,
    both over stored rows. A click on the CSV button, when the disk can
    be written, writes [exports/csv/economic_data_<timestamp>.csv], with
    the five columns as header and one line per stored record, in order,
    and the status names that file; when the disk cannot be written the
    same click gives the failure alert and no file. A click on the PDF
    button writes [exports/pdf/economic_report_<timestamp>.pdf] when
    [export_to_pdf] returns a path, with the status naming that file, and
    gives the failure alert and no file when it returns none. In every
    other case nothing is written and the status is empty. *)
Theorem handle_exports_csv `{TextFormat} (triggered : option string)
    (csv_clicks pdf_clicks : option nat)
    (stored_data : store (list IndicatorRecord))
    (timestamp : string) (disk_ok : bool) (pdf_path : option string) :
  let result :=
    handle_exports triggered csv_clicks pdf_clicks stored_data timestamp
                   disk_ok pdf_path in
  let fired button :=
    match triggered with
    | Some trigger_id => String.eqb trigger_id button
    | None => false
    end in
  let csv_click :=
    negb (store_is_empty stored_data) && clicked csv_clicks
    && fired "export-csv-btn" in
  let pdf_click :=
    negb (store_is_empty stored_data) && clicked pdf_clicks
    && fired "export-pdf-btn" in
  (csv_click && disk_ok = true ->
   result =
   (ExportAlert ("✅ CSV exported successfully to: exports/csv/"
                 ++ csv_export_name timestamp) "success",
    Some (CsvFile ("exports/csv/" ++ csv_export_name timestamp)
            {| header := required_cols;
               lines := map line_of_record (stored_rows stored_data) |}))) /\
  (csv_click && negb disk_ok = true ->
   result = (ExportAlert "❌ CSV export failed" "danger", None)) /\
  (pdf_click = true -> pdf_path <> None ->
   result =
   (ExportAlert ("✅ PDF exported successfully to: exports/pdf/"
                 ++ pdf_export_name timestamp) "success",
    Some (PdfFile ("exports/pdf/" ++ pdf_export_name timestamp)))) /\
  (pdf_click = true -> pdf_path = None ->
   result =
   (ExportAlert "❌ PDF export failed. Check console for details." "danger",
    None)) /\
  (csv_click = false -> pdf_click = false -> result = (NoExportStatus, None)).
Proof.
  intros result fired csv_click pdf_click.
  subst result csv_click pdf_click fired. unfold handle_exports.
  destruct stored_data as [| |[|r0 ds0]];
    cbn [store_is_empty negb andb stored_rows];
    try (repeat split; intros; cbn [andb negb] in *; first [reflexivity|congruence]).
  destruct triggered as [trigger_id|].
  2: { rewrite !andb_false_r.
       repeat split; intros; cbn [andb negb] in *; first [reflexivity|congruence]. }
  destruct (String.eqb trigger_id "export-csv-btn") eqn:Ecsv.
  - apply String.eqb_eq in Ecsv. subst trigger_id.
    change (String.eqb "export-csv-btn" "export-pdf-btn") with false.
    rewrite !andb_false_r, !andb_true_r.
    destruct (clicked csv_clicks); cbn [andb].
    + destruct disk_ok; cbn [negb].
      * rewrite export_to_csv_of_records by discriminate.
        repeat split; intros; cbn [andb negb] in *; first [reflexivity|congruence].
      * repeat split; intros; cbn [andb negb] in *; first [reflexivity|congruence].
    + repeat split; intros; cbn [andb negb] in *; first [reflexivity|congruence].
  - rewrite !andb_false_r. cbn [andb].
    destruct (String.eqb trigger_id "export-pdf-btn"), (clicked pdf_clicks);
      cbn [andb]; try (repeat split; intros; cbn [andb negb] in *; first [reflexivity|congruence]).
    destruct pdf_path;
      repeat split; intros; cbn [andb negb] in *; first [reflexivity|congruence].
Qed.

(** X14. The file that a click on the CSV button writes for stored rows,
    uploaded again under the name it was written with, is accepted by
    [handle_file_upload] for every timestamp, and the rows stored for the
    import are the exported rows, in order, when the text of the rows is
    read back as written. *)
Theorem handle_exports_then_upload `{TextFormat} (ds : list IndicatorRecord)
    (clicks : nat) (pdf_clicks : option nat) (timestamp : string)
    (pdf_path : option string) :
  ds <> [] ->
  reads_back ds ->
  exists file,
    snd (handle_exports (Some "export-csv-btn") (Some (S clicks)) pdf_clicks
                        (Stored ds) timestamp true pdf_path) =
      Some (CsvFile ("exports/csv/" ++ csv_export_name timestamp) file) /\
    handle_file_upload (Some (CsvText file)) (csv_export_name timestamp) =
      (Stored (map cells_of_record ds),
       StatusAlert UploadedSuccessfully "success", false).
Proof.
  intros Hne Hback. eexists. split.
  - unfold handle_exports. destruct ds as [|r0 ds0]; [contradiction|].
    cbn [store_is_empty clicked stored_rows].
    change (String.eqb "export-csv-btn" "export-csv-btn" && true) with true.
    cbv iota. rewrite export_to_csv_of_records by discriminate. reflexivity.
  - unfold handle_file_upload.
    rewrite (@parse_uploaded_csv_selected _ _ (csv_export_name timestamp)
               (DataFrame_of_records ds) (DataFrame_of_records ds)
               (csv_export_name_contains_csv timestamp)
               (read_csv_of_records Hne Hback)
               (select_required_of_records Hne)).
    destruct ds as [|r0 ds0]; [contradiction|].
    unfold DataFrame_of_records. cbn [rows].
    rewrite coerce_complete_records. reflexivity.
Qed.

(** The rows for France and Germany, exported and uploaded again. *)
Lemma handle_exports_then_upload_deu_fra :
  exists file,
    snd (handle_exports (Some "export-csv-btn") (Some 1%nat) None
                        (Stored deu_fra_growth) "20240101_120000" true None) =
      Some (CsvFile ("exports/csv/" ++ csv_export_name "20240101_120000") file) /\
    handle_file_upload (Some (CsvText file)) (csv_export_name "20240101_120000") =
      (Stored (map cells_of_record deu_fra_growth),
       StatusAlert UploadedSuccessfully "success", false).
Proof.
  apply (@handle_exports_then_upload pandas_text deu_fra_growth 0 None
           "20240101_120000" None).
  - discriminate.
  - unfold reads_back.
    split; [vm_compute; reflexivity|].
    split; [vm_compute; reflexivity|].
    split; [vm_compute; reflexivity|].
    split; repeat (constructor; [vm_compute; auto|]); constructor.
Defined.


(** *** fetch_all_countries, load_countries and update_country_selection *)

(** A call without a filled cache, by the answer of the directory. *)
Lemma fetch_all_countries_refetch W `{World W} (s : module_state W) :
  _countries_cache s = None \/ _cache_timestamp s = None ->
  fetch_all_countries s =
  match collected (fst (get_countries (process_world s))) with
  | Raised =>
      (Normal FALLBACK_COUNTRIES,
       {| process_world := snd (get_countries (process_world s));
          _countries_cache := _countries_cache s;
          _cache_timestamp := _cache_timestamp s |})
  | Normal countries =>
      (Normal (sorted_items countries),
       {| process_world :=
            snd (datetime_now (snd (get_countries (process_world s))));
          _countries_cache := Some (sorted_items countries);
          _cache_timestamp :=
            Some (fst (datetime_now (snd (get_countries (process_world s))))) |})
  end.
Proof.
  intros Hnone.
  unfold fetch_all_countries, bind, get, ret, try_except,
    requests_get_countries, raise, now, set_cache, modify, collected.
  assert (E : match _countries_cache s, _cache_timestamp s with
              | Some _, Some _ => False
              | _, _ => True
              end).
  { destruct Hnone as [-> | ->]; [exact I|]. destruct (_countries_cache s); exact I. }
  destruct (_countries_cache s) as [cache|] eqn:Ec;
    destruct (_cache_timestamp s) as [ts|] eqn:Et; try contradiction;
    destruct (get_countries (process_world s)) as [r w]; cbn [fst snd];
    destruct r as [| |entries];
    cbn [process_world _countries_cache _cache_timestamp collect_countries];
    repeat match goal with
           | |- context [collect_countries ?l ?d] =>
               destruct (collect_countries l d);
               cbn [process_world _countries_cache _cache_timestamp]
           | |- context [datetime_now ?w0] =>
               destruct (datetime_now w0);
               cbn [fst snd process_world _countries_cache _cache_timestamp]
           end;
    rewrite ?Ec, ?Et; reflexivity.
Qed.

Lemma collect_countries_raised (entries : list country_entry) (start : dict string) :
  collect_countries entries start = Raised <-> In BadCountry entries.
Proof.
  revert start. induction entries as [|e es IH]; intros start; simpl.
  - split; [discriminate|contradiction].
  - destruct e as [n i cap lon lat|].
    + rewrite IH. split; [auto|]. intros [E|E]; [discriminate|exact E].
    + split; auto.
Qed.

Lemma keys_dict_set_In V (d : dict V) (k k' : string) (v : V) :
  In k' (keys (dict_set d k v)) <-> k' = k \/ In k' (keys d).
Proof.
  unfold keys. induction d as [|[k0 v0] d IH]; simpl.
  - split; [intros [E|[]]; auto|intros [E|[]]; auto].
  - destruct (String.eqb k k0) eqn:E; simpl.
    + apply String.eqb_eq in E. subst k0. split; [auto|].
      intros [E|[E|E]]; auto.
    + rewrite IH. split; [intros [E1|[E1|E1]]; auto|intros [E1|[E1|E1]]; auto].
Qed.

Lemma keys_dict_set_NoDup V (d : dict V) (k : string) (v : V) :
  NoDup (keys d) -> NoDup (keys (dict_set d k v)).
Proof.
  unfold keys. induction d as [|[k0 v0] d IH]; simpl; intros Hnd.
  - constructor; [auto|constructor].
  - inversion Hnd as [|x l Hnot Hnd']; subst.
    destruct (String.eqb k k0) eqn:E; simpl.
    + constructor; assumption.
    + constructor; [|auto].
      intros Hin. apply (keys_dict_set_In d k k0 v) in Hin.
      destruct Hin as [E0|Hin]; [|contradiction].
      subst k0. rewrite String.eqb_refl in E. discriminate.
Qed.

Lemma collect_countries_NoDup (entries : list country_entry)
    (start countries : dict string) :
  NoDup (keys start) ->
  collect_countries entries start = Normal countries ->
  NoDup (keys countries).
Proof.
  revert start. induction entries as [|e es IH]; intros start Hnd; simpl.
  - intros E. injection E as <-. exact Hnd.
  - destruct e as [n i cap lon lat|]; [|discriminate].
    apply IH. destruct (truthy cap && truthy lon && truthy lat); [|exact Hnd].
    apply keys_dict_set_NoDup. exact Hnd.
Qed.

Lemma In_dict_get V (d : dict V) (k : string) (v : V) :
  NoDup (keys d) -> In (k, v) d -> dict_get d k = Some v.
Proof.
  unfold keys. induction d as [|[k0 v0] d IH]; simpl; intros Hnd Hin; [contradiction|].
  change (dict_get ((k0, v0) :: d) k)
    with (if String.eqb k k0 then Some v0 else dict_get d k).
  inversion Hnd as [|x l Hnot Hnd']; subst.
  destruct Hin as [E|Hin].
  - injection E as -> ->. rewrite String.eqb_refl. reflexivity.
  - destruct (String.eqb k k0) eqn:E; [|auto].
    apply String.eqb_eq in E. subst k0. exfalso. apply Hnot.
    apply in_map_iff. exists (k, v). auto.
Qed.

Lemma collected_items (data : directory_response) (countries : dict string) :
  collected data = Normal countries ->
  NoDup (keys (sorted_items countries)) /\
  forall name id, In (name, id) (sorted_items countries) ->
    exists capitalCity longitude latitude,
      In (Country name id capitalCity longitude latitude) (directory_entries data) /\
      populated (Country name id capitalCity longitude latitude) = true.
Proof.
  intros E.
  assert (Hnd : NoDup (keys countries)).
  { destruct data as [| |entries]; simpl in E; try discriminate.
    - injection E as <-. constructor.
    - apply (@collect_countries_NoDup entries [] countries); [constructor|exact E]. }
  split.
  - unfold keys. eapply Permutation_NoDup; [|exact Hnd].
    apply Permutation_map, sorted_items_perm.
  - intros name id Hin.
    assert (Hin' : In (name, id) countries).
    { eapply Permutation_in; [|exact Hin].
      apply Permutation_sym, sorted_items_perm. }
    apply (In_dict_get _ _ _ Hnd) in Hin'.
    destruct data as [| |entries]; simpl in E; try discriminate.
    + injection E as <-. discriminate.
    + destruct (collect_countries_populated entries [] name E Hin')
        as [Hstart|(cap & lon & lat & Hentry & Hc & Hlo & Hla)]; [discriminate|].
      exists cap, lon, lat. split; [exact Hentry|].
      simpl. rewrite Hc, Hlo, Hla. reflexivity.
Qed.

(** X15. [fetch_all_countries] never raises. With the cache and its
    timestamp set it returns the cache, reads the clock and nothing else,
    and leaves both as they are, whatever the clock shows. Otherwise it
    requests the directory once: if the request fails or an entry lacks a
    key it returns the fallback list of twelve countries and leaves the
    cache and the timestamp as they were; if not, it returns a mapping
    sorted by name with distinct names, each item the name and id of an
    entry of the directory that has a capital city and both coordinates,
    and stores it with the time read after the request. *)
Theorem fetch_all_countries_outcome W `{World W} (s : module_state W) :
  exists countries,
    fst (fetch_all_countries s) = Normal countries /\
    let s' := snd (fetch_all_countries s) in
    let data := fst (get_countries (process_world s)) in
    let w := snd (get_countries (process_world s)) in
    match _countries_cache s, _cache_timestamp s with
    | Some cache, Some timestamp =>
        countries = cache /\
        s' = {| process_world := snd (datetime_now (process_world s));
                _countries_cache := Some cache;
                _cache_timestamp := Some timestamp |}
    | _, _ =>
        if match data with
           | DirectoryFailed => true
           | DirectoryNoData => false
           | DirectoryData entries =>
               existsb (fun e => match e with BadCountry => true | _ => false end)
                       entries
           end
        then
          countries = FALLBACK_COUNTRIES /\
          s' = {| process_world := w;
                  _countries_cache := _countries_cache s;
                  _cache_timestamp := _cache_timestamp s |}
        else
          s' = {| process_world := snd (datetime_now w);
                  _countries_cache := Some countries;
                  _cache_timestamp := Some (fst (datetime_now w)) |} /\
          StronglySorted (fun a b => String.leb (fst a) (fst b) = true) countries /\
          NoDup (keys countries) /\
          forall name id, In (name, id) countries ->
            exists capitalCity longitude latitude,
              In (Country name id capitalCity longitude latitude)
                 (directory_entries data) /\
              populated (Country name id capitalCity longitude latitude) = true
    end.
Proof.
  assert (Hbad : forall entries,
            existsb (fun e => match e with BadCountry => true | _ => false end)
                    entries = true <-> In BadCountry entries).
  { intros entries. rewrite existsb_exists. split.
    - intros (e & Hin & E). destruct e; [discriminate|exact Hin].
    - intros Hin. exists BadCountry. auto. }
  assert (Hre : _countries_cache s = None \/ _cache_timestamp s = None ->
    exists countries,
      fst (fetch_all_countries s) = Normal countries /\
      let s' := snd (fetch_all_countries s) in
      let data := fst (get_countries (process_world s)) in
      let w := snd (get_countries (process_world s)) in
      if match data with
         | DirectoryFailed => true
         | DirectoryNoData => false
         | DirectoryData entries =>
             existsb (fun e => match e with BadCountry => true | _ => false end)
                     entries
         end
      then
        countries = FALLBACK_COUNTRIES /\
        s' = {| process_world := w;
                _countries_cache := _countries_cache s;
                _cache_timestamp := _cache_timestamp s |}
      else
        s' = {| process_world := snd (datetime_now w);
                _countries_cache := Some countries;
                _cache_timestamp := Some (fst (datetime_now w)) |} /\
        StronglySorted (fun a b => String.leb (fst a) (fst b) = true) countries /\
        NoDup (keys countries) /\
        forall name id, In (name, id) countries ->
          exists capitalCity longitude latitude,
            In (Country name id capitalCity longitude latitude)
               (directory_entries data) /\
            populated (Country name id capitalCity longitude latitude) = true).
  { intros Hnone. rewrite (fetch_all_countries_refetch s Hnone).
    cbv zeta.
    destruct (collected (fst (get_countries (process_world s)))) as [countries|] eqn:Ecol.
    - exists (sorted_items countries). cbn [fst snd]. split; [reflexivity|].
      destruct (collected_items _ Ecol) as [Hnd Hitems].
      destruct (fst (get_countries (process_world s))) as [| |entries];
        [discriminate| |].
      + split; [reflexivity|]. split; [apply sorted_items_sorted|]. auto.
      + destruct (existsb _ entries) eqn:Ex.
        * apply Hbad, (collect_countries_raised entries []) in Ex.
          simpl in Ecol. congruence.
        * split; [reflexivity|]. split; [apply sorted_items_sorted|]. auto.
    - exists FALLBACK_COUNTRIES. cbn [fst snd]. split; [reflexivity|].
      destruct (fst (get_countries (process_world s))) as [| |entries];
        [auto|discriminate|].
      simpl in Ecol. apply collect_countries_raised, Hbad in Ecol.
      rewrite Ecol. auto. }
  destruct (_countries_cache s) as [cache|] eqn:Ec;
    [destruct (_cache_timestamp s) as [timestamp|] eqn:Et|]; auto.
  exists cache. rewrite (fetch_all_countries_cached s Ec Et). auto.
Qed.


Lemma fetch_all_countries_returns W `{World W} (s : module_state W) :
  exists countries, fst (fetch_all_countries s) = Normal countries.
Proof.
  destruct (_countries_cache s) as [cache|] eqn:Ec;
    [destruct (_cache_timestamp s) as [timestamp|] eqn:Et|].
  - rewrite (fetch_all_countries_cached s Ec Et). eexists. reflexivity.
  - rewrite (fetch_all_countries_refetch s (or_intror Et)).
    destruct (collected _); eexists; reflexivity.
  - rewrite (fetch_all_countries_refetch s (or_introl Ec)).
    destruct (collected _); eexists; reflexivity.
Qed.

Lemma load_countries_run W `{World W} (s : module_state W) :
  load_countries s =
  match fetch_all_countries s with
  | (Normal countries, s') =>
      (Normal (map (fun kv => {| option_label := "🌍 " ++ fst kv;
                                 option_value := snd kv |}) countries,
               "Select countries to analyze...", countries), s')
  | (Raised, s') => (Raised, s')
  end.
Proof.
  unfold load_countries, bind, ret.
  destruct (fetch_all_countries s) as [[countries|] s']; reflexivity.
Qed.

Lemma known_codes_spec (group : list string) (countries : dict string) (code : string) :
  In code (known_codes group countries) <->
  In code group /\ In code (dict_values countries).
Proof.
  unfold known_codes. rewrite filter_In, existsb_eqb_In. reflexivity.
Qed.

Lemma update_country_selection_cases (triggered : option string)
    (g7_clicks brics_clicks eu_clicks clear_clicks : option nat)
    (countries : store (dict string)) :
  let selection :=
    update_country_selection triggered g7_clicks brics_clicks eu_clicks
                             clear_clicks countries in
  selection = [] \/
  exists group,
    In (triggered, group)
       [(Some "select-g7", g7_countries); (Some "select-brics", brics_countries);
        (Some "select-eu", eu_countries)] /\
    selection = known_codes group (stored_rows countries).
Proof.
  unfold update_country_selection.
  destruct countries as [| |[|c cs]]; auto.
  destruct triggered as [button_id|]; auto.
  cbn [stored_rows].
  destruct (String.eqb button_id "select-g7") eqn:E1.
  { apply String.eqb_eq in E1. subst. right. exists g7_countries. simpl. auto. }
  destruct (String.eqb button_id "select-brics") eqn:E2.
  { apply String.eqb_eq in E2. subst. right. exists brics_countries. simpl. auto. }
  destruct (String.eqb button_id "select-eu") eqn:E3.
  { apply String.eqb_eq in E3. subst. right. exists eu_countries. simpl. auto. }
  destruct (String.eqb button_id "clear-countries"); auto.
Qed.

(** X16. [load_countries] never raises: it gives one dropdown option per
    item of the mapping [fetch_all_countries] returns, in its order, with
    the code as value and the name after a globe as label, and stores the
    mapping. Whatever button fired, the codes [update_country_selection]
    selects from that store are values of these options, without
    repeats, and those of one of the three groups of the buttons. *)
Theorem update_country_selection_of_options W `{World W} (s : module_state W)
    (triggered : option string)
    (g7_clicks brics_clicks eu_clicks clear_clicks : option nat) :
  exists options countries,
    fst (load_countries s) =
      Normal (options, "Select countries to analyze...", countries) /\
    snd (load_countries s) = snd (fetch_all_countries s) /\
    fst (fetch_all_countries s) = Normal countries /\
    map option_value options = dict_values countries /\
    map option_label options = map (fun name => "🌍 " ++ name) (keys countries) /\
    let selection :=
      update_country_selection triggered g7_clicks brics_clicks eu_clicks
                               clear_clicks (Stored countries) in
    NoDup selection /\
    (forall code, In code selection ->
       exists o, In o options /\ option_value o = code) /\
    (incl selection g7_countries \/ incl selection brics_countries \/
     incl selection eu_countries).
Proof.
  destruct (fetch_all_countries_returns s) as (countries & Efetch).
  rewrite load_countries_run.
  destruct (fetch_all_countries s) as [[c|] s'] eqn:E; cbn [fst snd] in *;
    [|discriminate].
  injection Efetch as ->.
  eexists. exists countries. split; [reflexivity|]. split; [reflexivity|].
  split; [reflexivity|].
  split; [rewrite map_map; reflexivity|].
  split; [unfold keys; rewrite !map_map; reflexivity|].
  cbv zeta.
  destruct (update_country_selection_cases triggered g7_clicks brics_clicks
              eu_clicks clear_clicks (Stored countries)) as [->|(group & Hg & ->)].
  - split; [constructor|]. split; [intros code []|]. left. intros code [].
  - cbn [stored_rows]. split; [|split].
    + unfold known_codes. apply NoDup_filter.
      simpl in Hg. destruct Hg as [Hg|[Hg|[Hg|[]]]]; injection Hg as _ <-;
        repeat (constructor; [simpl; intuition discriminate|]); constructor.
    + intros code Hin. apply known_codes_spec in Hin. destruct Hin as [_ Hin].
      unfold dict_values in Hin. apply in_map_iff in Hin.
      destruct Hin as (kv & <- & Hin).
      eexists. split; [apply in_map; exact Hin|]. reflexivity.
    + assert (Hincl : incl (known_codes group countries) group).
      { intros code Hin. apply known_codes_spec in Hin. tauto. }
      simpl in Hg. destruct Hg as [Hg|[Hg|[Hg|[]]]]; injection Hg as _ <-; auto.
Qed.

(** X17. When the directory cannot be fetched and there is no cache, the
    country dropdown is filled from the fallback list; from it the G7
    button selects all seven G7 codes, the BRICS button the four of its
    five codes that the list has (South Africa is not in it) and the EU
    button three of its seven. *)
Theorem update_country_selection_offline W `{World W} (s : module_state W)
    (g7_clicks brics_clicks eu_clicks clear_clicks : option nat) :
  _countries_cache s = None ->
  fst (get_countries (process_world s)) = DirectoryFailed ->
  exists options,
    fst (load_countries s) =
      Normal (options, "Select countries to analyze...", FALLBACK_COUNTRIES) /\
    map option_value options =
      ["USA"; "CHN"; "JPN"; "DEU"; "IND"; "GBR"; "FRA"; "ITA"; "BRA"; "CAN";
       "RUS"; "KOR"] /\
    let select button :=
      update_country_selection (Some button) g7_clicks brics_clicks eu_clicks
                               clear_clicks (Stored FALLBACK_COUNTRIES) in
    select "select-g7" = g7_countries /\
    select "select-brics" = ["BRA"; "RUS"; "IND"; "CHN"] /\
    select "select-eu" = ["DEU"; "FRA"; "ITA"] /\
    select "clear-countries" = [].
Proof.
  intros Ec Ed. rewrite load_countries_run.
  rewrite (fetch_all_countries_fallback s Ec Ed).
  eexists. split; [reflexivity|]. split; [reflexivity|].
  cbv zeta. repeat split; vm_compute; reflexivity.
Qed.

(** The process started without a network. *)
Lemma update_country_selection_offline_world :
  exists options,
    fst (load_countries {| process_world := offline_world;
                           _countries_cache := None;
                           _cache_timestamp := None |}) =
      Normal (options, "Select countries to analyze...", FALLBACK_COUNTRIES) /\
    update_country_selection (Some "select-brics") (Some 1%nat) None None None
                             (Stored FALLBACK_COUNTRIES) =
      ["BRA"; "RUS"; "IND"; "CHN"].
Proof.
  destruct (@update_country_selection_offline scripted_world scripted_World
              {| process_world := offline_world;
                 _countries_cache := None;
                 _cache_timestamp := None |}
              (Some 1%nat) None None None)
    as (options & Eload & _ & _ & Ebrics & _).
  - reflexivity.
  - reflexivity.
  - exists options. split; [exact Eload|exact Ebrics].
Defined.


(** *** The requests of fetch_country_data *)

Lemma serve_pairs_logging W `{World W} (sy ey : Z) (pairs : list (string * string))
    (w : W) (log : list request) :
  @serve_pairs (W * list request) (@logging_World W _) sy ey pairs (w, log) =
  (fst (serve_pairs sy ey pairs w),
   (snd (serve_pairs sy ey pairs w), (log ++ pair_requests sy ey pairs)%list)).
Proof.
  revert w log. induction pairs as [|[cc ind] ps IH]; intros w log.
  - simpl. rewrite app_nil_r. reflexivity.
  - unfold pair_requests. cbn [serve_pairs flat_map fst snd].
    fold (pair_requests sy ey ps).
    destruct (dict_get ALL_INDICATORS ind) as [code|].
    + cbn [get_indicator logging_World fst snd].
      destruct (get_indicator cc code sy ey w) as [r w'].
      rewrite IH. destruct (serve_pairs sy ey ps w') as [tr w''].
      cbn [fst snd]. rewrite <- app_assoc. reflexivity.
    + rewrite IH. reflexivity.
Qed.

Lemma pair_requests_app (sy ey : Z) (l1 l2 : list (string * string)) :
  pair_requests sy ey (l1 ++ l2) =
  (pair_requests sy ey l1 ++ pair_requests sy ey l2)%list.
Proof. unfold pair_requests. apply flat_map_app. Qed.

Lemma pair_requests_prod (sy ey : Z) (codes inds : list string) :
  pair_requests sy ey (list_prod codes inds) = expected_requests codes inds sy ey.
Proof.
  induction codes as [|c cs IH]; [reflexivity|].
  cbn [list_prod]. rewrite pair_requests_app, IH.
  unfold expected_requests. cbn [flat_map]. f_equal.
  unfold pair_requests. clear. induction inds as [|i inds IH]; [reflexivity|].
  cbn [map flat_map fst snd]. rewrite IH. reflexivity.
Qed.

Lemma expected_requests_all (codes : list string) (sy ey : Z) :
  List.length (expected_requests codes (keys ALL_INDICATORS) sy ey) =
  (List.length codes * List.length ALL_INDICATORS)%nat.
Proof.
  assert (Hall : forallb (fun k => is_some (dict_get ALL_INDICATORS k))
                         (keys ALL_INDICATORS) = true)
    by (vm_compute; reflexivity).
  assert (Hc : forall (c : string) l,
            forallb (fun k => is_some (dict_get ALL_INDICATORS k)) l = true ->
            List.length
              (flat_map (fun indicator_name =>
                           match dict_get ALL_INDICATORS indicator_name with
                           | Some indicator_code => [(c, indicator_code, sy, ey)]
                           | None => []
                           end) l) = List.length l).
  { intros c l. induction l as [|k l IH]; [reflexivity|].
    cbn [forallb flat_map]. intros E. apply andb_true_iff in E.
    destruct E as [Ek El]. destruct (dict_get ALL_INDICATORS k); [|discriminate].
    cbn [app List.length]. f_equal. auto. }
  induction codes as [|c cs IH]; [reflexivity|].
  change (expected_requests (c :: cs) (keys ALL_INDICATORS) sy ey)
    with (flat_map (fun indicator_name =>
                      match dict_get ALL_INDICATORS indicator_name with
                      | Some indicator_code => [(c, indicator_code, sy, ey)]
                      | None => []
                      end) (keys ALL_INDICATORS)
          ++ expected_requests cs (keys ALL_INDICATORS) sy ey)%list.
  unfold request in *. rewrite length_app, IH, (Hc c _ Hall).
  unfold keys. rewrite length_map. reflexivity.
Qed.

(** X18. In any world that keeps a log of the indicator requests it
    receives, a call of [fetch_country_data] adds to the log exactly one
    request per pair of a country code and an indicator label of the
    catalogue, code by code and label by label in the order given, each
    with the indicator's code and the year range of the call: a label
    that is not in the catalogue sends nothing, a pair that fails is not
    requested again and does not stop the later requests. The log changes
    nothing else: outcome, rows and printed errors are those of the run
    without it. With no indicator list, that is one request per country
    for each of the 129 indicators of the catalogue. *)
Theorem fetch_country_data_requests W `{World W}
    (country_codes : string + list string) (start_year end_year : Z)
    (indicators : option (list string)) (w : W) (log : list request) :
  let run :=
    call_fetch_country_data country_codes start_year end_year indicators w in
  let logged :=
    @call_fetch_country_data (W * list request) (@logging_World W _)
      country_codes start_year end_year indicators (w, log) in
  fst logged = fst run /\
  all_data (snd logged) = all_data (snd run) /\
  printed (snd logged) = printed (snd run) /\
  world (snd logged) =
    (world (snd run),
     (log ++ expected_requests (code_list country_codes) (indicator_list indicators)
                               start_year end_year)%list) /\
  List.length (expected_requests (code_list country_codes) (indicator_list None)
                                 start_year end_year) =
    (List.length (code_list country_codes) * 129)%nat.
Proof.
  cbv zeta. rewrite !fetch_country_data_run. cbn [fst snd world all_data printed].
  rewrite serve_pairs_logging. cbn [fst snd].
  repeat split.
  - unfold requested_pairs. rewrite pair_requests_prod. reflexivity.
  - apply expected_requests_all.
Qed.


Lemma serve_pairs_requested W `{World W} (sy ey : Z)
    (pairs : list (string * string)) (w : W) :
  Forall (fun t => In (served_country t, served_indicator t) pairs /\
                   dict_get ALL_INDICATORS (served_indicator t) <> None)
         (fst (serve_pairs sy ey pairs w)).
Proof.
  revert w. induction pairs as [|[cc ind] ps IH]; intros w.
  - constructor.
  - cbn [serve_pairs]. destruct (dict_get ALL_INDICATORS ind) as [code|] eqn:E.
    + destruct (get_indicator cc code sy ey w) as [r w'].
      specialize (IH w'). destruct (serve_pairs sy ey ps w') as [tr w''].
      cbn [fst] in *. constructor.
      * cbn [served_country served_indicator]. split; [left; reflexivity|congruence].
      * eapply Forall_impl; [|exact IH]. intros t [Hin Hc]. split; [right|]; auto.
    + eapply Forall_impl; [|apply IH]. intros t [Hin Hc]. split; [right|]; auto.
Qed.

(** X19. Whatever the world answers, every row appended by
    [fetch_country_data], and so every row of a dataset it returns,
    carries a country code of the call and an indicator label of the call
    that is in the catalogue, and every error it prints is for such a
    pair: no row and no error for a label that was not requested or that
    the catalogue does not have. *)
Theorem fetch_country_data_labels W `{World W}
    (country_codes : string + list string) (start_year end_year : Z)
    (indicators : option (list string)) (w : W) :
  let requested (code label : string) :=
    In code (code_list country_codes) /\
    In label (indicator_list indicators) /\
    dict_get ALL_INDICATORS label <> None in
  let run :=
    call_fetch_country_data country_codes start_year end_year indicators w in
  Forall (fun a => requested (row_country_code a) (row_indicator a))
         (all_data (snd run)) /\
  (forall df, fst run = Normal df ->
     Forall (fun r => requested (country_code r) (indicator r)) df) /\
  Forall (fun line => requested (snd line) (fst line)) (printed (snd run)).
Proof.
  cbv zeta. rewrite fetch_country_data_run. cbn [fst snd printed all_data].
  pose proof (serve_pairs_requested start_year end_year
                (requested_pairs country_codes indicators) w) as Hreq.
  set (tr := fst (serve_pairs start_year end_year
                    (requested_pairs country_codes indicators) w)) in *.
  assert (Hpair : forall t,
            In (served_country t, served_indicator t)
               (requested_pairs country_codes indicators) ->
            In (served_country t) (code_list country_codes) /\
            In (served_indicator t) (indicator_list indicators)).
  { intros t Hin. unfold requested_pairs in Hin. apply in_prod_iff in Hin. exact Hin. }
  assert (Hrows : Forall (fun a => In (row_country_code a) (code_list country_codes) /\
                                   In (row_indicator a) (indicator_list indicators) /\
                                   dict_get ALL_INDICATORS (row_indicator a) <> None)
                         (flat_map served_rows tr)).
  { induction Hreq as [|t l [Hin Hc] _ IH]; [constructor|].
    cbn [flat_map]. apply Forall_app. split; [|exact IH].
    unfold served_rows. destruct (served_response t); try constructor.
    eapply Forall_impl; [|apply rows_before_raise_labels].
    intros r [-> ->]. destruct (Hpair t Hin). auto. }
  split; [exact Hrows|]. split.
  - intros df Edf. apply sort_values_Normal in Edf. destruct Edf as [_ ->].
    eapply Permutation_Forall; [apply sort_rows_perm|].
    apply (typed_rows_labels
             (fun code label => In code (code_list country_codes) /\
                                In label (indicator_list indicators) /\
                                dict_get ALL_INDICATORS label <> None)).
    exact Hrows.
  - unfold failed_pairs. apply Forall_map.
    apply Forall_forall. intros t Hin. apply filter_In in Hin.
    destruct Hin as [Hin _]. rewrite Forall_forall in Hreq.
    destruct (Hreq t Hin) as [Hp Hc]. destruct (Hpair t Hp). cbn [fst snd]. auto.
Qed.


(** *** fetch_and_display_data *)

Lemma unique_In (l : list string) (x : string) : In x (unique l) <-> In x l.
Proof.
  induction l as [|y l IH]; simpl; [reflexivity|].
  rewrite filter_In, IH, negb_true_iff, String.eqb_neq.
  split.
  - intros [E|[Hin _]]; auto.
  - intros [E|Hin]; [auto|].
    destruct (String.eqb_spec x y) as [E|E]; [left; auto|right; auto].
Qed.

Lemma unique_NoDup (l : list string) : NoDup (unique l).
Proof.
  induction l as [|y l IH]; simpl; constructor.
  - intros Hin. apply filter_In in Hin. destruct Hin as [_ Hin].
    rewrite String.eqb_refl in Hin. discriminate.
  - apply NoDup_filter. exact IH.
Qed.

Lemma has_rows_In (df : list IndicatorRecord) (ind : string) :
  has_rows df ind = true <-> In ind (map indicator df).
Proof. unfold has_rows. apply existsb_eqb_In. Qed.

Lemma has_rows_plotted (df : list IndicatorRecord) (ind : string) :
  has_rows df ind = true -> rows_of_indicator df ind <> [].
Proof.
  intros Hr E. apply has_rows_In, in_map_iff in Hr. destruct Hr as (r & Er & Hin).
  assert (Hr : In r (rows_of_indicator df ind)).
  { apply filter_In. split; [exact Hin|]. apply String.eqb_eq. exact Er. }
  rewrite E in Hr. contradiction.
Qed.

Lemma line_chart_of_import (df : list IndicatorRecord) (ind : string) :
  has_rows df ind = true ->
  line_chart df ind None =
  PxLine (rows_of_indicator df ind) ("📈 " ++ ind ++ " - Trend Analysis").
Proof.
  intros Hr. pose proof (has_rows_plotted df ind Hr) as Hne.
  unfold line_chart, plotted_rows.
  destruct df as [|r0 df0]; [now contradiction Hne|].
  destruct (rows_of_indicator (r0 :: df0) ind); [now contradiction Hne|].
  reflexivity.
Qed.

Lemma filter_all A (f : A -> bool) (l : list A) :
  (forall x, In x l -> f x = true) -> filter f l = l.
Proof.
  induction l as [|x l IH]; simpl; intros Hall; [reflexivity|].
  rewrite (Hall x (or_introl eq_refl)). f_equal. auto.
Qed.

Lemma enumerate_snd A (l : list A) (i : nat) : map snd (enumerate i l) = l.
Proof.
  revert i. induction l as [|x l IH]; intros i; simpl; [reflexivity|].
  f_equal. apply IH.
Qed.

(** X20. A click on the button that uses the imported rows, over a store
    with rows, leaves the world alone: nothing is requested, whatever is
    selected in the dropdowns. The view state gets the source "imported",
    the indicators of the rows and their country codes, each once, in
    order of first occurrence; there is one line chart per indicator of
    the rows, numbered from 0 without gaps, over all rows of the
    indicator. A later redraw with line charts, which filters the rows
    by the countries of the view state, gives the same figures. *)
Theorem fetch_and_display_data_imported W `{World W} (n : nat)
    (fetch_clicks : option nat)
    (selected_countries selected_indicators : list string) (year_range : Z * Z)
    (r : IndicatorRecord) (rows : list IndicatorRecord)
    (existing_data : store (list IndicatorRecord))
    (existing_ui_state : store ui_state) (w : W) :
  let df := r :: rows in
  let indicators := unique (map indicator df) in
  let out :=
    fetch_and_display_data (Some "use-imported-btn") fetch_clicks (Some (S n))
      selected_countries selected_indicators year_range
      (Stored df) existing_data existing_ui_state w in
  snd out = w /\
  exists o,
    fst out = Normal o /\
    out_data o = Stored df /\
    out_ui_state o =
      Stored {| ui_source := "imported";
                ui_indicators := indicators;
                ui_countries := unique (map country_code df) |} /\
    out_export_style o = DisplayBlock /\
    out_charts o =
      map (fun p =>
             Card {| card_index := fst p;
                     card_header := "📊 " ++ snd p;
                     card_chart_type := "line";
                     card_figure :=
                       PxLine (rows_of_indicator df (snd p))
                              ("📈 " ++ snd p ++ " - Trend Analysis") |})
          (enumerate 0 indicators) /\
    NoDup indicators /\
    (forall ind, In ind indicators <-> has_rows df ind = true) /\
    (forall chart_types,
       Forall (fun c => c = "line") chart_types ->
       update_chart_types chart_types (out_data o) (out_ui_state o) =
       Normal (card_figures (out_charts o))).
Proof.
  intros df indicators out.
  assert (Hind : forall ind, In ind indicators <-> has_rows df ind = true).
  { intros ind. subst indicators. rewrite unique_In, has_rows_In. reflexivity. }
  assert (Hcards : cards_of df indicators None =
            map (fun p =>
                   Card {| card_index := fst p;
                           card_header := "📊 " ++ snd p;
                           card_chart_type := "line";
                           card_figure :=
                             PxLine (rows_of_indicator df (snd p))
                                    ("📈 " ++ snd p ++ " - Trend Analysis") |})
                (enumerate 0 indicators)).
  { unfold cards_of.
    assert (Hall : forall p, In p (enumerate 0 indicators) ->
                             has_rows df (snd p) = true).
    { intros p Hin. apply Hind. rewrite <- (enumerate_snd indicators 0).
      apply in_map. exact Hin. }
    rewrite (filter_all (fun p => has_rows df (snd p)) _ Hall).
    apply map_ext_in. intros p Hin. unfold line_card.
    rewrite (line_chart_of_import df (snd p) (Hall p Hin)). reflexivity. }
  assert (Eout : out =
    (Normal {| out_charts := cards_of df indicators None;
               out_export := ExportCard;
               out_export_style := DisplayBlock;
               out_data := Stored df;
               out_ui_state :=
                 Stored {| ui_source := "imported";
                           ui_indicators := indicators;
                           ui_countries := unique (map country_code df) |} |}, w)).
  { subst out. unfold fetch_and_display_data.
    change (String.eqb "use-imported-btn" "use-imported-btn") with true.
    cbn [andb clicked stored_rows nonempty]. fold df.
    change (String.eqb "imported" "api") with false. cbv iota.
    fold indicators. subst df.
    rewrite create_charts_and_export_cards. reflexivity. }
  rewrite Eout. cbn [fst snd]. split; [reflexivity|].
  eexists. split; [reflexivity|].
  cbn [out_data out_ui_state out_export_style out_charts].
  split; [reflexivity|]. split; [reflexivity|]. split; [reflexivity|].
  split; [exact Hcards|]. split; [apply unique_NoDup|]. split; [exact Hind|].
  intros chart_types Hline.
  rewrite update_chart_types_lines; [|discriminate|right; exact Hline].
  cbn [ui_indicators ui_countries]. f_equal.
  rewrite card_figures_cards_of.
  apply map_ext_in. intros ind Hin. apply filter_In in Hin. destruct Hin as [_ Hr].
  rewrite (line_chart_of_import df ind Hr).
  apply line_chart_of_fetch; [|exact Hr].
  apply Forall_forall. intros r0 Hin. apply unique_In. apply in_map. exact Hin.
Qed.


(** X21. [fetch_and_display_data] raises in one case only: a click on the
    fetch button with countries and indicators selected, when
    [fetch_country_data] raises, which the callback does not catch; the
    cards are drawn without raising. It sends requests only for such a
    click; in every other case the world is left as it was. When it
    returns, the two stores it writes go together: both are set to {}, or
    the data store holds at least one row and the view state is set, and
    the export section is shown exactly in the second case. *)
Theorem fetch_and_display_data_outcome W `{World W}
    (triggered : option string) (fetch_clicks import_clicks : option nat)
    (selected_countries selected_indicators : list string) (year_range : Z * Z)
    (imported_data existing_data : store (list IndicatorRecord))
    (existing_ui_state : store ui_state) (w : W) :
  let out :=
    fetch_and_display_data triggered fetch_clicks import_clicks
      selected_countries selected_indicators year_range
      imported_data existing_data existing_ui_state w in
  let fetches :=
    match triggered with
    | Some trigger_id =>
        String.eqb trigger_id "fetch-data-btn" && clicked fetch_clicks
        && nonempty selected_countries && nonempty selected_indicators
    | None => false
    end in
  let fetch :=
    call_fetch_country_data (inr selected_countries) (fst year_range)
      (snd year_range) (Some selected_indicators) w in
  (fetches = false -> snd out = w) /\
  (fetches = true -> snd out = world (snd fetch)) /\
  (fst out = Raised <-> fetches = true /\ fst fetch = Raised) /\
  (forall o, fst out = Normal o ->
     out_data o = EmptyDict /\ out_ui_state o = EmptyDict /\
     out_export_style o = DisplayNone /\ out_export o = NoExport
     \/
     store_is_empty (out_data o) = false /\ ui_is_empty (out_ui_state o) = false /\
     out_export_style o = DisplayBlock /\ out_export o = ExportCard).
Proof.
  cbv zeta. unfold fetch_and_display_data.
  assert (Hnothing : forall P : Prop, Raised = Normal nothing_to_display -> P)
    by (intros P E; discriminate).
  destruct triggered as [trigger_id|].
  - destruct (String.eqb trigger_id "use-imported-btn" && clicked import_clicks
              && nonempty (stored_rows imported_data)) eqn:Eimp.
    + assert (Et : trigger_id = "use-imported-btn").
      { apply andb_true_iff in Eimp. destruct Eimp as [Eimp _].
        apply andb_true_iff in Eimp. destruct Eimp as [Eimp _].
        apply String.eqb_eq. exact Eimp. }
      subst trigger_id.
      change (String.eqb "use-imported-btn" "fetch-data-btn") with false.
      cbn [andb fst snd].
      split; [reflexivity|]. split; [discriminate|].
      destruct (stored_rows imported_data) as [|r rows];
        [apply andb_true_iff in Eimp; destruct Eimp; discriminate|].
      rewrite create_charts_and_export_cards.
      split; [split; [discriminate|intros [E _]; discriminate]|].
      intros o E. injection E as <-. right. repeat split.
    + destruct (String.eqb trigger_id "fetch-data-btn" && clicked fetch_clicks
                && nonempty selected_countries && nonempty selected_indicators)
        eqn:Efetch.
      * destruct (call_fetch_country_data (inr selected_countries) (fst year_range)
                    (snd year_range) (Some selected_indicators) w)
          as [[df|] st] eqn:Ecall; cbn [fst snd].
        -- split; [discriminate|]. split; [reflexivity|].
           destruct df as [|r rows].
           ++ split; [split; [discriminate|intros [_ E]; discriminate]|].
              intros o E. injection E as <-. left. repeat split.
           ++ rewrite create_charts_and_export_cards.
              split; [split; [discriminate|intros [_ E]; discriminate]|].
              intros o E. injection E as <-. right. repeat split.
        -- split; [discriminate|]. split; [reflexivity|].
           split; [split; auto|]. intros o E. discriminate.
      * cbn [fst snd]. split; [reflexivity|]. split; [discriminate|].
        split; [split; [discriminate|intros [E _]; discriminate]|].
        intros o E. injection E as <-. left. repeat split.
  - split; [|split; [discriminate|]].
    + destruct existing_data as [| |[|r rows]], existing_ui_state as [| |ui];
        try reflexivity.
      rewrite create_charts_and_export_cards. reflexivity.
    + destruct existing_data as [| |[|r rows]], existing_ui_state as [| |ui];
        try rewrite create_charts_and_export_cards; cbn [fst];
        (split; [split; [discriminate|intros [E _]; discriminate]|]);
        intros o E; injection E as <-;
        first [left; repeat split; reflexivity | right; repeat split; reflexivity].
Qed.

(** A payload whose country name is a list makes the callback raise. *)
Lemma fetch_and_display_data_raises_on_list_name :
  fst (fetch_and_display_data (Some "fetch-data-btn") (Some 1%nat) None
         ["USA"] ["GDP (Current US$)"] (2020, 2021)
         StoreNone StoreNone StoreNone list_name_world) = Raised.
Proof.
  destruct (@fetch_and_display_data_outcome scripted_world scripted_World
              (Some "fetch-data-btn") (Some 1%nat) None
              ["USA"] ["GDP (Current US$)"] (2020, 2021)
              StoreNone StoreNone StoreNone list_name_world)
    as (_ & _ & Hraise & _).
  apply Hraise. split; vm_compute; reflexivity.
Defined.


(** *** After clear_all_data *)

(** X22. Once the button that clears everything was clicked, the other
    callbacks find nothing to work on in the stores it reset, whatever
    fires them and whatever else they are given: no file is written and
    no export status shown, no chart is redrawn, no chart image is kept,
    the button for the imported rows displays nothing and requests
    nothing, and a callback run without a trigger displays nothing. *)
Theorem clear_all_data_silences_callbacks W `{World W} `{TextFormat}
    (n_clicks : nat) (s : app_state)
    (triggered : option string) (clicks1 clicks2 : option nat)
    (timestamp : string) (disk_ok : bool) (pdf_path : option string)
    (chart_types : list string) (figures : list Figure)
    (render : Figure -> option string)
    (selected_countries selected_indicators : list string) (year_range : Z * Z)
    (w : W) :
  let s' := on_clear_all (Some n_clicks) s in
  handle_exports triggered clicks1 clicks2 (data_store s') timestamp disk_ok
                 pdf_path = (NoExportStatus, None) /\
  update_chart_types chart_types (data_store s') (ui_state_store s') = Normal [] /\
  store_chart_images render figures chart_types (ui_state_store s') = [] /\
  fetch_and_display_data (Some "use-imported-btn") clicks1 clicks2
    selected_countries selected_indicators year_range
    (imported_data_store s') (data_store s') (ui_state_store s') w =
    (Normal nothing_to_display, w) /\
  fetch_and_display_data None clicks1 clicks2
    selected_countries selected_indicators year_range
    (imported_data_store s') (data_store s') (ui_state_store s') w =
    (Normal nothing_to_display, w).
Proof.
  cbv zeta. unfold on_clear_all, clear_all_data.
  cbn [data_store ui_state_store imported_data_store clear_data_store
       clear_ui_state_store clear_imported_data_store].
  split; [reflexivity|]. split; [reflexivity|].
  split; [destruct figures; reflexivity|].
  split; [|reflexivity].
  unfold fetch_and_display_data. cbn [stored_rows nonempty].
  rewrite andb_false_r.
  change (String.eqb "use-imported-btn" "fetch-data-btn") with false.
  reflexivity.
Qed.
